(** * Content-extraction scripts: a shallow embedding and its properties

    The development follows the five scripts under [scrapers/]:
    [alignment_forum_extract.py], [alignment_forum_meta.py],
    [arxiv_extract.py], [arxiv_meta.py] and [youtube_meta.py].

    Modelling conventions.
    - A Python [str] is a [string] of bytes.  Character classes ([\s],
      [\w], [\d], [str.strip], [str.isupper], ...) are the ASCII part of
      the Unicode tables Python uses; the only non-ASCII text the scripts
      produce themselves is the list bullet, kept as its UTF-8 bytes.
    - A regular expression of the source is written in a small syntax
      ([Re.regex]) and run by a backtracking matcher with Python's
      priorities (leftmost start, greedy repetition, first alternative
      first); [Re.search], [Re.match_] and [Re.sub] are [re.search],
      [re.match] and [re.sub].
    - A parsed page is a tree of elements and text nodes ([Dom.node]).
    - A function that can raise returns a [result]; a function that logs
      or touches the output file threads that state explicitly.
    - A JSON output file is missing, holds bytes that are not UTF-8, text
      that is not JSON, JSON that is not an object, or an object
      ([Json.file]); whether it can be opened for writing is a parameter
      of the functions that write it. *)

From Stdlib Require Import List String Ascii Bool Arith Lia Permutation.
Import ListNotations.
Local Open Scope string_scope.

(** ** Exceptions *)

Inductive exn : Type :=
| ValueError | IndexError | TypeError | AttributeError | StopIteration
| JSONDecodeError | UnicodeDecodeError | OSError | RequestException | PdfError.

Inductive result (A : Type) : Type :=
| Ok (a : A)
| Raise (e : exn).
Arguments Ok {A} a.
Arguments Raise {A} e.

(** What a run leaves behind: pages asked for, arXiv identifiers looked
    up, lines printed or logged, files written. A logged line is kept up
    to the text of the exception it quotes. *)
Inductive event : Type :=
| Fetched (url : string)
| Queried (arxiv_id : string)
| Printed (msg : string)
| Wrote (path : string) (text : string).

(** the pages asked for and the identifiers looked up, in order *)
Definition fetched (ev : list event) : list string :=
  flat_map (fun e => match e with Fetched u => [u] | _ => [] end) ev.

(** ** Python strings *)

Module Py.

Definition nl : ascii := "010"%char.

Definition code (c : ascii) : nat := nat_of_ascii c.

Definition between (lo hi : nat) (c : ascii) : bool :=
  ((lo <=? code c) && (code c <=? hi))%nat.

(** [str.isspace] on one character: TAB..CR, FS..US and the space. *)
Definition isspace (c : ascii) : bool := between 9 13 c || between 28 32 c.
Definition isdigit (c : ascii) : bool := between 48 57 c.
Definition isupper (c : ascii) : bool := between 65 90 c.
Definition islower (c : ascii) : bool := between 97 122 c.
Definition isalpha (c : ascii) : bool := isupper c || islower c.
(** the class [\w] *)
Definition isword (c : ascii) : bool :=
  isalpha c || isdigit c || Ascii.eqb c "_"%char.

Definition lower_char (c : ascii) : ascii :=
  if isupper c then ascii_of_nat (code c + 32) else c.

Fixpoint lower (s : string) : string :=
  match s with
  | EmptyString => EmptyString
  | String c s' => String (lower_char c) (lower s')
  end.

Fixpoint lstrip (s : string) : string :=
  match s with
  | EmptyString => EmptyString
  | String c s' => if isspace c then lstrip s' else s
  end.

Fixpoint rstrip (s : string) : string :=
  match s with
  | EmptyString => EmptyString
  | String c s' =>
      match rstrip s' with
      | EmptyString => if isspace c then EmptyString else String c EmptyString
      | r => String c r
      end
  end.

Definition strip (s : string) : string := rstrip (lstrip s).

(** truth value of a string: [if s:] *)
Definition truthy (s : string) : bool :=
  match s with EmptyString => false | _ => true end.

(** [s.startswith(p)] *)
Fixpoint startswith (p s : string) : bool :=
  match p with
  | EmptyString => true
  | String a p' =>
      match s with
      | EmptyString => false
      | String b s' => Ascii.eqb a b && startswith p' s'
      end
  end.

(** [sub in s] *)
Fixpoint contains (sub s : string) : bool :=
  startswith sub s ||
  match s with
  | EmptyString => false
  | String _ s' => contains sub s'
  end.

(** [s.split(sep)] for a one-character separator *)
Fixpoint split (sep : ascii) (s : string) : list string :=
  match s with
  | EmptyString => [EmptyString]
  | String c s' =>
      if Ascii.eqb c sep then EmptyString :: split sep s'
      else match split sep s' with
           | h :: t => String c h :: t
           | [] => [String c EmptyString]
           end
  end.

(** [sep.join(ls)] *)
Definition join (sep : string) (ls : list string) : string :=
  String.concat sep ls.

Fixpoint drop (n : nat) (s : string) : string :=
  match n, s with
  | S n', String _ s' => drop n' s'
  | _, _ => s
  end.

(** [s[:n]] *)
Definition take (n : nat) (s : string) : string := String.substring 0 n s.

(** [str(n)] for a natural number below 100, zero-padded to width 2:
    the format [{n:02d}] *)
Definition digit_char (n : nat) : ascii := ascii_of_nat (48 + n).

Fixpoint decimal_fuel (fuel n : nat) (acc : string) : string :=
  match fuel with
  | 0 => acc
  | S f =>
      let acc' := String (digit_char (n mod 10)) acc in
      if (n / 10 =? 0)%nat then acc' else decimal_fuel f (n / 10) acc'
  end.

Definition decimal (n : nat) : string := decimal_fuel (S n) n EmptyString.

Definition format_02d (n : nat) : string :=
  if (n <? 10)%nat then String "0"%char (decimal n) else decimal n.

(** [int(s)] on a string of ASCII digits *)
Definition int_of_digits (s : string) : nat :=
  (fix go (s : string) (acc : nat) : nat :=
     match s with
     | EmptyString => acc
     | String c s' => go s' (10 * acc + (code c - 48))
     end) s 0.

End Py.

(** ** Regular expressions *)

Module Re.

Inductive regex : Type :=
| Eps
| Chr (c : ascii)                         (* a literal character *)
| Cls (p : ascii -> bool)                 (* a character class *)
| Cat (r1 r2 : regex)
| Alt (r1 r2 : regex)                     (* r1|r2 *)
| Rep (p : ascii -> bool) (lo : nat) (hi : option nat)
                                          (* greedy class{lo,hi} *)
| Opt (r : regex)                         (* greedy r? *)
| Grp (i : nat) (r : regex)               (* capturing group number i *)
| Ahead (r : regex)                       (* (?=r) *)
| Bol                                     (* ^ *)
| Eol.                                    (* $ *)

Definition seq (rs : list regex) : regex := fold_right Cat Eps rs.

Fixpoint lit (s : string) : regex :=
  match s with
  | EmptyString => Eps
  | String c s' => Cat (Chr c) (lit s')
  end.

Definition plus (p : ascii -> bool) : regex := Rep p 1 None.
Definition star (p : ascii -> bool) : regex := Rep p 0 None.

(** the class [.]: anything but a newline *)
Definition dot (c : ascii) : bool := negb (Ascii.eqb c Py.nl).
Fixpoint one_of (cs : string) (c : ascii) : bool :=
  match cs with
  | EmptyString => false
  | String c' cs' => Ascii.eqb c' c || one_of cs' c
  end.
Definition chr (c0 c : ascii) : bool := Ascii.eqb c0 c.

(** captured groups, most recent binding first *)
Definition caps : Type := list (nat * string).

Fixpoint group (i : nat) (g : caps) : option string :=
  match g with
  | [] => None
  | (j, s) :: g' => if (i =? j)%nat then Some s else group i g'
  end.

(** Greedy repetition of a class: take as many characters as allowed,
    then give them back one at a time until the rest matches. *)
Fixpoint rep {R : Type} (p : ascii -> bool) (lo : nat) (hi : option nat)
    (s : string) (n : nat) (k : string -> nat -> option R) : option R :=
  let stop := match lo with 0 => k s n | S _ => None end in
  match hi with
  | Some 0 => stop
  | _ =>
      match s with
      | String c s' =>
          if p c then
            match rep p (pred lo) (option_map pred hi) s' (S n) k with
            | Some x => Some x
            | None => stop
            end
          else stop
      | EmptyString => stop
      end
  end.

(** [run r s n g k]: match [r] at the front of [s], which starts at
    offset [n] of the subject, with groups [g]; [k] is the rest of the
    pattern.  [None] is failure, which makes the caller backtrack. *)
Fixpoint run (r : regex) {R : Type} (s : string) (n : nat) (g : caps)
    (k : string -> nat -> caps -> option R) {struct r} : option R :=
  match r with
  | Eps => k s n g
  | Chr c =>
      match s with
      | String c' s' => if Ascii.eqb c c' then k s' (S n) g else None
      | EmptyString => None
      end
  | Cls p =>
      match s with
      | String c' s' => if p c' then k s' (S n) g else None
      | EmptyString => None
      end
  | Cat r1 r2 => run r1 s n g (fun s' n' g' => run r2 s' n' g' k)
  | Alt r1 r2 =>
      match run r1 s n g k with
      | Some x => Some x
      | None => run r2 s n g k
      end
  | Rep p lo hi => rep p lo hi s n (fun s' n' => k s' n' g)
  | Opt r1 =>
      match run r1 s n g k with
      | Some x => Some x
      | None => k s n g
      end
  | Grp i r1 =>
      run r1 s n g (fun s' n' g' => k s' n' ((i, Py.take (n' - n) s) :: g'))
  | Ahead r1 =>
      match run r1 s n g (fun _ _ g' => Some g') with
      | Some g' => k s n g'
      | None => None
      end
  | Bol => if (n =? 0)%nat then k s n g else None
  | Eol =>
      match s with
      | EmptyString => k s n g
      | String c EmptyString => if Ascii.eqb c Py.nl then k s n g else None
      | _ => None
      end
  end.

(** A match at offset [pos]: the end offset and the groups.  With
    [must_advance] an empty match at [pos] is refused. *)
Definition match_at (r : regex) (s : string) (pos : nat) (must_advance : bool)
  : option (nat * caps) :=
  run r s pos []
      (fun _ e g => if must_advance && (e =? pos)%nat then None else Some (e, g)).

Record found : Type := Found { m_start : nat; m_end : nat; m_groups : caps }.

Fixpoint search_from (r : regex) (s : string) (pos : nat) : option found :=
  match match_at r s pos false with
  | Some (e, g) => Some (Found pos e g)
  | None =>
      match s with
      | EmptyString => None
      | String _ s' => search_from r s' (S pos)
      end
  end.

(** [re.search(r, s)] *)
Definition search (r : regex) (s : string) : option found := search_from r s 0.

(** [re.match(r, s)] *)
Definition match_ (r : regex) (s : string) : option found :=
  match match_at r s 0 false with
  | Some (e, g) => Some (Found 0 e g)
  | None => None
  end.

(** [m.group(i)] for [i >= 1]; a group that took no part is [None] *)
Definition m_group (m : found) (i : nat) : option string := group i (m_groups m).

(** replacement templates: literal text and back-references [\i] *)
Inductive piece : Type :=
| Text (s : string)
| Back (i : nat).

Fixpoint expand (t : list piece) (g : caps) : string :=
  match t with
  | [] => EmptyString
  | Text s :: t' => s ++ expand t' g
  | Back i :: t' =>
      match group i g with
      | Some s => s ++ expand t' g
      | None => expand t' g
      end
  end.

(** [re.sub]: at each offset try a match; a match is replaced and its
    characters are skipped, otherwise the character is copied.  After an
    empty match the same offset is tried again for a non-empty one.
    [skip] counts the characters still covered by the last match. *)
Fixpoint sub_from (r : regex) (t : list piece) (s : string) (pos skip : nat)
  : string :=
  match skip with
  | S k =>
      match s with
      | EmptyString => EmptyString
      | String _ s' => sub_from r t s' (S pos) k
      end
  | 0 =>
      match s with
      | EmptyString =>
          match match_at r s pos false with
          | Some (_, g) => expand t g
          | None => EmptyString
          end
      | String c s' =>
          match match_at r s pos false with
          | Some (e, g) =>
              if (e =? pos)%nat then
                expand t g ++
                match match_at r s pos true with
                | Some (e', g') =>
                    expand t g' ++ sub_from r t s' (S pos) (e' - pos - 1)
                | None => String c (sub_from r t s' (S pos) 0)
                end
              else expand t g ++ sub_from r t s' (S pos) (e - pos - 1)
          | None => String c (sub_from r t s' (S pos) 0)
          end
      end
  end.

Definition sub (r : regex) (t : list piece) (s : string) : string :=
  sub_from r t s 0 0.

End Re.

(** ** Parsed pages *)

Module Dom.

#[local] Set Warnings "-register-all".

Inductive node : Type :=
| Txt (s : string)
| Tag (name : string) (classes : list string) (children : list node).

Definition tag_name (n : node) : string :=
  match n with Txt _ => EmptyString | Tag nm _ _ => nm end.

Definition has_class (k : string) (n : node) : bool :=
  match n with
  | Txt _ => false
  | Tag _ cl _ => existsb (String.eqb k) cl
  end.

Definition named (names : list string) (n : node) : bool :=
  match n with
  | Txt _ => false
  | Tag nm _ _ => existsb (String.eqb nm) names
  end.

(** [elem.get_text()]: the text nodes below, concatenated *)
Fixpoint get_text (n : node) : string :=
  match n with
  | Txt s => s
  | Tag _ _ cs => String.concat EmptyString (map get_text cs)
  end.

(** the elements strictly below [n], in document order *)
Fixpoint descendants (n : node) : list node :=
  match n with
  | Txt _ => []
  | Tag _ _ cs =>
      flat_map (fun c => match c with
                         | Txt _ => []
                         | Tag _ _ _ => c :: descendants c
                         end) cs
  end.

(** [n.find(class_=k)] *)
Definition find_class (k : string) (n : node) : option node :=
  List.find (has_class k) (descendants n).

(** [n.find_all(class_=k)] and [n.find_all(names)] *)
Definition find_all_class (k : string) (n : node) : list node :=
  filter (has_class k) (descendants n).
Definition find_all (names : list string) (n : node) : list node :=
  filter (named names) (descendants n).

(** [for e in n.find_all(..): e.decompose()]: every element below [n]
    that satisfies [p] is cut out with its subtree *)
Fixpoint decompose_all (p : node -> bool) (n : node) : node :=
  match n with
  | Txt s => Txt s
  | Tag nm cl cs =>
      Tag nm cl (flat_map (fun c => if p c then [] else [decompose_all p c]) cs)
  end.

End Dom.

(** ** alignment_forum_extract.py *)

Module alignment_forum_extract.
Import Py Re Dom.

Definition NL : string := String nl EmptyString.
Definition NLNL : string := String nl (String nl EmptyString).

(** the class [[\w\s,]] *)
Definition name_chr (c : ascii) : bool := isword c || isspace c || chr "," c.

Definition ordinal : regex :=
  Opt (Alt (lit "st") (Alt (lit "nd") (Alt (lit "rd") (lit "th")))).

(** [by\s+[\w\s,]+\d{1,2}(?:st|nd|rd|th)?\s+[A-Z][a-z]+\s+\d{4}.*$] *)
Definition by_names_date : regex :=
  seq [lit "by"; plus isspace; plus name_chr; Rep isdigit 1 (Some 2); ordinal;
       plus isspace; Cls isupper; plus islower; plus isspace;
       Rep isdigit 4 (Some 4); star dot; Eol].

(** [by\s+[\w\s,]+$] *)
Definition by_names : regex := seq [lit "by"; plus isspace; plus name_chr; Eol].

(** [\d+\s*min read\d*$] *)
Definition min_read : regex :=
  seq [plus isdigit; star isspace; lit "min read"; star isdigit; Eol].

Definition clean_title (text : string) : string :=
  let cleaned := sub by_names_date [] text in
  let cleaned := sub by_names [] cleaned in
  let cleaned := sub min_read [] cleaned in
  strip cleaned.

(** [by\s+([\w\s,]+)] *)
Definition author_re : regex := seq [lit "by"; plus isspace; Grp 1 (plus name_chr)].

(** [(\d{1,2}(?:st|nd|rd|th)?\s+[A-Z][a-z]+\s+\d{4})] *)
Definition date_re : regex :=
  Grp 1 (seq [Rep isdigit 1 (Some 2); ordinal; plus isspace; Cls isupper;
              plus islower; plus isspace; Rep isdigit 4 (Some 4)]).

Definition group1 (m : option found) : option string :=
  match m with
  | Some f => m_group f 1
  | None => None
  end.

(** U+2022 in UTF-8 *)
Definition bullet : string :=
  String (ascii_of_nat 226) (String (ascii_of_nat 128)
    (String (ascii_of_nat 162) EmptyString)).

Definition noise : list string :=
  ["new comment"; "mentioned in"; "load more"; "karma"; "vote"; "share";
   "find out when"; "read the full post"; "this is a linkpost"].

Definition unwanted_classes : list string :=
  ["CommentsSection"; "PostsVote"; "PostsPageCommentThread";
   "ArticleNavigationLinks"; "PostsPageHeaderTags"].

(** the two loop variables of the body walk *)
Record walk : Type := Walk { content : list string; last_text : option string }.

Definition differs (text : string) (last : option string) : bool :=
  match last with
  | None => true
  | Some l => negb (String.eqb text l)
  end.

(** one iteration of [for elem in content_area.find_all([...])] *)
Definition visit (w : walk) (elem : node) : walk :=
  let text := strip (get_text elem) in
  if negb (truthy text) || existsb (fun x => contains x (lower text)) noise
  then w
  else if differs text (last_text w) then
    let text := if String.eqb (tag_name elem) "li"
                then bullet ++ " " ++ text else text in
    let content := if startswith "h" (tag_name elem)
                      && negb (Nat.eqb (List.length (content w)) 0)
                   then (content w ++ [EmptyString])%list else content w in
    Walk (content ++ [text])%list (Some text)
  else w.

Definition walk_elems (elems : list node) : walk :=
  fold_left visit elems (Walk [] None).

(** the content area with the unwanted elements cut out *)
Definition prune (content_area : node) : node :=
  fold_left (fun area k => decompose_all (has_class k) area) unwanted_classes
            (decompose_all (named ["script"; "style"; "iframe"]) content_area).

(** [article_data['content']] once the walk is over *)
Definition body_lines (content_area : node) : list string :=
  content (walk_elems (find_all ["p"; "h1"; "h2"; "h3"; "h4"; "li"]
                                (prune content_area))).

Definition first_of {A} (a b : option A) : option A :=
  match a with Some _ => a | None => b end.

Definition find_content_area (soup : node) : option node :=
  first_of (find_class "PostsPage-postContent" soup)
    (first_of (find_class "ContentStyles-postBody" soup)
              (find_class "PostsPage-centralColumn" soup)).

Definition title_of (soup : node) : string :=
  match find_class "LWPostsPageHeader-title" soup with
  | Some e => clean_title (strip (get_text e))
  | None => EmptyString
  end.

Definition metadata_parts (soup : node) : list string :=
  ((match find_class "LWPostsPageHeader-authorInfo" soup with
   | Some e =>
       match group1 (search author_re (strip (get_text e))) with
       | Some a => [("by " ++ strip a)%string]
       | None => []
       end
   | None => []
   end) ++
  (match find_class "LWPostsPageHeader-date" soup with
   | Some e =>
       match group1 (search date_re (strip (get_text e))) with
       | Some d => [d]
       | None => []
       end
   | None => []
   end))%list.

(** [\n{3,}] *)
Definition newlines3 : regex := Rep (chr nl) 3 None.

Definition clean_content (soup : node) : string :=
  let title := title_of soup in
  let metadata := join " | " (metadata_parts soup) in
  let content := match find_content_area soup with
                 | Some area => body_lines area
                 | None => []
                 end in
  let output_parts :=
    ((if truthy title then [title] else []) ++
     (if truthy metadata then [metadata] else []) ++ content)%list in
  let full_text := join NLNL (filter truthy output_parts) in
  sub newlines3 [Text NLNL] full_text.

(** [/posts/([^/]+)] *)
Definition post_id_re : regex :=
  seq [lit "/posts/"; Grp 1 (plus (fun c => negb (chr "/" c)))].

Section Run.
(** [requests.get(url)], [raise_for_status()] and the parse: the page, or
    the exception of a failed request *)
Variable http_get : string -> result node.
(** whether [open(path, 'w')] and the write go through *)
Variable writable : string -> bool.
(** [datetime.now().strftime('%Y%m%d_%H%M%S')] *)
Variable now : string.

(** [save_content]: the path written, or [None] after a caught error *)
Definition save_content (content url : string) : list event * option string :=
  let filename :=
    match group1 (search post_id_re url) with
    | Some id => "post_" ++ id ++ ".txt"
    | None => "post_" ++ now ++ ".txt"
    end in
  let filepath := "extract/alignment_forum/" ++ filename in
  if writable filepath then ([Wrote filepath content], Some filepath)
  else ([Printed "Error saving content"], None).

Definition process_url (url : string) : list event :=
  if negb (contains "alignmentforum.org" url) then
    [Printed ("Error: URL " ++ url ++ " is not from alignmentforum.org")]
  else
    (Printed ("Processing URL: " ++ url) :: Fetched url ::
     match http_get url with
     | Raise _ => [Printed ("Error processing " ++ url)]
     | Ok soup =>
         Printed "Got response, parsing content..." ::
         let content := clean_content soup in
         if truthy (strip content) then
           match save_content content url with
           | (ev, Some filepath) =>
               ev ++ [Printed ("Saved content to " ++ filepath)]
           | (ev, None) => ev
           end
         else [Printed "No content extracted"]
     end)%list.

(** [main] with [--file]: the lines of the file, trimmed, blanks dropped *)
Definition urls_of (lines : list string) : list string :=
  filter truthy (map strip lines).

Definition main_file (lines : list string) : list event :=
  flat_map process_url (urls_of lines).

End Run.

End alignment_forum_extract.

(** ** JSON objects on disk *)

Module Json.

Section Dict.
Variable V : Type.

(** a [dict] with string keys, in insertion order *)
Definition dict : Type := list (string * V).

(** [d[k] = v] *)
Fixpoint setitem (k : string) (v : V) (d : dict) : dict :=
  match d with
  | [] => [(k, v)]
  | (k', v') :: d' =>
      if String.eqb k k' then (k, v) :: d' else (k', v') :: setitem k v d'
  end.

(** [d.get(k)] *)
Fixpoint get (k : string) (d : dict) : option V :=
  match d with
  | [] => None
  | (k', v') :: d' => if String.eqb k k' then Some v' else get k d'
  end.

Definition keys (d : dict) : list string := map fst d.

(** the dict the decoder builds from the members of an object, read in
    order: a repeated name keeps its first place and its last value *)
Definition of_members (ms : list (string * V)) : dict :=
  fold_left (fun d kv => setitem (fst kv) (snd kv) d) ms [].

(** [sorted(d.items())]: a stable sort on the keys *)
Fixpoint insert (kv : string * V) (l : list (string * V)) : list (string * V) :=
  match l with
  | [] => [kv]
  | kv' :: l' =>
      if String.leb (fst kv) (fst kv') then kv :: l else kv' :: insert kv l'
  end.

Definition sorted (l : list (string * V)) : list (string * V) :=
  fold_right insert [] l.

(** what the output file holds *)
Inductive file : Type :=
| Absent                                    (* no such file *)
| NotText                                   (* bytes that are not UTF-8 *)
| Garbled                                   (* text that is not JSON *)
| NotObject                                 (* JSON, but not an object *)
| Object (members : list (string * V)).     (* a JSON object *)

(** what [json.load] returns: a [dict], or a value of another type *)
Inductive loaded : Type :=
| Dict (d : dict)
| NotDict.

(** [os.path.exists(path)] *)
Definition exists_ (f : file) : bool :=
  match f with Absent => false | _ => true end.

(** [open(path, 'r', encoding='utf-8')] and [json.load(f)] *)
Definition load (f : file) : result loaded :=
  match f with
  | Absent => Raise OSError
  | NotText => Raise UnicodeDecodeError
  | Garbled => Raise JSONDecodeError
  | NotObject => Ok NotDict
  | Object ms => Ok (Dict (of_members ms))
  end.

(** [json.dump(d, f)] *)
Definition dump (d : dict) : file := Object d.

End Dict.

Arguments setitem {V}.
Arguments get {V}.
Arguments keys {V}.
Arguments of_members {V}.
Arguments insert {V}.
Arguments sorted {V}.
Arguments Absent {V}.
Arguments NotText {V}.
Arguments Garbled {V}.
Arguments NotObject {V}.
Arguments Object {V}.
Arguments Dict {V}.
Arguments NotDict {V}.
Arguments exists_ {V}.
Arguments load {V}.
Arguments dump {V}.

End Json.

(** ** alignment_forum_meta.py *)

Module alignment_forum_meta.
Import Py Re Dom.

Definition letter (c : ascii) : bool := isupper c || islower c.

(** [(\d{1,2})(?:st|nd|rd|th)?\s+([A-Za-z]+)\s+(\d{4})] *)
Definition date_pattern : regex :=
  seq [Grp 1 (Rep isdigit 1 (Some 2)); alignment_forum_extract.ordinal;
       plus isspace; Grp 2 (plus letter); plus isspace;
       Grp 3 (Rep isdigit 4 (Some 4))].

Definition month_abbr : list string :=
  ["jan"; "feb"; "mar"; "apr"; "may"; "jun";
   "jul"; "aug"; "sep"; "oct"; "nov"; "dec"].

Fixpoint index_of (x : string) (l : list string) : option nat :=
  match l with
  | [] => None
  | y :: l' => if String.eqb x y then Some 0 else option_map S (index_of x l')
  end.

(** [datetime.strptime(s, '%b').month]: the whole of [s] must be an
    abbreviated month name, in any letter case *)
Definition strptime_b_month (s : string) : result nat :=
  match index_of (lower s) month_abbr with
  | Some i => Ok (S i)
  | None => Raise ValueError
  end.

Definition parse_date (date_str : string) : result (option string) :=
  match search date_pattern date_str with
  | Some m =>
      match m_group m 1, m_group m 2, m_group m 3 with
      | Some day, Some month, Some year =>
          match strptime_b_month (take 3 month) with
          | Ok month_num =>
              Ok (Some (year ++ "-" ++ format_02d month_num ++ "-"
                             ++ format_02d (int_of_digits day)))
          | Raise e => Raise e
          end
      | _, _, _ => Raise TypeError
      end
  | None => Ok None
  end.

Record metadata : Type := Metadata {
  title : string;
  authors : list string;
  published_date : option string;
  url : string
}.

Definition store : Type := Json.file metadata.

(** [load_existing_data]: no handler around [json.load] *)
Definition load_existing_data (output_file : store)
  : result (Json.loaded metadata) :=
  if Json.exists_ output_file then Json.load output_file
  else Ok (Json.Dict []).

(** [save_metadata]: the output file afterwards, and how the call ends.
    [writable] is whether [open(self.output_file, 'w')] goes through:
    the script never makes the directory [metadata/]. *)
Definition save_metadata (writable : bool)
    (existing_data : Json.loaded metadata) (output_file : store)
  : store * result unit :=
  match existing_data with
  | Json.NotDict => (output_file, Raise AttributeError)   (* [.items()] *)
  | Json.Dict d =>
      if writable then (Json.dump (Json.sorted d), Ok tt)
      else (output_file, Raise OSError)
  end.

(** [by\s+([\w\s,]+)] and the two title patterns are those of the
    article extractor *)
Definition title_of (soup : node) : string :=
  match find_class "LWPostsPageHeader-title" soup with
  | Some e =>
      strip (sub alignment_forum_extract.by_names []
               (sub alignment_forum_extract.by_names_date []
                    (strip (get_text e))))
  | None => EmptyString
  end.

Definition authors_of (soup : node) : list string :=
  match find_class "LWPostsPageHeader-authorInfo" soup with
  | Some e =>
      match alignment_forum_extract.group1
              (search alignment_forum_extract.author_re (strip (get_text e))) with
      | Some names => map strip (split ","%char names)
      | None => []
      end
  | None => []
  end.

Definition date_of (soup : node) : result (option string) :=
  match find_class "LWPostsPageHeader-date" soup with
  | Some e => parse_date (strip (get_text e))
  | None => Ok None
  end.

Section Run.
Variable http_get : string -> result node.
Variable writable : bool.

(** the body of the [try] in [extract_metadata] *)
Definition extract_metadata_try (url : string) : result (string * metadata) :=
  match http_get url with
  | Raise e => Raise e
  | Ok soup =>
      match alignment_forum_extract.group1
              (search alignment_forum_extract.post_id_re url) with
      | None => Raise AttributeError
      | Some post_id =>
          match date_of soup with
          | Raise e => Raise e
          | Ok published =>
              Ok (post_id,
                  Metadata (title_of soup) (authors_of soup) published url)
          end
      end
  end.

Definition extract_metadata (url : string)
  : list event * option (string * metadata) :=
  match extract_metadata_try url with
  | Ok r => ([Fetched url], Some r)
  | Raise _ => ([Fetched url; Printed ("Error processing " ++ url)], None)
  end.

(** the extractor object: what [json.load] gave, as it is in memory, and
    the file on disk *)
Record extractor : Type := Extractor {
  existing_data : Json.loaded metadata;
  output_file : store
}.

(** [MetadataExtractor()] *)
Definition init (output_file : store) : result extractor :=
  match load_existing_data output_file with
  | Ok d => Ok (Extractor d output_file)
  | Raise e => Raise e
  end.

(** [self.existing_data[post_id] = metadata; self.save_metadata()]: the
    item assignment raises on a value that is no dict, and a save that
    fails leaves the new item in memory *)
Definition record_metadata (self : extractor) (post_id : string) (md : metadata)
  : extractor * result unit :=
  match existing_data self with
  | Json.NotDict => (self, Raise TypeError)
  | Json.Dict d =>
      let data := Json.Dict (Json.setitem post_id md d) in
      let '(f, r) := save_metadata writable data (output_file self) in
      (Extractor data f, r)
  end.

(** [process_url] has no handler of its own: what the item assignment or
    the save raises goes to the caller *)
Definition process_url (self : extractor) (url : string)
  : list event * extractor * result unit :=
  if negb (contains "alignmentforum.org" url) then
    ([Printed ("Error: URL " ++ url ++ " is not from alignmentforum.org")],
     self, Ok tt)
  else
    match extract_metadata url with
    | (ev, Some (post_id, md)) =>
        let '(self1, r) := record_metadata self post_id md in
        (Printed ("Processing URL: " ++ url) :: ev, self1, r)
    | (ev, None) => (Printed ("Processing URL: " ++ url) :: ev, self, Ok tt)
    end.

(** [for url in urls: self.process_url(url)]; an exception leaves the
    loop *)
Fixpoint process_urls (self : extractor) (urls : list string)
  : list event * extractor * result unit :=
  match urls with
  | [] => ([], self, Ok tt)
  | url :: rest =>
      match process_url self url with
      | (ev, self1, Ok _) =>
          let '(ev', self2, r) := process_urls self1 rest in
          ((ev ++ ev')%list, self2, r)
      | (ev, self1, Raise e) => (ev, self1, Raise e)
      end
  end.

(** [process_urls_from_file], once the file is read: its
    [except Exception] prints and returns *)
Definition process_urls_from_file (self : extractor) (urls : list string)
  : list event * extractor :=
  match process_urls self urls with
  | (ev, self1, Ok _) => (ev, self1)
  | (ev, self1, Raise _) => ((ev ++ [Printed "Error reading file"])%list, self1)
  end.

(** [main] with [--file]; [Raise] is the traceback of an uncaught
    exception *)
Definition main_file (lines : list string) (output_file : store)
  : result (list event * extractor) :=
  match init output_file with
  | Raise e => Raise e
  | Ok self =>
      Ok (process_urls_from_file self (alignment_forum_extract.urls_of lines))
  end.

End Run.

End alignment_forum_meta.

(** ** The arXiv client's result object *)

Module Arxiv.

(** a [datetime], through the three renderings the scripts ask for *)
Record datetime : Type := Datetime {
  ymd : string;          (* strftime('%Y-%m-%d') *)
  d_month_y : string;    (* strftime('%d %B %Y') *)
  isoformat : string
}.

Record Result : Type := MkResult {
  title : string;
  authors : list string;           (* [author.name for author in authors] *)
  summary : string;
  published : option datetime;
  updated : option datetime;
  doi : option string;
  journal_ref : option string;
  categories : list string;
  pdf_url : string
}.

End Arxiv.

(** ** arxiv_extract.py *)

Module arxiv_extract.
Import Py Re.

Definition NL : string := alignment_forum_extract.NL.
Definition NLNL : string := alignment_forum_extract.NLNL.

(** *** TextCleaner *)

(** [^(abstract|introduction|...|acknowledgments)] *)
Definition section_headers : regex :=
  seq [Bol;
       Grp 1 (Alt (lit "abstract") (Alt (lit "introduction")
             (Alt (lit "background") (Alt (lit "methodology")
             (Alt (lit "methods") (Alt (lit "results")
             (Alt (lit "discussion") (Alt (lit "conclusion")
             (Alt (lit "references") (lit "acknowledgments"))))))))))].

(** [(Figure|Fig\.|Table)\s+\d+] *)
Definition figure_pattern : regex :=
  seq [Grp 1 (Alt (lit "Figure") (Alt (lit "Fig.") (lit "Table")));
       plus isspace; plus isdigit].

(** [(\w+)-\n(\w+)] replaced by [\1\2] *)
Definition dehyphenate (text : string) : string :=
  sub (seq [Grp 1 (plus isword); Chr "-"; Chr nl; Grp 2 (plus isword)])
      [Back 1; Back 2] text.

Definition fix_spacing (text : string) : string :=
  (* [ +] *)
  let text := sub (plus (chr " ")) [Text " "] text in
  (* [\.(?=[A-Z])] *)
  let text := sub (seq [Chr "."; Ahead (Cls isupper)]) [Text ". "] text in
  (* [\s+([.,;:?\)])] *)
  let text := sub (seq [plus isspace; Grp 1 (Cls (one_of ".,;:?)"))])
                  [Back 1] text in
  (* [([.,;:?!])([A-Z])] *)
  sub (seq [Grp 1 (Cls (one_of ".,;:?!")); Grp 2 (Cls isupper)])
      [Back 1; Text " "; Back 2] text.

(** the two loop variables of [merge_columns] *)
Record columns : Type := Columns { merged_lines : list string; buffer : string }.

Definition merge_line (st : columns) (line : string) : columns :=
  if startswith "    " line then
    Columns (merged_lines st) (buffer st ++ " " ++ strip line)
  else
    Columns (if truthy (buffer st)
             then (merged_lines st ++ [buffer st])%list else merged_lines st)
            (strip line).

(** [merged_lines] when [merge_columns] reaches its [return] *)
Definition merge_columns_lines (text : string) : list string :=
  let st := fold_left merge_line (split nl text) (Columns [] EmptyString) in
  if truthy (buffer st) then (merged_lines st ++ [buffer st])%list
  else merged_lines st.

Definition merge_columns (text : string) : string :=
  join NL (merge_columns_lines text).

Fixpoint times (s : string) (n : nat) : string :=
  match n with 0 => EmptyString | S n' => s ++ times s n' end.

Definition format_section (section_text : string) (level : nat) : string :=
  NL ++ times "#" level ++ " " ++ strip section_text ++ NL.

(** [l[-1] = f(l[-1])] on a list that is not empty *)
Fixpoint update_last (f : string -> string) (l : list string) : list string :=
  match l with
  | [] => []
  | [x] => [f x]
  | x :: l' => x :: update_last f l'
  end.

(** the two loop variables of [clean_text] *)
Record cleaning : Type :=
  Cleaning { processed_lines : list string; current_section : string }.

Definition found_some (m : option found) : bool :=
  match m with Some _ => true | None => false end.

(** one iteration of [for i, line in enumerate(lines)] *)
Definition clean_line (st : cleaning) (line : string) : result cleaning :=
  let line := strip line in
  if negb (truthy line) then Ok st
  else if found_some (match_ section_headers (lower line)) then
    let pl := if truthy (current_section st)
              then (processed_lines st ++ [EmptyString])%list
              else processed_lines st in
    Ok (Cleaning (pl ++ [format_section line 1])%list line)
  else if found_some (match_ figure_pattern line) then
    Ok (Cleaning (processed_lines st ++ [EmptyString; line; EmptyString])%list
                 (current_section st))
  else
    let line := fix_spacing line in
    match processed_lines st with
    | [] => Ok (Cleaning [line] (current_section st))
    | _ :: _ =>
        match line with
        | EmptyString => Raise IndexError          (* [line[0]] *)
        | String c _ =>
            if negb (isupper c) && negb (isdigit c) then
              Ok (Cleaning
                    (update_last (fun l => l ++ " " ++ line) (processed_lines st))
                    (current_section st))
            else
              Ok (Cleaning (processed_lines st ++ [line])%list
                           (current_section st))
        end
    end.

Fixpoint clean_lines (st : cleaning) (lines : list string) : result cleaning :=
  match lines with
  | [] => Ok st
  | line :: rest =>
      match clean_line st line with
      | Ok st' => clean_lines st' rest
      | Raise e => Raise e
      end
  end.

Definition clean_text (text : string) : result string :=
  let text := strip text in
  let text := dehyphenate text in
  match clean_lines (Cleaning [] EmptyString) (split nl text) with
  | Ok st =>
      let text := join NL (processed_lines st) in
      Ok (sub alignment_forum_extract.newlines3 [Text NLNL] text)
  | Raise e => Raise e
  end.

(** *** ArxivExtractor.extract_text_from_pdf *)

(** what [page.extract_text(...)] does on a page: returns text, returns
    [None], or raises *)
Inductive page : Type :=
| PageText (text : string)
| PageNone
| PageRaises.

(** the bytes of a PDF: a document [pdfplumber.open] rejects, or pages *)
Inductive pdf : Type :=
| Unreadable
| Pages (pages : list page).

Definition extract_text (pg : page) : result (option string) :=
  match pg with
  | PageText t => Ok (Some t)
  | PageNone => Ok None
  | PageRaises => Raise PdfError
  end.

(** [for i, page in enumerate(pdf.pages)], with [text_content] *)
Fixpoint extract_pages (pages : list page) (text_content : list string)
  : result (list string) :=
  match pages with
  | [] => Ok text_content
  | pg :: rest =>
      match extract_text pg with
      | Raise e => Raise e
      | Ok (Some text) =>
          if truthy text
          then extract_pages rest (text_content ++ [merge_columns text])%list
          else extract_pages rest text_content
      | Ok None => extract_pages rest text_content
      end
  end.

(** the body of the [try] *)
Definition extract_text_try (pdf_content : pdf) : result string :=
  match pdf_content with
  | Unreadable => Raise PdfError
  | Pages pages =>
      match extract_pages pages [] with
      | Raise e => Raise e
      | Ok text_content => clean_text (join NL text_content)
      end
  end.

(** the text returned and the lines logged *)
Definition extract_text_from_pdf (pdf_content : pdf) : string * list event :=
  match extract_text_try pdf_content with
  | Ok text => (text, [])
  | Raise _ => (EmptyString, [Printed "Error extracting text from PDF"])
  end.

(** *** ArxivExtractor: one URL, and a file of URLs *)

(** [\s+] replaced by one space, then trimmed: [clean_title] and
    [clean_abstract] *)
Definition clean_title (text : string) : string :=
  strip (sub (plus isspace) [Text " "] text).
Definition clean_abstract (text : string) : string :=
  strip (sub (plus isspace) [Text " "] text).

Definition arxiv_number : regex := seq [plus isdigit; Chr "."; plus isdigit].

(** [arxiv.org/abs/(\d+\.\d+)], [arxiv.org/pdf/(\d+\.\d+)] and
    [arxiv:(\d+\.\d+)]; the dot of [arxiv.org] is the class [.] *)
Definition id_patterns : list regex :=
  [seq [lit "arxiv"; Cls dot; lit "org/abs/"; Grp 1 arxiv_number];
   seq [lit "arxiv"; Cls dot; lit "org/pdf/"; Grp 1 arxiv_number];
   seq [lit "arxiv:"; Grp 1 arxiv_number]].

Fixpoint first_group1 (patterns : list regex) (url : string) : option string :=
  match patterns with
  | [] => None
  | r :: rest =>
      match search r url with
      | Some m => m_group m 1
      | None => first_group1 rest url
      end
  end.

Definition extract_id (url : string) : option string :=
  first_group1 id_patterns url.

Definition format_authors (author_names : list string) : string :=
  if (5 <? List.length author_names)%nat
  then join ", " (firstn 5 author_names) ++ " et al."
  else join ", " author_names.

Definition format_categories (categories : list string) : string :=
  join ", " categories.

(** [s.replace('.', '_')] *)
Fixpoint replace_dot (s : string) : string :=
  match s with
  | EmptyString => EmptyString
  | String c s' =>
      String (if Ascii.eqb c "."%char then "_"%char else c) (replace_dot s')
  end.

Definition opt_line (label : string) (o : option string) : list string :=
  match o with
  | Some v => if truthy v then [(label ++ v)%string] else []
  | None => []
  end.

Definition get_paper_content (paper : Arxiv.Result) (full_text : option string)
  : result string :=
  match Arxiv.published paper with
  | None => Raise AttributeError
  | Some pub =>
      let metadata :=
        ([("Authors: " ++ format_authors (Arxiv.authors paper))%string;
          ("Published: " ++ Arxiv.d_month_y pub)%string] ++
         opt_line "Last Updated: " (option_map Arxiv.d_month_y (Arxiv.updated paper)) ++
         opt_line "DOI: " (Arxiv.doi paper) ++
         opt_line "Journal Reference: " (Arxiv.journal_ref paper))%list in
      let sections :=
        ([("# " ++ clean_title (Arxiv.title paper) ++ NL)%string;
          join NL metadata] ++
         (match Arxiv.categories paper with
          | [] => []
          | cs => [("Categories: " ++ format_categories cs)%string]
          end) ++
         [(NL ++ "## Abstract" ++ NL)%string;
          clean_abstract (Arxiv.summary paper)] ++
         (match full_text with
          | Some t =>
              if truthy t then [(NL ++ "## Full Text" ++ NL)%string; t] else []
          | None => []
          end))%list in
      Ok (join NLNL sections)
  end.

(** the dict [process_url] returns on success *)
Record summary : Type := Summary {
  s_arxiv_id : string;
  s_title : string;
  s_authors : list string;
  s_published : string;
  s_abstract : string;
  s_categories : list string;
  s_pdf_url : string;
  s_filepath : string;
  s_has_full_text : bool
}.

Section Run.
(** [next(arxiv.Search(id_list=[id]).results())] *)
Variable results : string -> result Arxiv.Result.
(** [requests.get(pdf_url)] with [raise_for_status()] *)
Variable get_pdf : string -> result pdf.
Variable writable : string -> bool.

Definition download_pdf (pdf_url : string) : list event * option pdf :=
  match get_pdf pdf_url with
  | Ok content => ([Fetched pdf_url], Some content)
  | Raise _ => ([Fetched pdf_url; Printed "Error downloading PDF"], None)
  end.

Definition save_content (content arxiv_id : string)
  : list event * option string :=
  let filepath := "extracted_papers/arxiv_" ++ replace_dot arxiv_id ++ ".txt" in
  if writable filepath then ([Wrote filepath content], Some filepath)
  else ([Printed "Error saving content"], None).

(** the full text, when asked for: [None], or the cleaned text *)
Definition fetch_full_text (paper : Arxiv.Result) (include_full_text : bool)
  : list event * result (option string) :=
  if include_full_text then
    match download_pdf (Arxiv.pdf_url paper) with
    | (ev, Some content) =>
        let '(text, ev') := extract_text_from_pdf content in
        let ev := (Printed "Downloading PDF..." :: ev ++
                   Printed "Extracting text from PDF..." :: ev')%list in
        if truthy text then
          match clean_text text with
          | Ok t => (ev, Ok (Some t))
          | Raise e => (ev, Raise e)
          end
        else (ev, Ok (Some text))
    | (ev, None) => (Printed "Downloading PDF..." :: ev, Ok None)
    end
  else ([], Ok None).

(** the body of the [try] in [process_url], after the id was found *)
Definition process_paper (arxiv_id : string) (include_full_text : bool)
  : list event * result (option summary) :=
  match results arxiv_id with
  | Raise e => ([Queried arxiv_id], Raise e)
  | Ok paper =>
      let ev0 := [Queried arxiv_id; Printed ("Found paper: " ++ Arxiv.title paper)] in
      match fetch_full_text paper include_full_text with
      | (ev1, Raise e) => ((ev0 ++ ev1)%list, Raise e)
      | (ev1, Ok full_text) =>
          match get_paper_content paper full_text with
          | Raise e => ((ev0 ++ ev1)%list, Raise e)
          | Ok content =>
              if truthy (strip content) then
                match save_content content arxiv_id with
                | (ev2, Some filepath) =>
                    match Arxiv.published paper with
                    | None => ((ev0 ++ ev1 ++ ev2)%list, Raise AttributeError)
                    | Some pub =>
                        ((ev0 ++ ev1 ++ ev2 ++
                          [Printed ("Saved content to " ++ filepath)%string])%list,
                         Ok (Some (Summary arxiv_id (Arxiv.title paper)
                                     (Arxiv.authors paper) (Arxiv.isoformat pub)
                                     (Arxiv.summary paper) (Arxiv.categories paper)
                                     (Arxiv.pdf_url paper) filepath
                                     (match full_text with
                                      | Some t => truthy t
                                      | None => false
                                      end))))
                    end
                | (ev2, None) => ((ev0 ++ ev1 ++ ev2)%list, Ok None)
                end
              else ((ev0 ++ ev1 ++ [Printed "No content extracted"])%list, Ok None)
          end
      end
  end.

Definition process_url (url : string) (include_full_text : bool)
  : list event * option summary :=
  if negb (contains "arxiv.org" url) && negb (contains "arxiv:" url) then
    ([Printed ("Error: URL " ++ url ++ " is not from arxiv.org")], None)
  else
    match extract_id url with
    | None =>
        ([Printed ("Processing URL: " ++ url);
          Printed ("Could not extract ArXiv ID from " ++ url)], None)
    | Some arxiv_id =>
        match process_paper arxiv_id include_full_text with
        | (ev, Ok r) => (Printed ("Processing URL: " ++ url) :: ev, r)
        | (ev, Raise _) =>
            ((Printed ("Processing URL: " ++ url)%string :: ev ++
              [Printed ("Error processing " ++ url)%string])%list, None)
        end
    end.

(** [main] with [--file]: the events and the collected [results] *)
Fixpoint process_urls (urls : list string) (include_full_text : bool)
  : list event * list summary :=
  match urls with
  | [] => ([], [])
  | url :: rest =>
      let '(ev, r) := process_url url include_full_text in
      let '(ev', rs) := process_urls rest include_full_text in
      ((ev ++ ev')%list, match r with Some x => x :: rs | None => rs end)
  end.

Definition main_file (lines : list string) (include_full_text : bool)
  : list event * list summary :=
  process_urls (alignment_forum_extract.urls_of lines) include_full_text.

End Run.

End arxiv_extract.

(** ** arxiv_meta.py *)

Module arxiv_meta.
Import Py Re.

Record ArxivPaper : Type := MkPaper {
  arxiv_id : string;
  title : string;
  authors : list string;
  abstract : string;
  published_date : option string;
  updated_date : option string;
  arxiv_url : string
}.

Definition store : Type := Json.file ArxivPaper.

Definition extract_id (url : string) : option string :=
  arxiv_extract.first_group1 arxiv_extract.id_patterns url.

Definition format_date (date : option Arxiv.datetime) : option string :=
  option_map Arxiv.ymd date.

Definition create_paper_object (paper : Arxiv.Result) (arxiv_id : string)
  : ArxivPaper :=
  MkPaper arxiv_id (Arxiv.title paper) (Arxiv.authors paper)
          (Arxiv.summary paper)
          (format_date (Arxiv.published paper))
          (format_date (Arxiv.updated paper))
          ("https://arxiv.org/abs/" ++ arxiv_id).

(** [save_json]: the output file afterwards, and how the call ends.  Only
    [json.JSONDecodeError] is caught; a file that is not UTF-8, the item
    assignment on a value that is no dict, and an [open] for writing that
    fails ([writable]) raise, and leave the file as it is. *)
Definition save_json (writable : bool) (paper_obj : ArxivPaper)
    (output_file : store) : store * result unit :=
  let data : result (Json.loaded ArxivPaper) :=
    if Json.exists_ output_file then
      match Json.load output_file with
      | Raise JSONDecodeError => Ok (Json.Dict [])     (* data = {} *)
      | r => r
      end
    else Ok (Json.Dict []) in
  match data with
  | Raise e => (output_file, Raise e)
  | Ok Json.NotDict => (output_file, Raise TypeError)
  | Ok (Json.Dict d) =>
      if writable
      then (Json.dump (Json.setitem (arxiv_id paper_obj) paper_obj d), Ok tt)
      else (output_file, Raise OSError)
  end.

Section Run.
(** [next(self.client.results(arxiv.Search(id_list=[id])))] *)
Variable results : string -> result Arxiv.Result.
Variable writable : bool.

(** [process_url]: the handler logs and raises again *)
Definition process_url (url : string) (output_file : store)
  : list event * store * result (option ArxivPaper) :=
  if negb (contains "arxiv.org" url) && negb (contains "arxiv:" url) then
    ([Printed ("Error: URL " ++ url ++ " is not from arxiv.org")],
     output_file, Ok None)
  else
    match extract_id url with
    | None =>
        ([Printed ("Processing URL: " ++ url);
          Printed ("Could not extract ArXiv ID from " ++ url)],
         output_file, Ok None)
    | Some id =>
        match results id with
        | Raise e =>
            ([Printed ("Processing URL: " ++ url); Queried id;
              Printed ("Error processing " ++ url)],
             output_file, Raise e)
        | Ok paper =>
            let paper_obj := create_paper_object paper id in
            match save_json writable paper_obj output_file with
            | (f, Ok _) =>
                ([Printed ("Processing URL: " ++ url); Queried id;
                  Printed ("Found paper: " ++ Arxiv.title paper);
                  Printed "Updated metadata/arxiv.json with paper data"],
                 f, Ok (Some paper_obj))
            | (f, Raise e) =>
                ([Printed ("Processing URL: " ++ url); Queried id;
                  Printed ("Found paper: " ++ Arxiv.title paper);
                  Printed ("Error processing " ++ url)],
                 f, Raise e)
            end
        end
    end.

(** [for url in f: if url := url.strip(): extractor.process_url(url)];
    an exception leaves the loop *)
Fixpoint process_lines (lines : list string) (output_file : store)
  : list event * store * result unit :=
  match lines with
  | [] => ([], output_file, Ok tt)
  | line :: rest =>
      let url := strip line in
      if truthy url then
        match process_url url output_file with
        | (ev, f, Ok _) =>
            let '(ev', f', r) := process_lines rest f in
            ((ev ++ ev')%list, f', r)
        | (ev, f, Raise e) => (ev, f, Raise e)
        end
      else process_lines rest output_file
  end.

(** [main] with [--file]: events, the output file and the exit status *)
Definition main_file (lines : list string) (output_file : store)
  : list event * store * nat :=
  match process_lines lines output_file with
  | (ev, f, Ok _) => (ev, f, 0)
  | (ev, f, Raise _) => ((ev ++ [Printed "Error"])%list, f, 1)
  end.

End Run.

End arxiv_meta.

(** ** youtube_meta.py *)

Module youtube_meta.
Import Py.

Record video : Type := Video {
  id : string;
  title : string;
  thumbnail : string;
  url : string;
  channel : string
}.

(** [subprocess.run(["yt-dlp", ...], check=True)] and [json.loads] of
    what it prints: the record, a non-zero exit ([CalledProcessError]) or
    output that is not JSON ([JSONDecodeError]) *)
Inductive outcome : Type :=
| Printed_json (v : video)
| Exit_nonzero
| Not_json.

Section Run.
Variable yt_dlp : string -> outcome.

Definition extract_metadata (url : string) : list event * option video :=
  match yt_dlp url with
  | Printed_json v => ([Fetched url], Some v)
  | Exit_nonzero =>
      ([Fetched url; Printed ("Error extracting metadata from " ++ url)], None)
  | Not_json =>
      ([Fetched url; Printed ("Error parsing JSON output for " ++ url)], None)
  end.

(** the loop of [main] with [--file], up to the pauses between requests *)
Fixpoint collect (urls : list string) : list event * list video :=
  match urls with
  | [] => ([], [])
  | u :: rest =>
      let '(ev, r) := extract_metadata u in
      let '(ev', vs) := collect rest in
      ((Printed ("Processing URL: " ++ u)%string :: ev ++ ev')%list,
       match r with Some v => v :: vs | None => vs end)
  end.

Definition main_file (lines : list string) : list event * list video :=
  collect (alignment_forum_extract.urls_of lines).

(** [save_metadata] at the end of [main]: the output file afterwards
    ([None] is a file that is not there) and the exit status; the file is
    opened for writing, not read *)
Definition save_metadata (writable : bool) (all_metadata : list video)
    (output_file : option (list video)) : option (list video) * nat :=
  match all_metadata with
  | [] => (output_file, 0)            (* "No metadata was extracted" *)
  | _ => if writable then (Some all_metadata, 0) else (output_file, 1)
  end.

Definition main_output (lines : list string) (writable : bool)
    (output_file : option (list video)) : option (list video) * nat :=
  save_metadata writable (snd (main_file lines)) output_file.

End Run.

End youtube_meta.

(** * Vocabulary of the statements *)

Module Spec.
Import Py Re Dom Json.
Import alignment_forum_extract arxiv_extract.

(** ** Text *)

(** the length of the longest prefix inside a class *)
Fixpoint span (p : ascii -> bool) (s : string) : nat :=
  match s with
  | String c s' => if p c then S (span p s') else 0
  | EmptyString => 0
  end.

(** the number of newlines a string starts with *)
Definition lead (s : string) : nat := span (chr nl) s.

(** three newlines in a row *)
Definition NL3 : string := String nl NLNL.

(** whether a character occurs in a string *)
Fixpoint mentions (c : ascii) (s : string) : bool :=
  match s with
  | EmptyString => false
  | String d s' => Ascii.eqb d c || mentions c s'
  end.

(** a pattern whose matches are never empty *)
Definition consumes (r : regex) : Prop :=
  forall s pos e g,
    match_at r s pos false = Some (e, g) -> pos < e /\ s <> EmptyString.

(** ** The forum article extractor *)

(** a title in which none of the three patterns of [clean_title] is found *)
Definition settled (t : string) : Prop :=
  search by_names_date t = None /\ search by_names t = None /\
  search min_read t = None.

(** whether a list holds the same entry twice in a row *)
Fixpoint adjacent_repeat (l : list string) : bool :=
  match l with
  | a :: (b :: _) as t => String.eqb a b || adjacent_repeat t
  | _ => false
  end.

(** the state of the body walk as the loop keeps it when no list item is
    met: no entry twice in a row, and [last_text] is the last entry *)
Definition tidy (w : walk) : Prop :=
  adjacent_repeat (content w) = false /\
  match last_text w with
  | None => content w = []
  | Some t => truthy t = true /\ exists pre, content w = (pre ++ [t])%list
  end.

(** a content area with one list of two items that read the same *)
Definition li (text : string) : node := Tag "li" [] [Txt text].

Definition two_equal_items : node :=
  Tag "div" ["PostsPage-postContent"] [Tag "ul" [] [li "foo"; li "foo"]].

(** ** Dates *)

Definition month_names : list string :=
  ["January"; "February"; "March"; "April"; "May"; "June"; "July";
   "August"; "September"; "October"; "November"; "December"].

Definition ordinal_suffix (day : nat) : string :=
  match day with
  | 1 | 21 | 31 => "st"
  | 2 | 22 => "nd"
  | 3 | 23 => "rd"
  | _ => "th"
  end.

(** a day of 2024 as the forum writes it, and in ISO form *)
Definition written_date (day month : nat) : string :=
  decimal day ++ ordinal_suffix day ++ " "
    ++ nth (month - 1) month_names "" ++ " 2024".

Definition iso_date (day month : nat) : string :=
  "2024-" ++ format_02d month ++ "-" ++ format_02d day.

(** whether [parse_date] returned the string [s] *)
Definition result_eqb (r : result (option string)) (s : string) : bool :=
  match r with
  | Ok (Some x) => String.eqb x s
  | _ => false
  end.

(** ** The PDF text cleaner *)

(** an emitted line: not empty, and one line *)
Definition emitted (l : string) : Prop :=
  truthy l = true /\ mentions nl l = false.

(** what the loop of [merge_columns] does with an empty input line: the
    buffer, if it holds anything, is flushed, and the new buffer is empty *)
Definition flushed (st : columns) : columns :=
  Columns (if truthy (buffer st)
           then (merged_lines st ++ [buffer st])%list else merged_lines st)
          EmptyString.

(** ** The metadata stores *)



(** sample records *)
Definition a_post_url : string :=
  "https://www.alignmentforum.org/posts/abc123/a-post".

Definition forum_post (title : string) : alignment_forum_meta.metadata :=
  alignment_forum_meta.Metadata title ["Jane Doe"] (Some "2024-01-22")
    a_post_url.

Definition paper (id : string) : arxiv_meta.ArxivPaper :=
  arxiv_meta.MkPaper id "A paper" ["Jane Doe"] "Abstract." (Some "2024-01-22")
    None ("https://arxiv.org/abs/" ++ id).

(** ** Batch runs *)

(** the guards at the head of the [process_url] functions *)
Definition forum_url (url : string) : bool := contains "alignmentforum.org" url.
Definition arxiv_url (url : string) : bool :=
  contains "arxiv.org" url || contains "arxiv:" url.


Section Lookups.
Variable results : string -> result Arxiv.Result.



End Lookups.

Definition some_paper : Arxiv.Result :=
  Arxiv.MkResult "A paper" ["Jane Doe"] "Abstract." None None None None []
    "https://arxiv.org/pdf/2401.00002".


(** ** Further vocabulary *)

(** the dict a load of the output file gives, with nothing in it for a
    file that is missing or holds no JSON object *)
Definition stored {V : Type} (f : Json.file V) : Json.dict V :=
  match f with
  | Object ms => of_members ms
  | _ => []
  end.

(** a URL the forum metadata extractor gets nothing from: not a forum URL,
    or one whose page request fails *)
Definition yields_nothing (http_get : string -> result node) (url : string)
  : Prop :=
  forum_url url = false \/ exists e, http_get url = Raise e.

(** a page that adds to the text of a PDF *)
Definition has_text (pg : page) : bool :=
  match pg with
  | PageText t => truthy t
  | PageNone => false
  | PageRaises => true
  end.

(** the texts of the pages that have one, in page order *)
Definition page_texts (pages : list page) : list string :=
  flat_map (fun pg => match pg with
                      | PageText t => if truthy t then [t] else []
                      | _ => []
                      end) pages.

(** the lines [merge_columns] has emitted or still holds *)
Definition pending (st : columns) : list string :=
  (merged_lines st ++ if truthy (buffer st) then [buffer st] else [])%list.

(** whether a body line holds one of the noise phrases, in any letter case *)
Definition noisy (line : string) : bool :=
  existsb (fun x => contains x (lower line)) noise.

(** a heading turned into a paragraph *)
Definition as_paragraph (e : node) : node :=
  match e with
  | Txt s => Txt s
  | Tag nm cl cs =>
      if existsb (String.eqb nm) ["h1"; "h2"; "h3"; "h4"]
      then Tag "p" cl cs else e
  end.

(** an element [clean_content] cuts out of the content area *)
Definition unwanted (e : node) : bool :=
  named ["script"; "style"; "iframe"] e
  || existsb (fun k => has_class k e) unwanted_classes.

(** the elements of the content area the body walk visits *)
Definition walked (content_area : node) : list node :=
  find_all ["p"; "h1"; "h2"; "h3"; "h4"; "li"] (prune content_area).

(** whether every character of a string is in a class *)
Fixpoint every (p : ascii -> bool) (s : string) : bool :=
  match s with
  | EmptyString => true
  | String c s' => p c && every p s'
  end.

(** a string that does not go on with a character of the class *)
Definition stops (p : ascii -> bool) (s : string) : bool :=
  match s with
  | EmptyString => true
  | String c _ => negb (p c)
  end.

(** a run of one or more characters of a class *)
Definition run_of (p : ascii -> bool) (s : string) : bool :=
  truthy s && every p s.

(** the class [[^/]] *)
Definition not_slash (c : ascii) : bool := negb (chr "/" c).

(** induction on a tree together with its children *)
Section NodeInduction.
Variable P : node -> Prop.
Hypothesis P_txt : forall s, P (Txt s).
Hypothesis P_tag : forall nm cl cs, Forall P cs -> P (Tag nm cl cs).

Fixpoint node_rect_nested (n : node) : P n :=
  match n with
  | Txt s => P_txt s
  | Tag nm cl cs =>
      P_tag nm cl cs
        ((fix go (l : list node) : Forall P l :=
            match l with
            | [] => Forall_nil P
            | c :: l' => Forall_cons c (node_rect_nested c) (go l')
            end) cs)
  end.
End NodeInduction.

(** a test that looks at the name and the classes only *)
Definition shallow (q : node -> bool) : Prop :=
  forall nm cl cs cs', q (Tag nm cl cs) = q (Tag nm cl cs').

(** a page whose body is one paragraph *)
Definition one_page : Dom.node :=
  Dom.Tag "html" []
    [Dom.Tag "div" ["PostsPage-postContent"] [Dom.Tag "p" [] [Dom.Txt "Text."]]].

(** white space only as single blanks between other characters *)
Fixpoint single_spaced (s : string) : bool :=
  match s with
  | EmptyString => true
  | String c s' =>
      (if isspace c then Ascii.eqb c " " && stops isspace s' else true)
      && single_spaced s'
  end.

(** the pattern [\s+] *)
Definition spaces : regex := plus isspace.

(** the pattern [(\w+)-\n(\w+)] *)
Definition hyphenated : regex :=
  seq [Grp 1 (plus isword); Chr "-"; Chr nl; Grp 2 (plus isword)].

(** a hyphen at the end of a line *)
Definition line_end_hyphen : string := String "-" (String nl EmptyString).

(** a paper with a date of publication *)
Definition dated_paper : Arxiv.Result :=
  Arxiv.MkResult "A  paper" ["Jane Doe"] "Abstract."
    (Some (Arxiv.Datetime "2024-01-22" "22 January 2024" "2024-01-22T00:00:00"))
    None None None ["cs.AI"] "https://arxiv.org/pdf/2401.00002".

(** the file [arxiv_extract.py] saves a paper in *)
Definition paper_file (arxiv_id : string) : string :=
  "extracted_papers/arxiv_" ++ replace_dot arxiv_id ++ ".txt".

(** a pattern without groups and look-ahead *)
Fixpoint plain (r : regex) : bool :=
  match r with
  | Grp _ _ | Ahead _ => false
  | Cat r1 r2 | Alt r1 r2 => plain r1 && plain r2
  | Opt r1 => plain r1
  | _ => true
  end.

(** the records [yt-dlp] gives for a list of URLs, in their order *)
Definition extracted (yt_dlp : string -> youtube_meta.outcome)
    (urls : list string) : list youtube_meta.video :=
  flat_map (fun u => match yt_dlp u with
                     | youtube_meta.Printed_json v => [v]
                     | _ => []
                     end) urls.

(** ** Output files and what was loaded from them *)


(** the dict in memory, with nothing in it for a value that is no dict *)
Definition held {V : Type} (v : Json.loaded V) : Json.dict V :=
  match v with
  | Dict d => d
  | NotDict => []
  end.


(** ** What a failed request leaves in the log *)






(** ** Runs of newlines *)

(** a string read as runs of newlines and single other characters *)
Inductive chunk : Type :=
| Newlines (n : nat)
| Char (c : ascii).

Fixpoint chunks (s : string) : list chunk :=
  match s with
  | EmptyString => []
  | String c s' =>
      if chr nl c then
        match chunks s' with
        | Newlines n :: r => Newlines (S n) :: r
        | r => Newlines 1 :: r
        end
      else Char c :: chunks s'
  end.

Fixpoint unchunks (l : list chunk) : string :=
  match l with
  | [] => EmptyString
  | Newlines n :: r => times NL n ++ unchunks r
  | Char c :: r => String c (unchunks r)
  end.

(** a run of three or more newlines made a run of two *)
Definition cap2 (k : chunk) : chunk :=
  match k with
  | Newlines n => Newlines (Nat.min n 2)
  | Char c => Char c
  end.

(** the specification's words for the last step of both pipelines: every
    run of three or more newlines becomes two, and nothing else changes *)
Definition collapsed (s : string) : string := unchunks (map cap2 (chunks s)).

(** the text [clean_content] has put together before its last step *)
Definition assembled (soup : node) : string :=
  let title := alignment_forum_extract.title_of soup in
  let metadata := join " | " (metadata_parts soup) in
  let content := match find_content_area soup with
                 | Some area => body_lines area
                 | None => []
                 end in
  join alignment_forum_extract.NLNL
    (filter truthy ((if truthy title then [title] else []) ++
                    (if truthy metadata then [metadata] else []) ++ content)%list).

(** the lines [clean_text] has joined before its last step *)
Definition joined (text : string) : result string :=
  match clean_lines (Cleaning [] EmptyString)
          (split nl (dehyphenate (strip text))) with
  | Ok st => Ok (join NL (processed_lines st))
  | Raise e => Raise e
  end.

(** ** What [merge_columns] keeps *)

(** a string without its white space *)
Fixpoint ink (s : string) : string :=
  match s with
  | EmptyString => EmptyString
  | String c s' => if isspace c then ink s' else String c (ink s')
  end.

(** the same for a list of lines, one after the other *)
Definition inks (ls : list string) : string :=
  fold_right (fun l acc => ink l ++ acc) EmptyString ls.

(** ** The piece of a URL a post is named after *)

(** [url] reads [pre], [/posts/], a run [stem] without a slash, [rest] *)
Definition post_piece (url pre stem rest : string) : Prop :=
  url = (pre ++ "/posts/" ++ stem ++ rest)%string /\
  run_of not_slash stem = true.

(** [stem] is what follows the first [/posts/] of [url] that is followed
    by such a run, up to the next slash or the end *)
Definition first_post_piece (url stem : string) : Prop :=
  exists pre rest,
    post_piece url pre stem rest /\ stops not_slash rest = true /\
    forall pre' stem' rest',
      post_piece url pre' stem' rest' ->
      (String.length pre <= String.length pre')%nat.

Definition no_post_piece (url : string) : Prop :=
  forall pre stem rest, ~ post_piece url pre stem rest.

End Spec.

(** * Properties *)

(** ** Trimming *)

Module PyFacts.
Import Py.

Lemma lstrip_head (s : string) :
  lstrip s = EmptyString \/
  exists c r, lstrip s = String c r /\ isspace c = false.
Proof.
  induction s as [|c s IH]; simpl.
  - now left.
  - destruct (isspace c) eqn:Hc; [exact IH|].
    right. now exists c, s.
Qed.

Lemma rstrip_keeps_head (c : ascii) (r : string) :
  isspace c = false -> exists r', rstrip (String c r) = String c r'.
Proof.
  intros Hc. simpl. destruct (rstrip r).
  - rewrite Hc. now exists EmptyString.
  - eexists. reflexivity.
Qed.

Lemma rstrip_idem (s : string) : rstrip (rstrip s) = rstrip s.
Proof.
  induction s as [|c s IH]; simpl; [reflexivity|].
  destruct (rstrip s) as [|d t] eqn:E.
  - destruct (isspace c) eqn:Hc; simpl; [reflexivity|].
    now rewrite Hc.
  - change (rstrip (String c (String d t))) with
      (match rstrip (String d t) with
       | EmptyString => if isspace c then EmptyString else String c EmptyString
       | r => String c r
       end).
    now rewrite IH.
Qed.

Lemma strip_idem (s : string) : strip (strip s) = strip s.
Proof.
  unfold strip.
  destruct (lstrip_head s) as [E | (c & r & E & Hc)]; rewrite E.
  - reflexivity.
  - destruct (rstrip_keeps_head c r Hc) as [r' E']. rewrite E'.
    simpl lstrip. rewrite Hc. rewrite <- E'. apply rstrip_idem.
Qed.

(** a trimmed string that is not empty starts with a character that is
    not white space *)
Lemma strip_head (s : string) (c : ascii) (r : string) :
  strip s = String c r -> isspace c = false.
Proof.
  unfold strip.
  destruct (lstrip_head s) as [E | (d & t & E & Hd)]; rewrite E.
  - discriminate.
  - destruct (rstrip_keeps_head d t Hd) as [r' E']. rewrite E'.
    intros H. now inversion H; subst.
Qed.

Lemma length_lstrip (s : string) : String.length (lstrip s) <= String.length s.
Proof.
  induction s as [|c s IH]; simpl; [lia|]. destruct (isspace c); simpl; lia.
Qed.

Lemma length_rstrip (s : string) : String.length (rstrip s) <= String.length s.
Proof.
  induction s as [|c s IH]; simpl; [lia|].
  destruct (rstrip s); [destruct (isspace c)|]; simpl in *; lia.
Qed.

Lemma length_strip (s : string) : String.length (strip s) <= String.length s.
Proof.
  unfold strip. pose proof (length_rstrip (lstrip s)).
  pose proof (length_lstrip s). lia.
Qed.

End PyFacts.

(** ** The matcher *)

Module ReFacts.
Import Py Re.
Import Spec.
Local Open Scope nat_scope.

Lemma drop_0 (s : string) : drop 0 s = s.
Proof. now destruct s. Qed.

Lemma length_drop (k : nat) (s : string) :
  String.length (drop k s) <= String.length s.
Proof.
  revert s. induction k as [|k IH]; intros s.
  - rewrite drop_0. lia.
  - destruct s as [|c s]; simpl; [lia|]. specialize (IH s). lia.
Qed.

Lemma span_le_length (p : ascii -> bool) (s : string) :
  span p s <= String.length s.
Proof.
  induction s as [|c s IH]; simpl; [lia|]. destruct (p c); lia.
Qed.

Lemma span_drop_span (p : ascii -> bool) (s : string) :
  span p (drop (span p s) s) = 0.
Proof.
  induction s as [|c s IH]; simpl; [reflexivity|].
  destruct (p c) eqn:Hc; simpl; [exact IH|]. now rewrite Hc.
Qed.

(** An unbounded greedy repetition in front of a pattern that cannot fail
    takes the whole run. *)
Lemma rep_takes_the_run {R : Type} (p : ascii -> bool) (f : string -> nat -> R)
    (s : string) :
  forall lo n,
    rep p lo None s n (fun s' n' => Some (f s' n')) =
    if lo <=? span p s
    then Some (f (drop (span p s) s) (n + span p s))
    else None.
Proof.
  induction s as [|c s IH]; intros lo n; simpl.
  - destruct lo; simpl; [|reflexivity]. now rewrite Nat.add_0_r.
  - destruct (p c) eqn:Hc.
    + rewrite IH. destruct lo as [|lo]; simpl.
      * now rewrite <- plus_n_Sm.
      * destruct (lo <=? span p s); [|reflexivity]. now rewrite <- plus_n_Sm.
    + destruct lo; simpl; [|reflexivity]. now rewrite Nat.add_0_r.
Qed.

Lemma sub_from_nil (r : regex) (t : list piece) (pos : nat) :
  sub_from r t EmptyString pos 0 =
  match match_at r EmptyString pos false with
  | Some (_, g) => expand t g
  | None => EmptyString
  end.
Proof. reflexivity. Qed.

Lemma sub_from_cons (r : regex) (t : list piece) (c : ascii) (s : string)
    (pos : nat) :
  sub_from r t (String c s) pos 0 =
  match match_at r (String c s) pos false with
  | Some (e, g) =>
      if e =? pos then
        (expand t g ++
         match match_at r (String c s) pos true with
         | Some (e', g') => expand t g' ++ sub_from r t s (S pos) (e' - pos - 1)
         | None => String c (sub_from r t s (S pos) 0)
         end)%string
      else (expand t g ++ sub_from r t s (S pos) (e - pos - 1))%string
  | None => String c (sub_from r t s (S pos) 0)
  end.
Proof. reflexivity. Qed.

Lemma sub_from_skip (r : regex) (t : list piece) (k : nat) :
  forall s pos,
    k <= String.length s ->
    sub_from r t s pos k = sub_from r t (drop k s) (pos + k) 0.
Proof.
  induction k as [|k IH]; intros s pos Hk.
  - now rewrite drop_0, Nat.add_0_r.
  - destruct s as [|c s]; simpl in Hk; [lia|].
    simpl. rewrite IH by lia. now rewrite <- plus_n_Sm.
Qed.

(** [re.sub] leaves a subject alone in which the pattern is not found. *)
Lemma sub_from_not_found (r : regex) (t : list piece) (s : string) :
  forall pos, search_from r s pos = None -> sub_from r t s pos 0 = s.
Proof.
  induction s as [|c s IH]; intros pos H; simpl in *.
  - now destruct (match_at r EmptyString pos false) as [[e g]|].
  - destruct (match_at r (String c s) pos false) as [[e g]|]; [discriminate|].
    now rewrite IH.
Qed.

Lemma sub_not_found (r : regex) (t : list piece) (s : string) :
  search r s = None -> sub r t s = s.
Proof. apply sub_from_not_found. Qed.

#[local] Arguments Ascii.eqb : simpl never.

(** *** Matches move forward *)

Lemma rep_end_ge (p : ascii -> bool) (k : string -> nat -> option (nat * caps))
    (s : string) :
  (forall s' n' e g, k s' n' = Some (e, g) -> n' <= e) ->
  forall lo hi n e g, rep p lo hi s n k = Some (e, g) -> n <= e.
Proof.
  intros Hk. induction s as [|c s IH]; intros lo hi n e g H.
  - simpl in H. destruct hi as [[|h]|], lo; try discriminate; eauto.
  - simpl in H.
    assert (Hstop : match lo with 0 => k (String c s) n | S _ => None end
                    = Some (e, g) -> n <= e).
    { destruct lo; [apply Hk|discriminate]. }
    destruct hi as [[|h]|]; [auto| |];
      (destruct (p c); [|auto];
       destruct (rep p (pred lo) _ s (S n) k) as [[e' g']|] eqn:E; [|auto];
       inversion H; subst; apply IH in E; lia).
Qed.

Lemma rep_plus_end_gt (p : ascii -> bool)
    (k : string -> nat -> option (nat * caps)) (s : string) (n e : nat)
    (g : caps) :
  (forall s' n' e g, k s' n' = Some (e, g) -> n' <= e) ->
  rep p 1 None s n k = Some (e, g) -> n < e /\ s <> EmptyString.
Proof.
  intros Hk H. destruct s as [|c s]; simpl in H; [discriminate|].
  destruct (p c); [|discriminate].
  destruct (rep p 0 None s (S n) k) as [[e' g']|] eqn:E; [|discriminate].
  inversion H; subst. apply (rep_end_ge p k s Hk) in E.
  split; [lia|discriminate].
Qed.

Lemma run_end_ge (r : regex) :
  forall (k : string -> nat -> caps -> option (nat * caps)),
    (forall s' n' g' e g1, k s' n' g' = Some (e, g1) -> n' <= e) ->
    forall s n g e g1, run r s n g k = Some (e, g1) -> n <= e.
Proof.
  induction r as [|c|p|r1 IH1 r2 IH2|r1 IH1 r2 IH2|p lo hi|r1 IH1|i r1 IH1
                  |r1 IH1| |]; intros k Hk s n g e g1 H; simpl in H.
  - eauto.
  - destruct s as [|c' s]; [discriminate|].
    destruct (Ascii.eqb c c'); [|discriminate]. apply Hk in H. lia.
  - destruct s as [|c' s]; [discriminate|].
    destruct (p c'); [|discriminate]. apply Hk in H. lia.
  - eapply IH1; [|exact H]. intros s' n' g' e' g1' H'.
    eapply IH2; [exact Hk|exact H'].
  - destruct (run r1 s n g k) as [x|] eqn:E.
    + inversion H; subst. exact (IH1 k Hk s n g e g1 E).
    + exact (IH2 k Hk s n g e g1 H).
  - eapply rep_end_ge; [|exact H]. intros s' n' e' g' H'.
    exact (Hk _ _ _ _ _ H').
  - destruct (run r1 s n g k) as [x|] eqn:E.
    + inversion H; subst. exact (IH1 k Hk s n g e g1 E).
    + exact (Hk _ _ _ _ _ H).
  - eapply IH1; [|exact H]. intros s' n' g' e' g1' H'.
    exact (Hk _ _ _ _ _ H').
  - destruct (run r1 s n g (fun _ _ g' => Some g')) as [g'|]; [|discriminate].
    eauto.
  - destruct (n =? 0); [eauto|discriminate].
  - destruct s as [|c [|d s]]; [eauto| |discriminate].
    destruct (Ascii.eqb c nl); [eauto|discriminate].
Qed.

Lemma final_end (pos : nat) :
  forall (s' : string) n' (g' : caps) e g1,
    (if false && (n' =? pos) then None else Some (n', g')) = Some (e, g1) ->
    n' <= e.
Proof. intros s' n' g' e g1 H. simpl in H. inversion H. lia. Qed.

Lemma consumes_chr_first (c : ascii) (r1 r2 : regex) :
  consumes (Cat (Cat (Chr c) r1) r2).
Proof.
  intros s pos e g H. unfold match_at in H. simpl in H.
  destruct s as [|c' s]; [discriminate|].
  destruct (Ascii.eqb c c'); [|discriminate].
  split; [|discriminate].
  apply (run_end_ge r1) in H; [lia|].
  intros s' n' g' e' g1' H'.
  apply (run_end_ge r2) in H'; [lia|]. exact (final_end pos).
Qed.

Lemma consumes_plus_first (p : ascii -> bool) (r : regex) :
  consumes (Cat (plus p) r).
Proof.
  intros s pos e g H. unfold match_at, plus in H. simpl in H.
  eapply rep_plus_end_gt; [|exact H].
  intros s' n' e' g' H'. apply (run_end_ge r) in H'; [lia|].
  exact (final_end pos).
Qed.

(** *** Deleting matches shortens *)

Lemma sub_from_le (r : regex) (s : string) :
  forall pos k, String.length (sub_from r [] s pos k) <= String.length s.
Proof.
  induction s as [|c s IH]; intros pos k.
  - destruct k; [|simpl; lia]. rewrite sub_from_nil.
    destruct (match_at r EmptyString pos false) as [[e g]|]; simpl; lia.
  - destruct k as [|k].
    + rewrite sub_from_cons.
      destruct (match_at r (String c s) pos false) as [[e g]|].
      * destruct (e =? pos).
        -- destruct (match_at r (String c s) pos true) as [[e' g']|]; simpl.
           ++ specialize (IH (S pos) (e' - pos - 1)). lia.
           ++ specialize (IH (S pos) 0). lia.
        -- simpl. specialize (IH (S pos) (e - pos - 1)). lia.
      * simpl. specialize (IH (S pos) 0). lia.
    + simpl. specialize (IH (S pos) k). lia.
Qed.

Lemma sub_from_lt (r : regex) (s : string) :
  consumes r ->
  forall pos,
    search_from r s pos <> None ->
    String.length (sub_from r [] s pos 0) < String.length s.
Proof.
  intros Hr. induction s as [|c s IH]; intros pos Hs.
  - simpl in Hs.
    destruct (match_at r EmptyString pos false) as [[e g]|] eqn:E;
      [|congruence].
    apply Hr in E. now destruct E.
  - rewrite sub_from_cons. simpl in Hs.
    destruct (match_at r (String c s) pos false) as [[e g]|] eqn:E.
    + apply Hr in E as [He _].
      replace (e =? pos) with false by (symmetry; apply Nat.eqb_neq; lia).
      simpl. pose proof (sub_from_le r s (S pos) (e - pos - 1)). lia.
    + simpl. specialize (IH (S pos) Hs). lia.
Qed.

Lemma sub_found_shorter (r : regex) (s : string) :
  consumes r -> search r s <> None ->
  String.length (sub r [] s) < String.length s.
Proof. intros Hr Hs. now apply sub_from_lt. Qed.

Lemma sub_le (r : regex) (s : string) :
  String.length (sub r [] s) <= String.length s.
Proof. apply sub_from_le. Qed.

End ReFacts.

(** ** Matching against strings of a known shape *)

Module Matching.
Import Py Re ReFacts.
Import Spec.
Local Open Scope nat_scope.
#[local] Arguments Ascii.eqb : simpl never.

Lemma drop_app (a b : string) : drop (String.length a) (a ++ b) = b.
Proof. induction a as [|c a IH]; [apply drop_0|exact IH]. Qed.

Lemma take_app (a b : string) : take (String.length a) (a ++ b) = a.
Proof.
  unfold take. induction a as [|c a IH]; simpl.
  - now destruct b.
  - now rewrite IH.
Qed.

Lemma app_empty (a : string) : (a ++ "")%string = a.
Proof. induction a as [|c a IH]; [reflexivity|]. simpl. now rewrite IH. Qed.

Lemma take_all (a : string) : take (String.length a) a = a.
Proof.
  pose proof (take_app a EmptyString) as H. now rewrite app_empty in H.
Qed.

Lemma span_app (p : ascii -> bool) (a b : string) :
  every p a = true -> stops p b = true ->
  span p (a ++ b) = String.length a.
Proof.
  intros Ha Hb. induction a as [|c a IH]; simpl.
  - destruct b as [|d b]; [reflexivity|]. simpl in *.
    apply negb_true_iff in Hb. now rewrite Hb.
  - simpl in Ha. apply andb_true_iff in Ha as [Hc Ha].
    now rewrite Hc, IH.
Qed.

Lemma span_all (p : ascii -> bool) (a : string) :
  every p a = true -> span p a = String.length a.
Proof.
  intros Ha. induction a as [|c a IH]; [reflexivity|]. simpl in *.
  apply andb_true_iff in Ha as [Hc Ha]. now rewrite Hc, IH.
Qed.

Lemma every_take_span (p : ascii -> bool) (s : string) :
  every p (take (span p s) s) = true.
Proof.
  unfold take. induction s as [|c s IH]; [reflexivity|]. simpl.
  destruct (p c) eqn:Hc; [|reflexivity]. simpl. now rewrite Hc, IH.
Qed.

Lemma length_take_span (p : ascii -> bool) (s : string) :
  String.length (take (span p s) s) = span p s.
Proof.
  unfold take. induction s as [|c s IH]; [reflexivity|]. simpl.
  destruct (p c); [|reflexivity]. simpl. now rewrite IH.
Qed.

(** a literal matches exactly where the subject starts with it *)
Lemma run_lit {R : Type} (w : string) :
  forall (s : string) (n : nat) (g : caps)
         (k : string -> nat -> caps -> option R),
    run (lit w) s n g k
    = if startswith w s
      then k (drop (String.length w) s) (n + String.length w) g
      else None.
Proof.
  induction w as [|c w IH]; intros s n g k.
  - simpl. now rewrite ?drop_0, Nat.add_0_r.
  - cbn [lit run startswith]. destruct s as [|d s]; [reflexivity|].
    destruct (Ascii.eqb c d); [|reflexivity].
    cbn [andb]. rewrite IH. cbn [String.length drop].
    now rewrite <- plus_n_Sm.
Qed.

(** Greedy repetition keeps the whole run when the rest of the pattern
    accepts what follows it. *)
Lemma rep_keeps_the_run {R : Type} (p : ascii -> bool)
    (k : string -> nat -> option R) (s : string) :
  forall lo n x,
    lo <= span p s ->
    k (drop (span p s) s) (n + span p s) = Some x ->
    rep p lo None s n k = Some x.
Proof.
  induction s as [|c s IH]; intros lo n x Hlo Hk; simpl in *.
  - assert (lo = 0) by lia. subst. now rewrite Nat.add_0_r in Hk.
  - destruct (p c) eqn:Hc.
    + rewrite (IH (pred lo) (S n) x); [reflexivity|lia|].
      now rewrite <- plus_n_Sm in Hk.
    + assert (lo = 0) by lia. subst. now rewrite Nat.add_0_r in Hk.
Qed.

Lemma search_from_later (r : regex) (c : ascii) (s : string) (pos : nat) :
  match_at r (String c s) pos false = None ->
  search_from r (String c s) pos = search_from r s (S pos).
Proof. intros H. simpl. now rewrite H. Qed.

Lemma search_from_here (r : regex) (s : string) (pos e : nat) (g : caps) :
  match_at r s pos false = Some (e, g) ->
  search_from r s pos = Some (Found pos e g).
Proof. intros H. destruct s; simpl; now rewrite H. Qed.

(** a pattern that starts with a literal character fails on any other *)
Lemma no_match_other_chr (a c : ascii) (r1 r2 : regex) (s : string)
    (pos : nat) :
  Ascii.eqb a c = false ->
  match_at (Cat (Cat (Chr a) r1) r2) (String c s) pos false = None.
Proof. intros H. unfold match_at. cbn [run]. now rewrite H. Qed.

(** what a search finds is a match somewhere in the subject *)
Lemma search_from_found (r : regex) (s : string) :
  forall pos m,
    search_from r s pos = Some m ->
    exists s' pos', match_at r s' pos' false = Some (m_end m, m_groups m).
Proof.
  induction s as [|c s IH]; intros pos m H; simpl in H.
  - destruct (match_at r EmptyString pos false) as [[e g]|] eqn:E;
      [|discriminate].
    inversion H; subst. now exists EmptyString, pos.
  - destruct (match_at r (String c s) pos false) as [[e g]|] eqn:E.
    + inversion H; subst. now exists (String c s), pos.
    + eapply IH. exact H.
Qed.

Lemma length_app (a b : string) :
  String.length (a ++ b) = String.length a + String.length b.
Proof. induction a as [|c a IH]; simpl; [reflexivity|now rewrite IH]. Qed.

Lemma app_assoc (a b c : string) : ((a ++ b) ++ c = a ++ (b ++ c))%string.
Proof. induction a as [|x a IH]; simpl; [reflexivity|now rewrite IH]. Qed.

Lemma stops_drop_span (p : ascii -> bool) (s : string) :
  stops p (drop (span p s) s) = true.
Proof.
  pose proof (span_drop_span p s) as H.
  destruct (drop (span p s) s) as [|c r]; [reflexivity|].
  simpl in *. now destruct (p c).
Qed.

(** A search finds the match that starts first. *)
Lemma search_from_split (r : regex) (s : string) :
  forall pos m,
    search_from r s pos = Some m ->
    exists pre s',
      s = (pre ++ s')%string /\
      match_at r s' (pos + String.length pre) false
        = Some (m_end m, m_groups m) /\
      forall pre1 s1,
        s = (pre1 ++ s1)%string ->
        String.length pre1 < String.length pre ->
        match_at r s1 (pos + String.length pre1) false = None.
Proof.
  induction s as [|c s IH]; intros pos m H; cbn [search_from] in H.
  - destruct (match_at r EmptyString pos false) as [[e g]|] eqn:E;
      [|discriminate].
    inversion H; subst m. exists EmptyString, EmptyString.
    cbn [m_end m_groups String.length append]. rewrite Nat.add_0_r.
    repeat split; [exact E|]. intros pre1 s1 _ Hl. simpl in Hl. lia.
  - destruct (match_at r (String c s) pos false) as [[e g]|] eqn:E.
    + inversion H; subst m. exists EmptyString, (String c s).
      cbn [m_end m_groups String.length append]. rewrite Nat.add_0_r.
      repeat split; [exact E|]. intros pre1 s1 _ Hl. simpl in Hl. lia.
    + destruct (IH _ _ H) as (pre & s' & -> & Hm & Hfirst).
      exists (String c pre), s'. cbn [String.length append].
      rewrite <- plus_n_Sm. repeat split; [exact Hm|].
      intros pre1 s1 Hs Hl. destruct pre1 as [|c1 pre1].
      * cbn [append String.length] in *. subst s1.
        now rewrite Nat.add_0_r.
      * cbn [append String.length] in *. inversion Hs; subst.
        rewrite <- plus_n_Sm. apply (Hfirst pre1 s1); [assumption|lia].
Qed.

Lemma search_from_none (r : regex) (s : string) :
  forall pos,
    search_from r s pos = None ->
    forall pre1 s1,
      s = (pre1 ++ s1)%string ->
      match_at r s1 (pos + String.length pre1) false = None.
Proof.
  induction s as [|c s IH]; intros pos H pre1 s1 Hs; cbn [search_from] in H.
  - destruct (match_at r EmptyString pos false) as [[e g]|] eqn:E;
      [discriminate|].
    destruct pre1; [|discriminate]. cbn [append String.length] in *.
    subst s1. now rewrite Nat.add_0_r.
  - destruct (match_at r (String c s) pos false) as [[e g]|] eqn:E;
      [discriminate|].
    destruct pre1 as [|c1 pre1]; cbn [append String.length] in *.
    + subst s1. now rewrite Nat.add_0_r.
    + inversion Hs; subst. rewrite <- plus_n_Sm. now apply (IH (S pos)).
Qed.

Lemma startswith_app (w x : string) : startswith w (w ++ x) = true.
Proof.
  induction w as [|c w IH]; [reflexivity|].
  cbn [append startswith]. now rewrite Ascii.eqb_refl.
Qed.

Lemma startswith_split (w s : string) :
  startswith w s = true -> s = (w ++ drop (String.length w) s)%string.
Proof.
  revert s. induction w as [|c w IH]; intros s H.
  - now rewrite drop_0.
  - destruct s as [|d s]; [discriminate|]. cbn [startswith] in H.
    apply andb_true_iff in H. destruct H as [Hc H].
    apply Ascii.eqb_eq in Hc. subst d.
    cbn [append String.length drop]. now rewrite <- (IH s H).
Qed.

Lemma take_span_drop (p : ascii -> bool) (s : string) :
  (take (span p s) s ++ drop (span p s) s)%string = s.
Proof.
  induction s as [|c s IH]; [reflexivity|].
  cbn [span]. destruct (p c); [|reflexivity].
  change (take (S (span p s)) (String c s))
    with (String c (take (span p s) s)).
  cbn [append drop]. now rewrite IH.
Qed.

Lemma span_ge_app (p : ascii -> bool) (a b : string) :
  every p a = true -> String.length a <= span p (a ++ b).
Proof.
  induction a as [|c a IH]; intros H; [simpl; lia|].
  cbn [every] in H. apply andb_true_iff in H. destruct H as [Hc H].
  cbn [append span String.length]. rewrite Hc. specialize (IH H). lia.
Qed.

End Matching.


(** ** Collapsing newlines *)

Module Newlines.
Import Py Re ReFacts alignment_forum_extract.
Import Spec.
Local Open Scope nat_scope.
#[local] Arguments Ascii.eqb : simpl never.
#[local] Arguments chr : simpl never.

Lemma chr_nl_true (c : ascii) : chr nl c = true -> c = nl.
Proof. unfold chr. intros H. symmetry. now apply Ascii.eqb_eq. Qed.

Lemma prefix_NL3 (s : string) : startswith NL3 s = (3 <=? lead s).
Proof.
  unfold NL3, NLNL, lead, chr.
  destruct s as [|a [|b [|c s]]]; simpl;
    repeat match goal with
      | |- context [Ascii.eqb nl ?x] => destruct (Ascii.eqb nl x); simpl
      end; reflexivity.
Qed.

Lemma match_newlines3 (s : string) (pos : nat) :
  match_at newlines3 s pos false =
  if 3 <=? lead s then Some (pos + lead s, []) else None.
Proof.
  unfold match_at, newlines3. simpl run.
  exact (rep_takes_the_run (chr nl) (fun _ e => (e, @nil (nat * string))) s 3 pos).
Qed.

Lemma contains_cons (x : string) (c : ascii) (s : string) :
  contains x (String c s) = startswith x (String c s) || contains x s.
Proof. reflexivity. Qed.

(** What [re.sub(r'\n{3,}', '\n\n', s)] returns has no three newlines in
    a row, and starts with as many newlines as [s], up to two. *)
Lemma lead_nl (s : string) : lead (String nl s) = S (lead s).
Proof.
  unfold lead. change (span (chr nl) (String nl s))
    with (if chr nl nl then S (span (chr nl) s) else 0).
  unfold chr. now rewrite Ascii.eqb_refl.
Qed.

Lemma collapse_bounded (n : nat) :
  forall s pos,
    String.length s <= n ->
    contains NL3 (sub_from newlines3 [Text NLNL] s pos 0) = false /\
    lead (sub_from newlines3 [Text NLNL] s pos 0) = Nat.min (lead s) 2.
Proof.
  induction n as [|n IH]; intros s pos Hlen.
  - destruct s; simpl in Hlen; [|lia].
    rewrite sub_from_nil, match_newlines3. simpl. now split.
  - destruct s as [|c s].
    + rewrite sub_from_nil, match_newlines3. simpl. now split.
    + simpl in Hlen. rewrite sub_from_cons, match_newlines3.
      destruct (3 <=? lead (String c s)) eqn:H3.
      * apply Nat.leb_le in H3.
        assert (Hc : chr nl c = true).
        { unfold lead in H3. simpl in H3. destruct (chr nl c); [reflexivity|lia]. }
        assert (Hl : lead (String c s) = S (lead s)).
        { unfold lead. simpl. now rewrite Hc. }
        rewrite Hl in *.
        replace (pos + S (lead s) =? pos) with false
          by (symmetry; apply Nat.eqb_neq; lia).
        replace (pos + S (lead s) - pos - 1) with (lead s) by lia.
        rewrite sub_from_skip by apply span_le_length.
        destruct (IH (drop (lead s) s) (S pos + lead s)) as [Hfree Hlead].
        { pose proof (length_drop (lead s) s). lia. }
        assert (H0 : lead (drop (lead s) s) = 0) by apply span_drop_span.
        rewrite H0 in Hlead. change (Nat.min 0 2) with 0 in Hlead.
        remember (sub_from newlines3 [Text NLNL] (drop (lead s) s)
                           (S pos + lead s) 0) as out eqn:Eout.
        clear Eout.
        assert (Hout : lead (String nl (String nl out)) = 2).
        { now rewrite !lead_nl, Hlead. }
        split.
        -- change (expand [Text NLNL] [] ++ out)%string
             with (String nl (String nl out)).
           rewrite contains_cons, prefix_NL3, Hout.
           rewrite contains_cons, prefix_NL3, lead_nl, Hlead.
           exact Hfree.
        -- change (expand [Text NLNL] [] ++ out)%string
             with (String nl (String nl out)).
           rewrite Hout. lia.
      * apply Nat.leb_gt in H3.
        destruct (IH s (S pos)) as [Hfree Hlead]; [lia|].
        remember (sub_from newlines3 [Text NLNL] s (S pos) 0) as out eqn:Eout.
        clear Eout.
        assert (Hl : lead (String c out) = lead (String c s)).
        { unfold lead in *. simpl. simpl in H3.
          destruct (chr nl c); [|reflexivity]. rewrite Hlead. lia. }
        split.
        -- rewrite contains_cons, prefix_NL3, Hl, Hfree.
           replace (3 <=? lead (String c s)) with false
             by (symmetry; apply Nat.leb_gt; lia).
           reflexivity.
        -- rewrite Hl. lia.
Qed.

Lemma collapse_free (s : string) :
  contains NL3 (sub newlines3 [Text NLNL] s) = false.
Proof. exact (proj1 (collapse_bounded (String.length s) s 0 (le_n _))). Qed.

(** *** Runs of newlines before and after the substitution *)

Lemma chunks_nl (s : string) :
  chunks (String nl s)
  = match chunks s with
    | Newlines n :: r => Newlines (S n) :: r
    | r => Newlines 1 :: r
    end.
Proof. cbn [chunks]. unfold chr at 1. now rewrite Ascii.eqb_refl. Qed.

Lemma chunks_other (c : ascii) (s : string) :
  chr nl c = false -> chunks (String c s) = Char c :: chunks s.
Proof. intros H. cbn [chunks]. now rewrite H. Qed.

Lemma lead_0 (c : ascii) (s : string) :
  lead (String c s) = 0 -> chr nl c = false.
Proof. unfold lead. cbn [span]. now destruct (chr nl c). Qed.

Lemma lead_pos (c : ascii) (s : string) :
  1 <= lead (String c s) -> c = nl /\ lead (String c s) = S (lead s).
Proof.
  unfold lead. cbn [span]. destruct (chr nl c) eqn:Hc; [|lia].
  intros _. now split; [apply chr_nl_true|].
Qed.

Lemma chunks_head (s : string) :
  lead s = 0 -> forall n r, chunks s <> Newlines n :: r.
Proof.
  destruct s as [|c s]; intros H n r; [discriminate|].
  rewrite (chunks_other c s (lead_0 c s H)). discriminate.
Qed.

Lemma chunks_run (s : string) :
  1 <= lead s -> chunks s = Newlines (lead s) :: chunks (drop (lead s) s).
Proof.
  induction s as [|c s IH]; intros H; [unfold lead in H; simpl in H; lia|].
  destruct (lead_pos c s H) as [-> E]. rewrite E, chunks_nl.
  cbn [drop]. destruct (lead s) as [|k] eqn:El.
  - rewrite drop_0. pose proof (chunks_head s El) as Hh.
    destruct (chunks s) as [|[n|d] r]; [reflexivity| |reflexivity].
    now destruct (Hh n r).
  - rewrite IH by lia. reflexivity.
Qed.

Lemma collapse_chunks (n : nat) :
  forall s pos,
    String.length s <= n ->
    chunks (sub_from newlines3 [Text NLNL] s pos 0) = map cap2 (chunks s).
Proof.
  induction n as [|n IH]; intros s pos Hlen.
  - destruct s; simpl in Hlen; [|lia].
    now rewrite sub_from_nil, match_newlines3.
  - destruct s as [|c s].
    + now rewrite sub_from_nil, match_newlines3.
    + simpl in Hlen. rewrite sub_from_cons, match_newlines3.
      destruct (3 <=? lead (String c s)) eqn:H3.
      * apply Nat.leb_le in H3.
        destruct (lead_pos c s) as [-> Hl]; [lia|].
        rewrite (chunks_run (String nl s)) by lia.
        rewrite Hl in *. cbn [drop map cap2].
        replace (pos + S (lead s) =? pos) with false
          by (symmetry; apply Nat.eqb_neq; lia).
        replace (pos + S (lead s) - pos - 1) with (lead s) by lia.
        rewrite sub_from_skip by apply span_le_length.
        pose proof (length_drop (lead s) s) as Ld.
        destruct (collapse_bounded n (drop (lead s) s) (S pos + lead s))
          as [_ Hlead]; [lia|].
        assert (H0 : lead (drop (lead s) s) = 0) by apply span_drop_span.
        rewrite H0 in Hlead. change (Nat.min 0 2) with 0 in Hlead.
        rewrite <- (IH (drop (lead s) s) (S pos + lead s)) by lia.
        remember (sub_from newlines3 [Text NLNL] (drop (lead s) s)
                           (S pos + lead s) 0) as out eqn:Eout.
        clear Eout.
        change (expand [Text NLNL] [] ++ out)%string
          with (String nl (String nl out)).
        rewrite (chunks_run (String nl (String nl out)))
          by (rewrite !lead_nl; lia).
        rewrite !lead_nl, Hlead. cbn [drop].
        f_equal. f_equal. lia.
      * apply Nat.leb_gt in H3.
        specialize (IH s (S pos) ltac:(lia)).
        remember (sub_from newlines3 [Text NLNL] s (S pos) 0) as out eqn:Eout.
        clear Eout.
        destruct (chr nl c) eqn:Hc.
        -- apply chr_nl_true in Hc. subst c.
           rewrite lead_nl in H3. rewrite !chunks_nl, IH.
           destruct (chunks s) as [|[m|d] r] eqn:Ec; [reflexivity| |reflexivity].
           assert (Hm : m = lead s).
           { destruct (lead s) as [|k] eqn:El.
             - now destruct (chunks_head s El m r).
             - rewrite chunks_run in Ec by lia. rewrite El in Ec.
               now inversion Ec. }
           cbn [map cap2]. f_equal. f_equal. lia.
        -- now rewrite !chunks_other, IH by assumption.
Qed.

Lemma times_nl (n : nat) (s : string) :
  (arxiv_extract.times arxiv_extract.NL (S n) ++ s)%string
  = String nl (arxiv_extract.times arxiv_extract.NL n ++ s).
Proof. reflexivity. Qed.

Lemma unchunks_chunks (s : string) : unchunks (chunks s) = s.
Proof.
  induction s as [|c s IH]; [reflexivity|].
  destruct (chr nl c) eqn:Hc.
  - apply chr_nl_true in Hc. subst c. rewrite chunks_nl.
    destruct (chunks s) as [|[m|d] r]; cbn [unchunks] in *.
    + now rewrite <- IH.
    + now rewrite times_nl, IH.
    + now rewrite <- IH.
  - rewrite chunks_other by assumption. cbn [unchunks]. now rewrite IH.
Qed.

(** What [re.sub(r'\n{3,}', '\n\n', s)] returns: [s] with every run of
    three or more newlines made a run of two, and nothing else changed. *)
Lemma collapse_runs (s : string) :
  chunks (sub newlines3 [Text NLNL] s) = map cap2 (chunks s) /\
  sub newlines3 [Text NLNL] s = collapsed s.
Proof.
  pose proof (collapse_chunks (String.length s) s 0 (le_n _)) as H.
  split; [exact H|]. unfold collapsed. fold (sub newlines3 [Text NLNL] s) in H.
  now rewrite <- H, unchunks_chunks.
Qed.

End Newlines.


(** ** The PDF text cleaner never fails *)

Module CleanerFacts.
Import Py Re ReFacts PyFacts arxiv_extract.
Import Spec.
Local Open Scope nat_scope.
#[local] Arguments Ascii.eqb : simpl never.
#[local] Arguments chr : simpl never.
#[local] Arguments isspace : simpl never.

Lemma space_is_space (c : ascii) : isspace c = false -> chr " " c = false.
Proof.
  intros Hc. unfold chr. destruct (Ascii.eqb_spec " "%char c) as [<-|]; [|reflexivity].
  discriminate Hc.
Qed.

Lemma sub_keeps_head (r : regex) (t : list piece) (c : ascii) (s : string) :
  match_at r (String c s) 0 false = None ->
  sub r t (String c s) = String c (sub_from r t s 1 0).
Proof. intros H. unfold sub. now rewrite sub_from_cons, H. Qed.

Lemma append_not_empty (a b : string) : b <> EmptyString -> (a ++ b)%string <> EmptyString.
Proof. destruct a; simpl; [auto|discriminate]. Qed.

Lemma fix_spacing_not_empty (c : ascii) (s : string) :
  isspace c = false -> fix_spacing (String c s) <> EmptyString.
Proof.
  intros Hc. unfold fix_spacing.
  (* runs of spaces: the first character is not a space *)
  rewrite (sub_keeps_head (plus (chr " "))).
  2:{ unfold match_at, plus. simpl. now rewrite (space_is_space c Hc). }
  remember (sub_from (plus (chr " ")) [Text " "] s 1 0) as s1 eqn:E1. clear E1.
  (* a full stop before a capital: the replacement starts with the stop *)
  assert (H2 : exists s2,
             sub (seq [Chr "."; Ahead (Cls isupper)]) [Text ". "] (String c s1)
             = String c s2).
  { unfold sub. rewrite sub_from_cons. unfold match_at. simpl run.
    destruct (Ascii.eqb_spec "."%char c) as [<-|Hn].
    - destruct s1 as [|d s1]; [eexists; reflexivity|].
      destruct (isupper d); simpl; eexists; reflexivity.
    - eexists; reflexivity. }
  destruct H2 as [s2 ->].
  (* white space before punctuation: the first character is not white *)
  rewrite (sub_keeps_head (seq [plus isspace; Grp 1 (Cls (one_of ".,;:?)"))])).
  2:{ unfold match_at, plus. simpl. now rewrite Hc. }
  (* punctuation before a capital: the replacement holds a space *)
  unfold sub. rewrite sub_from_cons.
  destruct (match_at _ _ 0 false) as [[e g]|]; [|discriminate].
  assert (Hx : forall rest,
             (expand [Back 1; Text " "; Back 2] g ++ rest)%string <> EmptyString).
  { intros rest. simpl. destruct (group 1 g) as [a|]; [destruct a|]; discriminate. }
  destruct (e =? 0); apply Hx.
Qed.

Lemma clean_line_ok (st : cleaning) (line : string) :
  exists st', clean_line st line = Ok st'.
Proof.
  unfold clean_line.
  destruct (strip line) as [|c r] eqn:E; [eexists; reflexivity|].
  simpl truthy. simpl negb. cbv iota.
  destruct (found_some (match_ section_headers (lower (String c r))));
    [eexists; reflexivity|].
  destruct (found_some (match_ figure_pattern (String c r)));
    [eexists; reflexivity|].
  destruct (processed_lines st); [eexists; reflexivity|].
  pose proof (fix_spacing_not_empty c r (strip_head line c r E)) as Hne.
  destruct (fix_spacing (String c r)) as [|d r']; [congruence|].
  destruct (negb (isupper d) && negb (isdigit d)); eexists; reflexivity.
Qed.

Lemma clean_lines_ok (lines : list string) :
  forall st, exists st', clean_lines st lines = Ok st'.
Proof.
  induction lines as [|line rest IH]; intros st; simpl.
  - now exists st.
  - destruct (clean_line_ok st line) as [st1 ->]. apply IH.
Qed.

(** [clean_text] returns: the index [line[0]] is never out of range *)
Lemma clean_text_ok (text : string) :
  exists st,
    clean_lines (Cleaning [] EmptyString) (split nl (dehyphenate (strip text)))
      = Ok st /\
    clean_text text =
      Ok (sub alignment_forum_extract.newlines3 [Text NLNL]
              (join NL (processed_lines st))).
Proof.
  destruct (clean_lines_ok (split nl (dehyphenate (strip text)))
                           (Cleaning [] EmptyString)) as [st E].
  exists st. split; [exact E|]. unfold clean_text. now rewrite E.
Qed.

End CleanerFacts.

(** ** Claims about the text pipelines *)

Module TextClaims.
Import Py Re ReFacts PyFacts Newlines CleanerFacts.
Import Spec.

(** C9. The string returned by the forum assembler [clean_content] and the
    string returned by the PDF cleaner [clean_text] never contain three
    newlines in a row, and they are the text put together before the last
    step with every run of three or more newlines made a run of exactly
    two: shorter runs and all other characters are as they were.
    [clean_text] always returns. *)
Theorem no_three_newlines_in_output :
  (forall soup : Dom.node,
      contains NL3 (alignment_forum_extract.clean_content soup) = false /\
      chunks (alignment_forum_extract.clean_content soup)
        = map cap2 (chunks (assembled soup)) /\
      alignment_forum_extract.clean_content soup = collapsed (assembled soup)) /\
  (forall text : string,
      exists pre out : string,
        joined text = Ok pre /\
        arxiv_extract.clean_text text = Ok out /\
        contains NL3 out = false /\
        chunks out = map cap2 (chunks pre) /\
        out = collapsed pre).
Proof.
  split.
  - intros soup.
    change (alignment_forum_extract.clean_content soup)
      with (sub alignment_forum_extract.newlines3
                [Text alignment_forum_extract.NLNL] (assembled soup)).
    split; [apply collapse_free|apply collapse_runs].
  - intros text. destruct (clean_text_ok text) as (st & Est & E).
    exists (join arxiv_extract.NL (arxiv_extract.processed_lines st)).
    eexists. unfold joined. rewrite Est.
    split; [reflexivity|]. split; [exact E|].
    split; [apply collapse_free|apply collapse_runs].
Qed.

(** Three sections in a row: the blank entries around a figure line and
    the newlines of a formatted header add up to runs of three and four
    newlines, and each run comes out as two. *)
Example clean_text_collapses :
  let NL := arxiv_extract.NL in
  let NLNL := arxiv_extract.NLNL in
  arxiv_extract.clean_text
    ("Abstract" ++ NL ++ "Figure 1 shows it" ++ NL ++ "Introduction")
  = Ok (NL ++ "# Abstract" ++ NLNL ++ "Figure 1 shows it" ++ NLNL
           ++ "# Introduction" ++ NL).
Proof. vm_compute. reflexivity. Qed.

End TextClaims.


(** ** Claims about the forum scripts' string functions *)

Module ForumClaims.
Import Py Re ReFacts PyFacts Dom.
Import Spec.
Import alignment_forum_extract.

(** *** Title cleaner *)

(** C2, as stated, fails: the second rule can uncover a suffix for the
    third.  On ["X 5 min read by Jane"] the cleaner returns
    ["X 5 min read"], and on that it returns ["X"]. *)
Lemma clean_title_not_idempotent :
  clean_title "X 5 min read by Jane" = "X 5 min read" /\
  clean_title (clean_title "X 5 min read by Jane") = "X" /\
  clean_title (clean_title "X 5 min read by Jane")
    <> clean_title "X 5 min read by Jane".
Proof.
  assert (E1 : clean_title "X 5 min read by Jane" = "X 5 min read")
    by (vm_compute; reflexivity).
  assert (E2 : clean_title "X 5 min read" = "X") by (vm_compute; reflexivity).
  rewrite E1, E2. repeat split. discriminate.
Qed.

Lemma clean_title_trimmed (s : string) : strip (clean_title s) = clean_title s.
Proof. unfold clean_title. apply strip_idem. Qed.

Lemma consumes_by_names_date : consumes by_names_date.
Proof. apply consumes_chr_first. Qed.
Lemma consumes_by_names : consumes by_names.
Proof. apply consumes_chr_first. Qed.
Lemma consumes_min_read : consumes min_read.
Proof. apply consumes_plus_first. Qed.

Lemma clean_title_fixed (t : string) :
  clean_title t = t -> settled t.
Proof.
  intros H.
  assert (L : String.length (clean_title t) = String.length t) by now rewrite H.
  unfold clean_title in L.
  pose proof (length_strip (sub min_read [] (sub by_names [] (sub by_names_date [] t)))) as L3.
  pose proof (sub_le min_read (sub by_names [] (sub by_names_date [] t))) as L2.
  pose proof (sub_le by_names (sub by_names_date [] t)) as L1.
  pose proof (sub_le by_names_date t) as L0.
  assert (H1 : search by_names_date t = None).
  { destruct (search by_names_date t) eqn:E; [|reflexivity].
    assert (X : search by_names_date t <> None) by congruence.
    apply (sub_found_shorter _ _ consumes_by_names_date) in X. lia. }
  rewrite (sub_not_found _ _ _ H1) in *.
  assert (H2 : search by_names t = None).
  { destruct (search by_names t) eqn:E; [|reflexivity].
    assert (X : search by_names t <> None) by congruence.
    apply (sub_found_shorter _ _ consumes_by_names) in X. lia. }
  rewrite (sub_not_found _ _ _ H2) in *.
  assert (H3 : search min_read t = None).
  { destruct (search min_read t) eqn:E; [|reflexivity].
    assert (X : search min_read t <> None) by congruence.
    apply (sub_found_shorter _ _ consumes_min_read) in X. lia. }
  now repeat split.
Qed.

(** C2, amended. A second cleaning leaves a cleaned title as it is exactly
    when none of the three patterns is found in it any more. *)
Theorem clean_title_twice (s : string) :
  clean_title (clean_title s) = clean_title s <-> settled (clean_title s).
Proof.
  split.
  - apply clean_title_fixed.
  - intros (H1 & H2 & H3).
    unfold clean_title at 1.
    rewrite (sub_not_found _ _ _ H1), (sub_not_found _ _ _ H2),
            (sub_not_found _ _ _ H3).
    apply clean_title_trimmed.
Qed.

Lemma clean_title_twice_witness :
  clean_title (clean_title "My Post by Jane Doe 22nd Jan 2024")
    = clean_title "My Post by Jane Doe 22nd Jan 2024".
Proof.
  apply (proj2 (clean_title_twice "My Post by Jane Doe 22nd Jan 2024")).
  repeat split; vm_compute; reflexivity.
Defined.

(** *** Body lines *)

(** C1 on two list items with the same text: the text is compared before
    the bullet is put in front and remembered after, so the second item
    is not recognised and both are emitted. *)
Theorem equal_list_items_both_emitted :
  body_lines two_equal_items = [bullet ++ " foo"; bullet ++ " foo"] /\
  adjacent_repeat (body_lines two_equal_items) = true.
Proof. split; vm_compute; reflexivity. Qed.

Lemma adjacent_repeat_snoc (pre : list string) (a b : string) :
  adjacent_repeat (pre ++ [a; b]) = adjacent_repeat (pre ++ [a]) || String.eqb a b.
Proof.
  induction pre as [|p pre IH].
  - simpl. now rewrite orb_false_r.
  - destruct pre as [|q pre].
    + simpl. now rewrite !orb_false_r.
    + change (adjacent_repeat ((p :: q :: pre) ++ [a; b]))
        with (String.eqb p q || adjacent_repeat ((q :: pre) ++ [a; b])).
      change (adjacent_repeat ((p :: q :: pre) ++ [a]))
        with (String.eqb p q || adjacent_repeat ((q :: pre) ++ [a])).
      rewrite IH. now rewrite orb_assoc.
Qed.

Lemma truthy_not_empty (t : string) : truthy t = true -> String.eqb t "" = false.
Proof. now destruct t. Qed.

Lemma visit_tidy (w : walk) (elem : node) :
  String.eqb (tag_name elem) "li" = false -> tidy w -> tidy (visit w elem).
Proof.
  intros Hli [Hrep Hlast]. unfold visit.
  destruct (truthy (strip (get_text elem))) eqn:Ht; cbn [negb orb];
    [|now split].
  destruct (existsb (fun x => contains x (lower (strip (get_text elem)))) noise);
    [now split|].
  rewrite Hli. unfold differs.
  remember (strip (get_text elem)) as text eqn:Etext. clear Etext.
  destruct (last_text w) as [t|] eqn:El.
  - destruct Hlast as [Htt [pre Ec]].
    destruct (String.eqb text t) eqn:E; cbn [negb];
      [split; [assumption|]; rewrite El; eauto|].
    rewrite Ec in *. rewrite length_app. cbn [List.length].
    replace (List.length pre + 1 =? 0)%nat with false
      by (symmetry; apply Nat.eqb_neq; lia).
    rewrite String.eqb_sym in E. cbn [negb].
    destruct (startswith "h" (tag_name elem)); cbn [andb].
    + split; cbn [content last_text].
      * replace (((pre ++ [t]) ++ [EmptyString]) ++ [text])%list
          with ((pre ++ [t]) ++ [EmptyString; text])%list
          by (now rewrite <- !app_assoc).
        rewrite adjacent_repeat_snoc.
        replace ((pre ++ [t]) ++ [EmptyString])%list
          with (pre ++ [t; EmptyString])%list by (now rewrite <- app_assoc).
        rewrite adjacent_repeat_snoc, Hrep, (truthy_not_empty t Htt).
        destruct text; [discriminate|reflexivity].
      * split; [assumption|]. eexists. reflexivity.
    + split; cbn [content last_text].
      * rewrite <- app_assoc. cbn [app].
        now rewrite adjacent_repeat_snoc, Hrep, E.
      * split; [assumption|]. eexists. reflexivity.
  - rewrite Hlast. cbn [List.length Nat.eqb negb]. rewrite andb_false_r.
    split; cbn [content last_text app].
    + reflexivity.
    + split; [assumption|]. now exists [].
Qed.

Lemma walk_tidy (elems : list node) :
  forallb (fun e => negb (String.eqb (tag_name e) "li")) elems = true ->
  forall w, tidy w -> tidy (fold_left visit elems w).
Proof.
  induction elems as [|e elems IH]; intros Hall w Hw; simpl; [assumption|].
  simpl in Hall. apply andb_true_iff in Hall as [He Hall].
  apply IH; [assumption|]. apply visit_tidy; [|assumption].
  now apply negb_true_iff.
Qed.

(** Without list items the body lines never hold the same entry twice in
    a row. *)
Lemma no_repeat_without_list_items (elems : list node) :
  forallb (fun e => negb (String.eqb (tag_name e) "li")) elems = true ->
  adjacent_repeat (content (walk_elems elems)) = false.
Proof.
  intros Hall. apply (walk_tidy elems Hall (Walk [] None)). now split.
Qed.

(** *** Dates *)

Import alignment_forum_meta.

(** C8. The two dates of the specification, and every day of every month
    in the same form: the month is found by its three-letter
    abbreviation and written with two digits, as is the day. *)
Theorem parse_date_examples :
  parse_date "22nd Jan 2024" = Ok (Some "2024-01-22") /\
  parse_date "1st Nov 2024" = Ok (Some "2024-11-01") /\
  forallb (fun month =>
     forallb (fun day =>
        result_eqb (parse_date (written_date day month)) (iso_date day month))
       (List.seq 1 31))
    (List.seq 1 12) = true.
Proof. repeat split; vm_compute; reflexivity. Qed.

(** C3 on a date whose month is no month: the pattern accepts any run of
    letters, and the month lookup then raises. *)
Theorem parse_date_unknown_month_raises :
  parse_date "22nd Foo 2024" = Raise ValueError.
Proof. vm_compute; reflexivity. Qed.

(** What is absent without an error is a date the pattern does not find. *)
Lemma parse_date_absent (s : string) :
  parse_date s = Ok None <-> search date_pattern s = None.
Proof.
  unfold parse_date. split.
  - destruct (search date_pattern s) as [m|]; [|reflexivity].
    destruct (m_group m 1), (m_group m 2), (m_group m 3); try discriminate.
    destruct (strptime_b_month _); discriminate.
  - now intros ->.
Qed.

End ForumClaims.

(** ** Claims about the PDF pipeline *)

Module PdfClaims.
Import Py Re ReFacts PyFacts Matching.
Import Spec.
Import arxiv_extract.
#[local] Arguments Ascii.eqb : simpl never.
#[local] Arguments isspace : simpl never.

Lemma mentions_app (c : ascii) (a b : string) :
  mentions c (a ++ b) = mentions c a || mentions c b.
Proof.
  induction a as [|d a IH]; simpl; [reflexivity|].
  now rewrite IH, orb_assoc.
Qed.

Lemma mentions_lstrip (c : ascii) (s : string) :
  mentions c s = false -> mentions c (lstrip s) = false.
Proof.
  induction s as [|d s IH]; simpl; [auto|].
  intros H. apply orb_false_iff in H as [Hd Hs].
  destruct (isspace d); [auto|]. simpl. now rewrite Hd, Hs.
Qed.

Lemma mentions_rstrip (c : ascii) (s : string) :
  mentions c s = false -> mentions c (rstrip s) = false.
Proof.
  induction s as [|d s IH]; simpl; [auto|].
  intros H. apply orb_false_iff in H as [Hd Hs].
  specialize (IH Hs).
  destruct (rstrip s) as [|e r].
  - destruct (isspace d); simpl; [reflexivity|]. now rewrite Hd.
  - simpl in *. now rewrite Hd, IH.
Qed.

Lemma mentions_strip (c : ascii) (s : string) :
  mentions c s = false -> mentions c (strip s) = false.
Proof. intros H. now apply mentions_rstrip, mentions_lstrip. Qed.

Lemma split_fields (sep : ascii) (s : string) :
  Forall (fun l => mentions sep l = false) (split sep s).
Proof.
  induction s as [|d s IH]; simpl.
  - now constructor.
  - destruct (Ascii.eqb_spec d sep) as [->|Hn].
    + now constructor.
    + destruct (split sep s) as [|h t].
      * constructor; [|constructor]. simpl.
        apply Ascii.eqb_neq in Hn. now rewrite Hn.
      * inversion IH; subst. constructor; [|assumption].
        simpl. apply Ascii.eqb_neq in Hn. now rewrite Hn.
Qed.

Lemma split_one_field (sep : ascii) (x : string) :
  mentions sep x = false -> split sep x = [x].
Proof.
  induction x as [|d x IH]; simpl; [reflexivity|].
  intros H. apply orb_false_iff in H as [Hd Hx].
  now rewrite Hd, (IH Hx).
Qed.

Lemma split_first_field (sep : ascii) (x rest : string) :
  mentions sep x = false ->
  split sep (x ++ String sep rest) = x :: split sep rest.
Proof.
  induction x as [|d x IH]; simpl.
  - intros _. now rewrite Ascii.eqb_refl.
  - intros H. apply orb_false_iff in H as [Hd Hx].
    now rewrite Hd, (IH Hx).
Qed.

(** splitting what was joined gives the fields back *)
Lemma split_join (ls : list string) :
  ls <> [] ->
  Forall (fun l => mentions nl l = false) ls ->
  split nl (join NL ls) = ls.
Proof.
  induction ls as [|x ls IH]; intros Hne Hall; [congruence|].
  inversion Hall as [|? ? Hx Hls]; subst.
  destruct ls as [|y ls].
  - simpl. now apply split_one_field.
  - change (join NL (x :: y :: ls)) with (x ++ String nl (join NL (y :: ls)))%string.
    rewrite split_first_field by assumption.
    f_equal. apply IH; [discriminate|assumption].
Qed.

Lemma merge_line_keeps (st : columns) (line : string) :
  Forall emitted (merged_lines st) -> mentions nl (buffer st) = false ->
  mentions nl line = false ->
  Forall emitted (merged_lines (merge_line st line)) /\
  mentions nl (buffer (merge_line st line)) = false.
Proof.
  intros Hm Hb Hl. unfold merge_line.
  destruct (startswith "    " line); simpl.
  - split; [assumption|].
    rewrite !mentions_app, Hb. simpl. now apply mentions_strip.
  - split; [|now apply mentions_strip].
    destruct (truthy (buffer st)) eqn:Ht; [|assumption].
    apply Forall_app. split; [assumption|]. now repeat constructor.
Qed.

Lemma merge_lines_keep (lines : list string) :
  forall st,
    Forall emitted (merged_lines st) -> mentions nl (buffer st) = false ->
    Forall (fun l => mentions nl l = false) lines ->
    Forall emitted (merged_lines (fold_left merge_line lines st)) /\
    mentions nl (buffer (fold_left merge_line lines st)) = false.
Proof.
  induction lines as [|line rest IH]; intros st Hm Hb Hall; simpl.
  - now split.
  - inversion Hall; subst.
    destruct (merge_line_keeps st line Hm Hb) as [Hm' Hb']; [assumption|].
    now apply IH.
Qed.

Lemma merge_columns_lines_emitted (text : string) :
  Forall emitted (merge_columns_lines text).
Proof.
  unfold merge_columns_lines.
  destruct (merge_lines_keep (split nl text) (Columns [] EmptyString))
    as [Hm Hb]; [constructor|reflexivity|apply split_fields|].
  destruct (truthy (buffer _)) eqn:Ht; [|assumption].
  apply Forall_app. split; [assumption|]. now repeat constructor.
Qed.

(** *** What [merge_columns] does with its input *)

Lemma split_not_nil (sep : ascii) (s : string) : split sep s <> [].
Proof.
  induction s as [|c s IH]; simpl; [discriminate|].
  destruct (Ascii.eqb c sep); [discriminate|].
  destruct (split sep s); [contradiction|discriminate].
Qed.

Lemma split_app_sep (sep : ascii) (a b : string) :
  split sep (a ++ String sep b) = (split sep a ++ split sep b)%list.
Proof.
  induction a as [|c a IH]; simpl.
  - now rewrite Ascii.eqb_refl.
  - destruct (Ascii.eqb c sep); [now rewrite IH|].
    rewrite IH. pose proof (split_not_nil sep a) as Hn.
    destruct (split sep a); [contradiction|reflexivity].
Qed.

(** lines already emitted stay in front of what is emitted later *)
Lemma merge_lines_prefix (lines : list string) :
  forall (m x : list string) (buf : string),
    fold_left merge_line lines (Columns (m ++ x) buf)
    = Columns
        (m ++ merged_lines (fold_left merge_line lines (Columns x buf)))
        (buffer (fold_left merge_line lines (Columns x buf))).
Proof.
  induction lines as [|line rest IH]; intros m x buf; [reflexivity|].
  cbn [fold_left]. unfold merge_line at 2 4 6. cbn [merged_lines buffer].
  destruct (startswith "    " line); [apply IH|].
  destruct (truthy buf); [|apply IH].
  rewrite <- List.app_assoc. apply IH.
Qed.

Lemma merge_lines_flush (st : columns) :
  (if truthy (buffer st) then (merged_lines st ++ [buffer st])%list
   else merged_lines st) = merged_lines (flushed st).
Proof. reflexivity. Qed.

(** An empty line ends the line before it and gives no line itself: the
    text before it and the text after it are merged apart. *)
Lemma merge_columns_empty_line (a b : string) :
  merge_columns_lines (a ++ NL ++ NL ++ b)
  = (merge_columns_lines a ++ merge_columns_lines b)%list.
Proof.
  unfold merge_columns_lines.
  change (a ++ NL ++ NL ++ b)%string with (a ++ String nl (String nl b))%string.
  rewrite split_app_sep.
  change (split nl (String nl b)) with (EmptyString :: split nl b).
  rewrite fold_left_app. cbn [fold_left].
  set (sa := fold_left merge_line (split nl a) (Columns [] EmptyString)).
  change (merge_line sa EmptyString) with (flushed sa).
  unfold flushed.
  set (ma := if truthy (buffer sa)
             then (merged_lines sa ++ [buffer sa])%list else merged_lines sa).
  replace (Columns ma EmptyString) with (Columns (ma ++ []) EmptyString)
    by now rewrite app_nil_r.
  rewrite merge_lines_prefix. cbn [merged_lines buffer].
  set (sb := fold_left merge_line (split nl b) (Columns [] EmptyString)).
  destruct (truthy (buffer sb)); [now rewrite List.app_assoc|reflexivity].
Qed.

Lemma ink_app (a b : string) : ink (a ++ b) = (ink a ++ ink b)%string.
Proof.
  induction a as [|c a IH]; [reflexivity|].
  cbn [append ink]. rewrite IH. now destruct (isspace c).
Qed.

Lemma ink_lstrip (s : string) : ink (lstrip s) = ink s.
Proof.
  induction s as [|c s IH]; [reflexivity|].
  cbn [lstrip ink]. destruct (isspace c) eqn:Hc; [exact IH|].
  cbn [ink]. now rewrite Hc.
Qed.

Lemma ink_rstrip (s : string) : ink (rstrip s) = ink s.
Proof.
  induction s as [|c s IH]; [reflexivity|].
  cbn [rstrip ink]. destruct (rstrip s) as [|d r].
  - cbn [ink] in IH. rewrite <- IH.
    destruct (isspace c) eqn:Hc; [reflexivity|]. cbn [ink]. now rewrite Hc.
  - cbn [ink] in *. now rewrite IH.
Qed.

Lemma ink_strip (s : string) : ink (strip s) = ink s.
Proof. unfold strip. now rewrite ink_rstrip, ink_lstrip. Qed.

Lemma inks_app (a b : list string) : inks (a ++ b) = (inks a ++ inks b)%string.
Proof.
  induction a as [|x a IH]; [reflexivity|].
  cbn [app inks fold_right]. fold (inks (a ++ b)). fold (inks a).
  now rewrite IH, app_assoc.
Qed.

Lemma inks_split (text : string) : inks (split nl text) = ink text.
Proof.
  induction text as [|c s IH]; [reflexivity|].
  cbn [split]. destruct (Ascii.eqb c nl) eqn:Hc.
  - apply Ascii.eqb_eq in Hc. subst c. exact IH.
  - pose proof (split_not_nil nl s) as Hn.
    destruct (split nl s) as [|h t]; [contradiction|].
    cbn [inks fold_right ink] in *. rewrite <- IH.
    now destruct (isspace c).
Qed.

Lemma ink_join (ls : list string) : ink (join NL ls) = inks ls.
Proof.
  induction ls as [|x ls IH]; [reflexivity|].
  destruct ls as [|y ls].
  - cbn. now rewrite app_empty.
  - change (join NL (x :: y :: ls)) with (x ++ NL ++ join NL (y :: ls))%string.
    rewrite !ink_app, IH. reflexivity.
Qed.

Lemma merge_line_ink (st : columns) (line : string) :
  (inks (merged_lines (merge_line st line)) ++ ink (buffer (merge_line st line)))%string
  = ((inks (merged_lines st) ++ ink (buffer st)) ++ ink line)%string.
Proof.
  unfold merge_line. destruct (startswith "    " line);
    cbn [merged_lines buffer].
  - rewrite !ink_app, ink_strip. change (ink " ") with EmptyString.
    cbn [append]. now rewrite app_assoc.
  - rewrite ink_strip. destruct (truthy (buffer st)) eqn:Ht.
    + rewrite inks_app. cbn [inks fold_right]. now rewrite app_empty.
    + destruct (buffer st); [|discriminate]. cbn [ink]. now rewrite app_empty.
Qed.

Lemma merge_lines_ink (lines : list string) :
  forall st,
    (inks (merged_lines (fold_left merge_line lines st))
       ++ ink (buffer (fold_left merge_line lines st)))%string
    = ((inks (merged_lines st) ++ ink (buffer st)) ++ inks lines)%string.
Proof.
  induction lines as [|line rest IH]; intros st; cbn [fold_left].
  - cbn [inks fold_right]. now rewrite app_empty.
  - rewrite IH, merge_line_ink. cbn [inks fold_right]. fold (inks rest).
    now rewrite !app_assoc.
Qed.

(** [merge_columns] loses, adds and moves no character but white space. *)
Lemma merge_columns_ink (text : string) :
  ink (merge_columns text) = ink text.
Proof.
  unfold merge_columns. rewrite ink_join. unfold merge_columns_lines.
  pose proof (merge_lines_ink (split nl text) (Columns [] EmptyString)) as H.
  cbn [merged_lines buffer inks fold_right ink append] in H.
  fold (inks (split nl text)) in H. rewrite inks_split in H.
  rewrite <- H.
  destruct (truthy (buffer _)) eqn:Ht.
  - rewrite inks_app. cbn [inks fold_right]. now rewrite app_empty.
  - destruct (buffer _); [|discriminate]. cbn [ink]. now rewrite app_empty.
Qed.

(** C10, as stated, fails in its last part: blank lines of the input are
    not all gone from the output.  A line of four or more spaces that
    meets an empty buffer puts one space into the buffer, and that space
    is emitted as a line. *)
Lemma merge_columns_keeps_a_blank_line :
  merge_columns ("a" ++ NL ++ NL ++ "     " ++ NL ++ "b")
    = ("a" ++ NL ++ " " ++ NL ++ "b")%string /\
  merge_columns_lines ("a" ++ NL ++ NL ++ "     " ++ NL ++ "b") = ["a"; " "; "b"] /\
  strip " " = EmptyString.
Proof. repeat split. Qed.

(** C10, amended. Every line [merge_columns] emits is a non-empty string
    without a newline, and the lines of its output are the emitted lines
    (an output without any line is the empty string).  An empty input
    line is never emitted itself: it ends the line before it, so that the
    text before it and the text after it are merged apart.  Nothing but
    white space is lost, added or moved.  (A line may still be blank: one
    that holds a single space.) *)
Theorem merge_columns_lines_not_empty :
  (forall text : string,
      Forall emitted (merge_columns_lines text) /\
      (merge_columns_lines text = [] /\ merge_columns text = EmptyString \/
       split nl (merge_columns text) = merge_columns_lines text) /\
      ink (merge_columns text) = ink text) /\
  (forall st : columns, merge_line st EmptyString = flushed st) /\
  (forall a b : string,
      merge_columns_lines (a ++ NL ++ NL ++ b)
      = (merge_columns_lines a ++ merge_columns_lines b)%list).
Proof.
  split; [|split].
  - intros text. pose proof (merge_columns_lines_emitted text) as H.
    split; [exact H|]. split; [|apply merge_columns_ink].
    unfold merge_columns.
    destruct (merge_columns_lines text) as [|x ls] eqn:E.
    + left. now split.
    + right. apply split_join; [discriminate|].
      eapply Forall_impl; [|exact H]. now intros l [_ Hl].
  - reflexivity.
  - apply merge_columns_empty_line.
Qed.

(** a page that raises anywhere ends the page loop with the exception *)
Lemma extract_pages_raises (pages : list page) :
  In PageRaises pages ->
  forall text_content, extract_pages pages text_content = Raise PdfError.
Proof.
  induction pages as [|pg rest IH]; intros Hin acc; [contradiction|].
  destruct pg as [t| |]; simpl.
  - destruct Hin as [Hin|Hin]; [discriminate|].
    destruct (truthy t); now apply IH.
  - destruct Hin as [Hin|Hin]; [discriminate|]. now apply IH.
  - reflexivity.
Qed.

(** C7. If text extraction raises on any page, [extract_text_from_pdf]
    returns the empty string for the document and logs the error; nothing
    is raised to the caller. *)
Theorem page_error_gives_empty_text (pages : list page) :
  In PageRaises pages ->
  extract_text_from_pdf (Pages pages) =
  (EmptyString, [Printed "Error extracting text from PDF"]).
Proof.
  intros Hin. unfold extract_text_from_pdf, extract_text_try.
  now rewrite (extract_pages_raises pages Hin).
Qed.

Lemma page_error_gives_empty_text_witness :
  In PageRaises [PageText "Abstract"; PageRaises; PageText "more"] /\
  extract_text_from_pdf (Pages [PageText "Abstract"; PageRaises; PageText "more"])
  = (EmptyString, [Printed "Error extracting text from PDF"]).
Proof.
  split.
  - simpl. right. left. reflexivity.
  - apply (page_error_gives_empty_text
             [PageText "Abstract"; PageRaises; PageText "more"]).
    simpl. right. left. reflexivity.
Defined.

End PdfClaims.

(** ** Dictionaries and the output file *)

Module JsonFacts.
Import Json.
Import Spec.

Section Facts.
Context {V : Type}.
Implicit Types (d : dict V) (k : string) (v : V).

Lemma keys_setitem_in k v d : In k (keys d) -> keys (setitem k v d) = keys d.
Proof.
  induction d as [|[k' v'] d IH]; simpl; [contradiction|].
  destruct (String.eqb_spec k k') as [->|Hn]; simpl; [reflexivity|].
  intros [H|H]; [congruence|]. now rewrite IH.
Qed.

Lemma keys_setitem_new k v d :
  ~ In k (keys d) -> keys (setitem k v d) = (keys d ++ [k])%list.
Proof.
  induction d as [|[k' v'] d IH]; simpl; [reflexivity|].
  intros H. destruct (String.eqb_spec k k') as [->|Hn]; simpl.
  - exfalso. apply H. now left.
  - rewrite IH; [reflexivity|]. intros Hin. apply H. now right.
Qed.


Lemma nodup_setitem k v d : NoDup (keys d) -> NoDup (keys (setitem k v d)).
Proof.
  intros H. destruct (in_dec string_dec k (keys d)) as [Hin|Hnin].
  - now rewrite keys_setitem_in.
  - rewrite keys_setitem_new by assumption.
    apply NoDup_app; [assumption|repeat constructor; auto|].
    intros x Hx [<-|[]]. contradiction.
Qed.



Lemma nodup_fold (ms : list (string * V)) :
  forall d, NoDup (keys d) ->
    NoDup (keys (fold_left (fun d kv => setitem (fst kv) (snd kv) d) ms d)).
Proof.
  induction ms as [|[k v] ms IH]; intros d H; simpl; [assumption|].
  apply IH. now apply nodup_setitem.
Qed.

(** a decoded object has every key once *)
Lemma nodup_of_members (ms : list (string * V)) : NoDup (keys (of_members ms)).
Proof. apply nodup_fold. constructor. Qed.


Lemma get_in k v d : NoDup (keys d) -> In (k, v) d -> get k d = Some v.
Proof.
  induction d as [|[k' v'] d IH]; intros Hnd Hin; [contradiction|].
  inversion Hnd as [|? ? Hx Hl]; subst. simpl.
  destruct Hin as [E|Hin].
  - inversion E; subst. now rewrite String.eqb_refl.
  - destruct (String.eqb_spec k k') as [->|Hn].
    + exfalso. apply Hx. change k' with (fst (k', v)). now apply in_map.
    + now apply IH.
Qed.

Lemma in_get k v d : get k d = Some v -> In (k, v) d.
Proof.
  induction d as [|[k' v'] d IH]; simpl; [discriminate|].
  destruct (String.eqb_spec k k') as [->|Hn].
  - intros E. inversion E. now left.
  - intros E. right. now apply IH.
Qed.

Lemma insert_perm (kv : string * V) (l : list (string * V)) :
  Permutation (insert kv l) (kv :: l).
Proof.
  induction l as [|x l IH]; simpl; [reflexivity|].
  destruct (String.leb (fst kv) (fst x)); [reflexivity|].
  rewrite IH. apply perm_swap.
Qed.

Lemma sorted_perm (l : list (string * V)) : Permutation (sorted l) l.
Proof.
  induction l as [|x l IH]; simpl; [reflexivity|].
  now rewrite insert_perm, IH.
Qed.



Lemma nodup_sorted d : NoDup (keys d) -> NoDup (keys (sorted d)).
Proof.
  intros H. eapply Permutation_NoDup; [|exact H].
  apply Permutation_map. symmetry. apply sorted_perm.
Qed.

Lemma get_sorted k d : NoDup (keys d) -> get k (sorted d) = get k d.
Proof.
  intros H. destruct (get k d) as [v|] eqn:E.
  - apply get_in; [now apply nodup_sorted|].
    eapply Permutation_in; [symmetry; apply sorted_perm|]. now apply in_get.
  - destruct (get k (sorted d)) as [v|] eqn:E'; [|reflexivity].
    apply in_get in E'.
    assert (Hin : In (k, v) d) by (eapply Permutation_in; [apply sorted_perm|exact E']).
    rewrite (get_in k v d H Hin) in E. discriminate.
Qed.


(** reading back what was written *)
Lemma of_members_nodup_id d : NoDup (keys d) -> of_members d = d.
Proof.
  unfold of_members.
  assert (G : forall ms acc,
             NoDup (keys (acc ++ ms)%list) ->
             fold_left (fun d kv => setitem (fst kv) (snd kv) d) ms acc
             = (acc ++ ms)%list).
  { induction ms as [|[k v] ms IH]; intros acc H; simpl.
    - now rewrite app_nil_r.
    - assert (Hk : ~ In k (keys acc)).
      { unfold keys in H. rewrite map_app in H. simpl in H.
        apply NoDup_remove_2 in H. intros Hin. apply H.
        apply in_or_app. now left. }
      assert (E : setitem k v acc = (acc ++ [(k, v)])%list).
      { clear -Hk. induction acc as [|[k' v'] acc IHa]; simpl; [reflexivity|].
        destruct (String.eqb_spec k k') as [->|Hn].
        - exfalso. apply Hk. now left.
        - rewrite IHa; [reflexivity|]. intros Hin. apply Hk. now right. }
      rewrite E, IH; rewrite <- app_assoc; [reflexivity|exact H]. }
  intros H. exact (G d [] H).
Qed.

End Facts.

End JsonFacts.

(** ** Claims about the JSON metadata stores *)

Module StoreClaims.
Import Json JsonFacts.
Import Spec.









(** *** An output file that does not decode *)





End StoreClaims.


(** ** Claims about batch runs *)

Module BatchClaims.
Import Py.
Import Spec StoreClaims.
#[local] Arguments contains : simpl never.
#[local] Arguments arxiv_meta.extract_id : simpl never.
#[local] Arguments arxiv_extract.extract_id : simpl never.
#[local] Arguments alignment_forum_extract.clean_content : simpl never.

Lemma fetched_app (a b : list event) :
  fetched (a ++ b) = (fetched a ++ fetched b)%list.
Proof. apply flat_map_app. Qed.



(** *** The forum article extractor *)

Section ForumExtract.
Variable http_get : string -> result Dom.node.
Variable writable : string -> bool.
Variable now : string.





End ForumExtract.

(** *** The forum metadata extractor *)

Section ForumMeta.
Variable http_get : string -> result Dom.node.
Variable w : bool.









End ForumMeta.

(** *** The arXiv paper extractor *)

Section ArxivExtract.
Variable results : string -> result Arxiv.Result.
Variable get_pdf : string -> result arxiv_extract.pdf.
Variable writable : string -> bool.











End ArxivExtract.

(** *** The video metadata tool *)

Section Youtube.
Variable yt_dlp : string -> youtube_meta.outcome.



End Youtube.

(** *** The arXiv metadata extractor *)

Section ArxivMeta.
Variable results : string -> result Arxiv.Result.







End ArxivMeta.

(** *** The claim *)



End BatchClaims.


(** * Further properties *)

(** ** The metadata stores *)

Module StoreMore.
Import Json JsonFacts.
Import Spec StoreClaims.

Section Dicts.
Context {V : Type}.
Implicit Types (d : dict V) (k : string) (v : V).

Lemma get_setitem_other k k' v d :
  k' <> k -> get k' (setitem k v d) = get k' d.
Proof.
  intros Hn. induction d as [|[k0 v0] d IH]; simpl.
  - apply String.eqb_neq in Hn. now rewrite Hn.
  - destruct (String.eqb_spec k k0) as [->|Hk]; simpl.
    + apply String.eqb_neq in Hn. now rewrite Hn.
    + now rewrite IH.
Qed.

Lemma keys_setitem_keep k k' v d :
  In k' (keys d) -> In k' (keys (setitem k v d)).
Proof.
  intros Hin. destruct (in_dec string_dec k (keys d)) as [Hk|Hk].
  - now rewrite keys_setitem_in.
  - rewrite keys_setitem_new by assumption. apply in_or_app. now left.
Qed.

End Dicts.

(** *** arxiv_meta.py: save_json *)





(** *** alignment_forum_meta.py: the store in memory and on disk *)

(** Recording a post changes no other entry of the forum store. *)
Theorem record_metadata_keeps_other_entries
    (ms0 : list (string * alignment_forum_meta.metadata))
    (f0 : alignment_forum_meta.store) (k k' : string)
    (v : alignment_forum_meta.metadata) :
  k' <> k ->
  get k' (stored (alignment_forum_meta.output_file
                    (fst (alignment_forum_meta.record_metadata true
                            (alignment_forum_meta.Extractor
                               (Dict (of_members ms0)) f0)
                            k v))))
  = get k' (of_members ms0).
Proof.
  intros Hk. simpl.
  pose proof (nodup_setitem k v _ (nodup_of_members ms0)) as Hnd.
  rewrite of_members_nodup_id by now apply nodup_sorted.
  rewrite get_sorted by assumption. now apply get_setitem_other.
Qed.

Lemma record_metadata_keeps_other_entries_witness :
  get "xyz789"
    (stored (alignment_forum_meta.output_file
               (fst (alignment_forum_meta.record_metadata true
                       (alignment_forum_meta.Extractor
                          (Dict (of_members [("xyz789", forum_post "Other")]))
                          Absent)
                       "abc123" (forum_post "New")))))
  = Some (forum_post "Other").
Proof.
  rewrite (record_metadata_keeps_other_entries
             [("xyz789", forum_post "Other")] Absent "abc123" "xyz789"
             (forum_post "New")).
  - reflexivity.
  - discriminate.
Defined.

(** What [save_metadata] writes, [load_existing_data] reads back with
    every key holding the value it had. *)
Theorem saved_metadata_loads_back
    (ms : list (string * alignment_forum_meta.metadata))
    (f : alignment_forum_meta.store) :
  exists d,
    alignment_forum_meta.load_existing_data
      (fst (alignment_forum_meta.save_metadata true (Dict (of_members ms)) f))
    = Ok (Dict d) /\
    forall k, get k d = get k (of_members ms).
Proof.
  pose proof (nodup_of_members ms) as Hnd.
  exists (sorted (of_members ms)). split.
  - unfold alignment_forum_meta.load_existing_data,
      alignment_forum_meta.save_metadata. simpl.
    now rewrite of_members_nodup_id by now apply nodup_sorted.
  - intros k. now apply get_sorted.
Qed.

Section Runs.
Variable http_get : string -> result Dom.node.
Variable w : bool.

Lemma nothing_from (self : alignment_forum_meta.extractor) (url : string) :
  yields_nothing http_get url ->
  exists ev,
    alignment_forum_meta.process_url http_get w self url = (ev, self, Ok tt).
Proof.
  unfold yields_nothing, forum_url, alignment_forum_meta.process_url.
  intros [H|[e H]].
  - rewrite H. eexists. reflexivity.
  - destruct (Py.contains "alignmentforum.org" url);
      [|eexists; reflexivity].
    unfold alignment_forum_meta.extract_metadata,
      alignment_forum_meta.extract_metadata_try.
    rewrite H. eexists. reflexivity.
Qed.

(** A run in which no URL gives a page leaves the extractor, and with it
    the output file, as they were, and ends without an error. *)
Theorem failed_items_leave_store
    (self : alignment_forum_meta.extractor) (urls : list string) :
  Forall (yields_nothing http_get) urls ->
  snd (fst (alignment_forum_meta.process_urls http_get w self urls)) = self /\
  snd (alignment_forum_meta.process_urls http_get w self urls) = Ok tt.
Proof.
  induction 1 as [|u us Hu Hus IH]; [now split|].
  cbn [alignment_forum_meta.process_urls].
  destruct (nothing_from self u Hu) as [ev ->].
  destruct (alignment_forum_meta.process_urls http_get w self us)
    as [[ev' self2] r].
  exact IH.
Qed.

Lemma record_keeps_keys (self : alignment_forum_meta.extractor)
    (post_id k : string) (md : alignment_forum_meta.metadata) :
  In k (keys (held (alignment_forum_meta.existing_data self))) ->
  In k (keys (held (alignment_forum_meta.existing_data
                      (fst (alignment_forum_meta.record_metadata w self
                              post_id md))))).
Proof.
  intros Hin. unfold alignment_forum_meta.record_metadata.
  destruct self as [[d|] f]; cbn [alignment_forum_meta.existing_data] in *;
    [|exact Hin].
  cbn [alignment_forum_meta.output_file].
  destruct (alignment_forum_meta.save_metadata w _ f) as [f1 r].
  cbn [fst alignment_forum_meta.existing_data held] in *.
  now apply keys_setitem_keep.
Qed.

Lemma process_url_keeps_keys (self : alignment_forum_meta.extractor)
    (url k : string) :
  In k (keys (held (alignment_forum_meta.existing_data self))) ->
  In k (keys (held (alignment_forum_meta.existing_data
                      (snd (fst (alignment_forum_meta.process_url http_get w
                                   self url)))))).
Proof.
  intros Hin. unfold alignment_forum_meta.process_url.
  destruct (negb _); [assumption|].
  destruct (alignment_forum_meta.extract_metadata http_get url)
    as [ev [[post_id md]|]]; [|assumption].
  pose proof (record_keeps_keys self post_id k md Hin) as H.
  now destruct (alignment_forum_meta.record_metadata w self post_id md).
Qed.

(** A run never drops a record: a key the extractor holds before a batch
    it holds after it, however the batch ends. *)
Theorem run_keeps_keys (self : alignment_forum_meta.extractor)
    (urls : list string) (k : string) :
  In k (keys (held (alignment_forum_meta.existing_data self))) ->
  In k (keys (held (alignment_forum_meta.existing_data
                      (snd (fst (alignment_forum_meta.process_urls http_get w
                                   self urls)))))).
Proof.
  revert self. induction urls as [|u us IH]; intros self Hin; [assumption|].
  cbn [alignment_forum_meta.process_urls].
  pose proof (process_url_keeps_keys self u k Hin) as H1.
  destruct (alignment_forum_meta.process_url http_get w self u)
    as [[ev self1] [[]|e]]; cbn [fst snd] in *; [|exact H1].
  specialize (IH self1 H1).
  now destruct (alignment_forum_meta.process_urls http_get w self1 us)
    as [[ev' self2] r].
Qed.

End Runs.

Lemma failed_items_leave_store_witness :
  snd (fst (alignment_forum_meta.process_urls (fun _ => Raise RequestException)
              true
              (alignment_forum_meta.Extractor
                 (Dict [("abc123", forum_post "Old")]) Absent)
              [a_post_url; "https://example.org/posts/abc123"]))
  = alignment_forum_meta.Extractor (Dict [("abc123", forum_post "Old")]) Absent
  /\
  snd (alignment_forum_meta.process_urls (fun _ => Raise RequestException)
         true
         (alignment_forum_meta.Extractor
            (Dict [("abc123", forum_post "Old")]) Absent)
         [a_post_url; "https://example.org/posts/abc123"])
  = Ok tt.
Proof.
  apply (failed_items_leave_store (fun _ => Raise RequestException)).
  apply Forall_cons; [right; now exists RequestException|].
  apply Forall_cons; [left; reflexivity|apply Forall_nil].
Defined.

Lemma run_keeps_keys_witness :
  In "abc123"
    (keys (held (alignment_forum_meta.existing_data
       (snd (fst (alignment_forum_meta.process_urls
                    (fun _ => Ok (Dom.Tag "html" [] [])) true
                    (alignment_forum_meta.Extractor
                       (Dict [("abc123", forum_post "Old")]) Absent)
                    ["https://www.alignmentforum.org/posts/xyz789/another"])))))).
Proof.
  apply (run_keeps_keys (fun _ => Ok (Dom.Tag "html" [] []))).
  simpl. now left.
Defined.

End StoreMore.


(** ** The PDF pipeline *)

Module PdfMore.
Import Py Re ReFacts PyFacts CleanerFacts PdfClaims.
Import Spec.
Import arxiv_extract.
#[local] Arguments Ascii.eqb : simpl never.
#[local] Arguments isspace : simpl never.
#[local] Arguments merge_columns : simpl never.
#[local] Arguments clean_text : simpl never.

(** *** extract_text_from_pdf *)

Lemma extract_pages_textless (pages : list page) :
  forall text_content,
    extract_pages (filter has_text pages) text_content
    = extract_pages pages text_content.
Proof.
  induction pages as [|pg rest IH]; intros acc; [reflexivity|].
  destruct pg as [t| |]; simpl.
  - destruct (truthy t) eqn:Ht; simpl; [rewrite Ht|]; apply IH.
  - apply IH.
  - reflexivity.
Qed.

(** Pages without text (none, or the empty string) make no difference to
    what [extract_text_from_pdf] returns and logs. *)
Theorem textless_pages_make_no_difference (pages : list page) :
  extract_text_from_pdf (Pages (filter has_text pages))
  = extract_text_from_pdf (Pages pages).
Proof.
  unfold extract_text_from_pdf, extract_text_try.
  now rewrite extract_pages_textless.
Qed.

Lemma extract_pages_all (pages : list page) :
  ~ In PageRaises pages ->
  forall text_content,
    extract_pages pages text_content
    = Ok (text_content ++ map merge_columns (page_texts pages))%list.
Proof.
  induction pages as [|pg rest IH]; intros Hno acc; simpl.
  - now rewrite app_nil_r.
  - assert (Hrest : ~ In PageRaises rest) by (intros H; apply Hno; now right).
    destruct pg as [t| |].
    + destruct (truthy t) eqn:Ht; simpl; rewrite ?Ht.
      * rewrite IH by assumption. now rewrite <- app_assoc.
      * now apply IH.
    + now apply IH.
    + exfalso. apply Hno. now left.
Qed.

(** When no page raises, the document's text is the cleaned join of the
    column-merged page texts in page order, and nothing is logged: the
    cleaner itself never fails. *)
Theorem readable_pdf_gives_text (pages : list page) :
  ~ In PageRaises pages ->
  exists text,
    clean_text (join NL (map merge_columns (page_texts pages))) = Ok text /\
    extract_text_from_pdf (Pages pages) = (text, []).
Proof.
  intros Hno.
  destruct (clean_text_ok (join NL (map merge_columns (page_texts pages))))
    as (st & _ & E).
  eexists. split; [exact E|].
  unfold extract_text_from_pdf, extract_text_try.
  rewrite (extract_pages_all pages Hno []). simpl app. now rewrite E.
Qed.

Lemma readable_pdf_gives_text_witness :
  exists text,
    clean_text (join NL (map merge_columns
                           (page_texts [PageText "Abstract"; PageNone])))
      = Ok text /\
    extract_text_from_pdf (Pages [PageText "Abstract"; PageNone]) = (text, []).
Proof.
  apply (readable_pdf_gives_text [PageText "Abstract"; PageNone]).
  intros [H|[H|[]]]; discriminate.
Defined.

(** *** merge_columns *)

Lemma merge_line_plain (st : columns) (line : string) :
  startswith "    " line = false ->
  pending (merge_line st line)
  = (pending st ++ if truthy (strip line) then [strip line] else [])%list.
Proof.
  intros H. unfold merge_line, pending. rewrite H. cbn [merged_lines buffer].
  destruct (truthy (buffer st)); [reflexivity|now rewrite app_nil_r].
Qed.

Lemma merge_lines_plain (lines : list string) :
  forallb (fun l => negb (startswith "    " l)) lines = true ->
  forall st,
    pending (fold_left merge_line lines st)
    = (pending st ++ filter truthy (map strip lines))%list.
Proof.
  induction lines as [|line rest IH]; intros Hall st; simpl.
  - now rewrite app_nil_r.
  - simpl in Hall. apply andb_true_iff in Hall as [Hl Hrest].
    apply negb_true_iff in Hl.
    rewrite IH by assumption. rewrite merge_line_plain by assumption.
    rewrite <- app_assoc. now destruct (truthy (strip line)).
Qed.

Lemma merge_columns_lines_pending (text : string) :
  merge_columns_lines text
  = pending (fold_left merge_line (split nl text) (Columns [] EmptyString)).
Proof.
  unfold merge_columns_lines, pending.
  destruct (truthy (buffer _)); [reflexivity|now rewrite app_nil_r].
Qed.

(** On a text without a line that starts with four spaces,
    [merge_columns] trims every line and drops the empty ones. *)
Theorem merge_columns_without_indent (text : string) :
  forallb (fun l => negb (startswith "    " l)) (split nl text) = true ->
  merge_columns_lines text = filter truthy (map strip (split nl text)).
Proof.
  intros H. rewrite merge_columns_lines_pending.
  now rewrite merge_lines_plain.
Qed.

Lemma merge_columns_without_indent_witness :
  let text := "  One " ++ NL ++ NL ++ "Two" in
  merge_columns_lines text = filter truthy (map strip (split nl text)).
Proof.
  apply (merge_columns_without_indent ("  One " ++ NL ++ NL ++ "Two")).
  reflexivity.
Defined.

Lemma strip_indented (b : string) : strip ("    " ++ b) = strip b.
Proof. reflexivity. Qed.

Lemma truthy_app_space (a b : string) : truthy (a ++ " " ++ b) = true.
Proof. now destruct a. Qed.

Lemma merge_line_indented (st : columns) (line : string) :
  startswith "    " line = true ->
  merge_line st line
  = Columns (merged_lines st) (buffer st ++ " " ++ strip line).
Proof. intros H. unfold merge_line. now rewrite H. Qed.

Lemma merge_line_flush (st : columns) (line : string) :
  startswith "    " line = false ->
  merge_line st line
  = Columns (if truthy (buffer st)
             then (merged_lines st ++ [buffer st])%list else merged_lines st)
            (strip line).
Proof. intros H. unfold merge_line. now rewrite H. Qed.

(** A line that starts with four spaces is joined to the line before it
    with exactly one space, both trimmed. *)
Theorem continuation_joined_with_one_space (a b : string) :
  mentions nl a = false -> mentions nl b = false ->
  startswith "    " a = false ->
  merge_columns (a ++ NL ++ "    " ++ b) = strip a ++ " " ++ strip b.
Proof.
  intros Ha Hb Hind. unfold merge_columns, merge_columns_lines.
  change (a ++ NL ++ "    " ++ b)%string
    with (a ++ String nl ("    " ++ b))%string.
  rewrite (split_first_field nl a ("    " ++ b) Ha).
  rewrite (split_one_field nl ("    " ++ b)) by exact Hb.
  cbn [fold_left].
  rewrite (merge_line_flush _ a Hind).
  rewrite merge_line_indented by reflexivity.
  cbn [merged_lines buffer truthy].
  rewrite strip_indented, truthy_app_space. reflexivity.
Qed.

Lemma continuation_joined_with_one_space_witness :
  merge_columns ("left column" ++ NL ++ "    " ++ "  right column ")
  = "left column right column".
Proof.
  rewrite (continuation_joined_with_one_space "left column" "  right column ");
    reflexivity.
Defined.

End PdfMore.


(** ** The forum article body *)

Module BodyMore.
Import Py Dom.
Import Spec.
Import alignment_forum_extract.
#[local] Arguments Ascii.eqb : simpl never.
#[local] Arguments contains : simpl never.
#[local] Arguments strip : simpl never.
#[local] Arguments lower : simpl never.

(** *** Noise phrases *)

Lemma contains_step (x : string) (c : ascii) (s : string) :
  contains x (String c s) = startswith x (String c s) || contains x s.
Proof. reflexivity. Qed.

Lemma lower_app (a b : string) : lower (a ++ b) = (lower a ++ lower b)%string.
Proof.
  induction a as [|c a IH]; [reflexivity|].
  change (lower (String c a ++ b)) with (String (lower_char c) (lower (a ++ b))).
  now rewrite IH.
Qed.

(** a phrase that does not start with [c] is found after [c] or not at all *)
Lemma noise_skips (c : ascii) (s : string) (phrases : list string) :
  forallb (fun x => match x with
                    | EmptyString => false
                    | String x0 _ => negb (Ascii.eqb x0 c)
                    end) phrases = true ->
  existsb (fun x => contains x (String c s)) phrases
  = existsb (fun x => contains x s) phrases.
Proof.
  induction phrases as [|x xs IH]; intros H; [reflexivity|].
  cbn [forallb] in H. apply andb_true_iff in H as [Hx Hxs].
  cbn [existsb]. rewrite (IH Hxs). f_equal.
  destruct x as [|x0 x']; [discriminate|].
  rewrite contains_step. cbn [startswith].
  apply negb_true_iff in Hx. now rewrite Hx.
Qed.

Lemma noisy_bullet (text : string) :
  noisy (bullet ++ " " ++ text) = noisy text.
Proof.
  unfold noisy. rewrite !lower_app.
  change (lower bullet ++ lower " " ++ lower text)%string
    with (String (ascii_of_nat 226) (String (ascii_of_nat 128)
           (String (ascii_of_nat 162) (String " " (lower text))))).
  now rewrite !noise_skips by reflexivity.
Qed.

Lemma visit_quiet (w : walk) (elem : node) :
  Forall (fun l => noisy l = false) (content w) ->
  Forall (fun l => noisy l = false) (content (visit w elem)).
Proof.
  intros Hw. unfold visit.
  destruct (negb (truthy (strip (get_text elem)))
            || existsb (fun x => contains x (lower (strip (get_text elem)))) noise)
    eqn:Hskip; [assumption|].
  apply orb_false_iff in Hskip as [_ Hq].
  destruct (differs _ _); [|assumption].
  cbn [content].
  apply Forall_app. split.
  - destruct (startswith "h" (tag_name elem) && _); [|assumption].
    apply Forall_app. split; [assumption|]. now repeat constructor.
  - constructor; [|constructor].
    destruct (String.eqb (tag_name elem) "li"); [|exact Hq].
    rewrite noisy_bullet. exact Hq.
Qed.

(** No body line holds a noise phrase, in any letter case. *)
Theorem body_lines_without_noise (content_area : node) :
  Forall (fun l => noisy l = false) (body_lines content_area).
Proof.
  unfold body_lines, walk_elems.
  assert (G : forall elems w,
             Forall (fun l => noisy l = false) (content w) ->
             Forall (fun l => noisy l = false)
                    (content (fold_left visit elems w))).
  { induction elems as [|e es IH]; intros w Hw; [assumption|].
    cbn [fold_left]. apply IH. now apply visit_quiet. }
  apply G. constructor.
Qed.

(** *** Headings *)

Lemma as_paragraph_text (e : node) : get_text (as_paragraph e) = get_text e.
Proof.
  destruct e as [s|nm cl cs]; [reflexivity|]. unfold as_paragraph.
  now destruct (existsb _ _).
Qed.

Lemma as_paragraph_li (e : node) :
  String.eqb (tag_name (as_paragraph e)) "li" = String.eqb (tag_name e) "li".
Proof.
  destruct e as [s|nm cl cs]; [reflexivity|]. unfold as_paragraph.
  destruct (existsb (String.eqb nm) ["h1"; "h2"; "h3"; "h4"]) eqn:E;
    [|reflexivity].
  cbn [existsb] in E. cbn [tag_name].
  repeat (apply orb_true_iff in E as [E|E];
          [apply String.eqb_eq in E; subst; reflexivity|]).
  discriminate.
Qed.

Lemma visit_heading_as_paragraph (w w' : walk) (e : node) :
  negb (startswith "h" (tag_name (as_paragraph e))) = true ->
  content w' = filter truthy (content w) ->
  last_text w' = last_text w ->
  content (visit w' (as_paragraph e)) = filter truthy (content (visit w e)) /\
  last_text (visit w' (as_paragraph e)) = last_text (visit w e).
Proof.
  intros Hp Hc Hl. unfold visit.
  rewrite as_paragraph_text, as_paragraph_li, Hl.
  apply negb_true_iff in Hp. rewrite Hp.
  destruct (truthy (strip (get_text e))) eqn:Ht; cbn [negb orb];
    [|now split].
  destruct (existsb _ noise); [now split|].
  destruct (differs _ _); [|now split].
  cbn [andb content last_text]. split; [|reflexivity].
  rewrite filter_app. cbn [filter].
  replace (truthy (if String.eqb (tag_name e) "li"
                   then (bullet ++ " " ++ strip (get_text e))%string
                   else strip (get_text e))) with true
    by (destruct (String.eqb (tag_name e) "li"); [reflexivity|now rewrite Ht]).
  rewrite Hc. f_equal.
  destruct (startswith "h" (tag_name e) && _); [|reflexivity].
  rewrite filter_app. cbn [filter truthy]. now rewrite app_nil_r.
Qed.

Lemma as_paragraph_plain (e : node) :
  named ["p"; "h1"; "h2"; "h3"; "h4"; "li"] e = true ->
  negb (startswith "h" (tag_name (as_paragraph e))) = true.
Proof.
  destruct e as [s|nm cl cs]; [discriminate|].
  cbn [named existsb]. intros E.
  repeat (apply orb_true_iff in E as [E|E];
          [apply String.eqb_eq in E; subst; reflexivity|]).
  discriminate.
Qed.

(** The blank entry put before a heading never reaches the text: the
    body lines that are not empty are those of the same elements with
    every heading turned into a paragraph. *)
Theorem headings_read_as_paragraphs (content_area : node) :
  filter truthy (body_lines content_area)
  = content (walk_elems (map as_paragraph (walked content_area))).
Proof.
  unfold body_lines, walk_elems. fold (walked content_area).
  assert (Hall : Forall (fun e => named ["p"; "h1"; "h2"; "h3"; "h4"; "li"] e
                                  = true) (walked content_area)).
  { unfold walked, find_all. apply Forall_forall. intros e He.
    now apply filter_In in He. }
  assert (G : forall elems w w',
             Forall (fun e => named ["p"; "h1"; "h2"; "h3"; "h4"; "li"] e
                              = true) elems ->
             content w' = filter truthy (content w) ->
             last_text w' = last_text w ->
             content (fold_left visit (map as_paragraph elems) w')
             = filter truthy (content (fold_left visit elems w))).
  { induction elems as [|e es IH]; intros w w' Hes Hc Hl; [assumption|].
    inversion Hes as [|? ? He Hes']; subst. cbn [map fold_left].
    destruct (visit_heading_as_paragraph w w' e (as_paragraph_plain e He) Hc Hl)
      as [Hc' Hl'].
    now apply IH. }
  symmetry. now apply G.
Qed.

(** *** Pruning *)

Lemma shallow_has_class (k : string) : shallow (has_class k).
Proof. now intros nm cl cs cs'. Qed.

Lemma shallow_named (names : list string) : shallow (named names).
Proof. now intros nm cl cs cs'. Qed.

Lemma shallow_decompose (q p : node -> bool) (n : node) :
  shallow q -> q (decompose_all p n) = q n.
Proof. intros Hq. destruct n as [s|nm cl cs]; [reflexivity|]. apply Hq. Qed.

Lemma in_descendants (nm : string) (cl : list string) (cs : list node)
    (e : node) :
  In e (descendants (Tag nm cl cs)) <->
  exists c, In c cs /\
    match c with
    | Txt _ => False
    | Tag _ _ _ => e = c \/ In e (descendants c)
    end.
Proof.
  cbn [descendants]. rewrite in_flat_map. split.
  - intros (c & Hc & He). exists c. split; [assumption|].
    destruct c; [contradiction|]. destruct He as [<-|He]; auto.
  - intros (c & Hc & He). exists c. split; [assumption|].
    destruct c; [contradiction|]. destruct He as [->|He]; [now left|now right].
Qed.

(** what is left below a pruned node are pruned copies of elements that
    did not satisfy the test *)
Lemma descendants_decompose (p : node -> bool) (n : node) :
  forall e',
    In e' (descendants (decompose_all p n)) ->
    exists e, In e (descendants n) /\ p e = false /\ e' = decompose_all p e.
Proof.
  induction n as [s|nm cl cs IH] using node_rect_nested; intros e' He'.
  - contradiction.
  - cbn [decompose_all] in He'. apply in_descendants in He'.
    destruct He' as (c' & Hc' & He').
    apply in_flat_map in Hc'. destruct Hc' as (c & Hc & Hc').
    destruct (p c) eqn:Hpc; [contradiction|].
    destruct Hc' as [<-|[]].
    rewrite Forall_forall in IH. specialize (IH c Hc).
    destruct c as [s|nm0 cl0 cs0]; [contradiction|].
    cbn [decompose_all] in He'. fold (decompose_all p (Tag nm0 cl0 cs0)) in He'.
    destruct He' as [->|He'].
    + exists (Tag nm0 cl0 cs0). repeat split; [|assumption].
      apply in_descendants. exists (Tag nm0 cl0 cs0). split; [assumption|now left].
    + change (Tag nm0 cl0 (flat_map
                (fun c => if p c then [] else [decompose_all p c]) cs0))
        with (decompose_all p (Tag nm0 cl0 cs0)) in He'.
      destruct (IH e' He') as (e & He & Hpe & ->).
      exists e. repeat split; [|assumption].
      apply in_descendants. exists (Tag nm0 cl0 cs0). split; [assumption|now right].
Qed.

Lemma decompose_removes (p : node -> bool) (n : node) :
  shallow p ->
  Forall (fun e => p e = false) (descendants (decompose_all p n)).
Proof.
  intros Hp. apply Forall_forall. intros e' He'.
  destruct (descendants_decompose p n e' He') as (e & _ & Hpe & ->).
  now rewrite shallow_decompose.
Qed.

Lemma decompose_keeps (q p : node -> bool) (n : node) :
  shallow q ->
  Forall (fun e => q e = false) (descendants n) ->
  Forall (fun e => q e = false) (descendants (decompose_all p n)).
Proof.
  intros Hq Hn. apply Forall_forall. intros e' He'.
  destruct (descendants_decompose p n e' He') as (e & He & _ & ->).
  rewrite shallow_decompose by assumption.
  rewrite Forall_forall in Hn. now apply Hn.
Qed.

Lemma prune_classes_keep (q : node -> bool) (ks : list string) :
  shallow q ->
  forall n,
    Forall (fun e => q e = false) (descendants n) ->
    Forall (fun e => q e = false)
      (descendants (fold_left (fun area k => decompose_all (has_class k) area)
                              ks n)).
Proof.
  intros Hq. induction ks as [|k ks IH]; intros n Hn; [assumption|].
  cbn [fold_left]. apply IH. now apply decompose_keeps.
Qed.

Lemma prune_classes_remove (ks : list string) (k : string) :
  In k ks ->
  forall n,
    Forall (fun e => has_class k e = false)
      (descendants (fold_left (fun area k => decompose_all (has_class k) area)
                              ks n)).
Proof.
  induction ks as [|k0 ks IH]; intros Hin n; [contradiction|].
  cbn [fold_left]. destruct Hin as [->|Hin].
  - apply prune_classes_keep; [apply shallow_has_class|].
    apply decompose_removes, shallow_has_class.
  - now apply IH.
Qed.

(** Nothing below the pruned content area is a script, style or iframe
    element or carries one of the unwanted classes; so no such element is
    walked, and none lends its text to an element that is. *)
Theorem pruned_area_has_nothing_unwanted (content_area : node) :
  Forall (fun e => unwanted e = false) (descendants (prune content_area)).
Proof.
  unfold prune.
  assert (H1 : Forall (fun e => named ["script"; "style"; "iframe"] e = false)
                 (descendants
                    (fold_left (fun area k => decompose_all (has_class k) area)
                       unwanted_classes
                       (decompose_all (named ["script"; "style"; "iframe"])
                                      content_area)))).
  { apply prune_classes_keep; [apply shallow_named|].
    apply decompose_removes, shallow_named. }
  apply Forall_forall. intros e He. unfold unwanted.
  rewrite Forall_forall in H1. rewrite (H1 e He). cbn [orb].
  destruct (existsb (fun k => has_class k e) unwanted_classes) eqn:E;
    [|reflexivity].
  apply existsb_exists in E. destruct E as (k & Hk & Hc).
  pose proof (prune_classes_remove unwanted_classes k Hk
                (decompose_all (named ["script"; "style"; "iframe"])
                               content_area)) as H2.
  rewrite Forall_forall in H2. rewrite (H2 e He) in Hc. discriminate.
Qed.

End BodyMore.


(** ** Post identifiers and the files named after them *)

Module PostIds.
Import Py Re ReFacts PyFacts Matching PdfClaims.
Import Spec.
Import alignment_forum_extract.
Local Open Scope nat_scope.

(** [/posts/([^/]+)] at the front of a string *)
Lemma post_id_at (s : string) (pos : nat) :
  match_at post_id_re s pos false
  = if startswith "/posts/" s
    then let s1 := drop (String.length "/posts/") s in
         if 1 <=? span not_slash s1
         then Some (pos + String.length "/posts/" + span not_slash s1,
                    [(1, take (span not_slash s1) s1)])
         else None
    else None.
Proof.
  unfold match_at.
  change post_id_re
    with (Cat (lit "/posts/") (Cat (Grp 1 (Rep not_slash 1 None)) Eps)).
  cbn [run]. rewrite run_lit.
  destruct (startswith "/posts/" s); [|reflexivity].
  cbn [run]. cbv zeta.
  set (s1 := drop (String.length "/posts/") s).
  set (n1 := pos + String.length "/posts/").
  rewrite (rep_takes_the_run not_slash
             (fun (_ : string) n' => (n', [(1, take (n' - n1) s1)]))).
  destruct (1 <=? span not_slash s1); [|reflexivity].
  now replace (n1 + span not_slash s1 - n1) with (span not_slash s1) by lia.
Qed.

Lemma run_of_take_span (p : ascii -> bool) (s : string) :
  1 <= span p s -> run_of p (take (span p s) s) = true.
Proof.
  intros H. unfold run_of. rewrite every_take_span, andb_true_r.
  pose proof (length_take_span p s) as L.
  destruct (take (span p s) s); [simpl in L; lia|reflexivity].
Qed.

Lemma post_id_match (s : string) (pos e : nat) (g : caps) :
  match_at post_id_re s pos false = Some (e, g) ->
  exists id, g = [(1, id)] /\ run_of not_slash id = true.
Proof.
  rewrite post_id_at. destruct (startswith "/posts/" s); [|discriminate].
  cbv zeta. destruct (1 <=? span not_slash _) eqn:Hs; [|discriminate].
  apply Nat.leb_le in Hs. intros H. inversion H; subst e g.
  eexists. split; [reflexivity|]. now apply run_of_take_span.
Qed.

Lemma post_id_shape (url id : string) :
  group1 (search post_id_re url) = Some id -> run_of not_slash id = true.
Proof.
  unfold group1, search. intros H.
  destruct (search_from post_id_re url 0) as [m|] eqn:E; [|discriminate].
  destruct (search_from_found _ _ _ _ E) as (s' & pos' & Hm).
  destruct (post_id_match _ _ _ _ Hm) as (id' & Hg & Hid).
  unfold m_group in H. rewrite Hg in H. simpl in H. now inversion H; subst.
Qed.

(** the pattern matches wherever [/posts/] is followed by such a run *)
Lemma piece_matches (stem rest : string) (pos : nat) :
  run_of not_slash stem = true ->
  match_at post_id_re ("/posts/" ++ stem ++ rest) pos false <> None.
Proof.
  intros H. rewrite post_id_at, startswith_app, drop_app. cbv zeta.
  unfold run_of in H. apply andb_true_iff in H. destruct H as [Ht He].
  pose proof (span_ge_app not_slash stem rest He) as L.
  assert (1 <= String.length stem) by (destruct stem; [discriminate|simpl; lia]).
  replace (1 <=? span not_slash (stem ++ rest)) with true
    by (symmetry; apply Nat.leb_le; lia).
  discriminate.
Qed.

Lemma post_id_found (url id : string) :
  group1 (search post_id_re url) = Some id -> first_post_piece url id.
Proof.
  unfold group1, search. intros H.
  destruct (search_from post_id_re url 0) as [m|] eqn:E; [|discriminate].
  destruct (search_from_split _ _ _ _ E) as (pre & s' & Hs & Hm & Hfirst).
  rewrite post_id_at in Hm.
  destruct (startswith "/posts/" s') eqn:Hw; [|discriminate].
  cbv zeta in Hm. set (s1 := drop (String.length "/posts/") s') in *.
  destruct (1 <=? span not_slash s1) eqn:H1; [|discriminate].
  apply Nat.leb_le in H1.
  assert (Hg : m_groups m = [(1, take (span not_slash s1) s1)])
    by now inversion Hm.
  unfold m_group in H. rewrite Hg in H. cbn [group Nat.eqb] in H.
  inversion H; subst id. clear H.
  exists pre, (drop (span not_slash s1) s1). split; [split|split].
  - rewrite take_span_drop. fold s1 in Hw. rewrite Hs.
    f_equal. now apply startswith_split.
  - now apply run_of_take_span.
  - apply stops_drop_span.
  - intros pre' stem' rest' [Hu Hr].
    destruct (Nat.le_gt_cases (String.length pre) (String.length pre'))
      as [Hle|Hgt]; [exact Hle|].
    exfalso. apply (piece_matches stem' rest' (0 + String.length pre') Hr).
    now apply Hfirst.
Qed.

Lemma post_id_missing (url : string) :
  group1 (search post_id_re url) = None -> no_post_piece url.
Proof.
  intros H pre stem rest [Hu Hr].
  unfold group1, search in H.
  destruct (search_from post_id_re url 0) as [m|] eqn:E.
  - destruct (search_from_found _ _ _ _ E) as (s' & pos' & Hm).
    destruct (post_id_match _ _ _ _ Hm) as (id' & Hg & _).
    unfold m_group in H. rewrite Hg in H. discriminate.
  - apply (piece_matches stem rest (0 + String.length pre) Hr).
    now apply (search_from_none _ _ _ E).
Qed.

(** *** alignment_forum_extract.py: what is written, and where *)

Section Files.
Variable http_get : string -> result Dom.node.
Variable writable : string -> bool.
Variable now : string.

(** A file is written only for a page that was fetched and gave text
    that is not blank; it holds that text, and its path is
    [extract/alignment_forum/post_<stem>.txt].  The stem is taken from
    the URL: it is what follows the first [/posts/] that is followed by a
    character other than a slash, up to the next slash or the end.  Only
    a URL without such a piece gets the time stamp. *)
Theorem written_files (url path text : string) :
  In (Wrote path text) (process_url http_get writable now url) ->
  exists soup stem,
    http_get url = Ok soup /\
    text = clean_content soup /\ truthy (strip text) = true /\
    path = "extract/alignment_forum/post_" ++ stem ++ ".txt" /\
    (run_of not_slash stem = true \/ stem = now) /\
    (first_post_piece url stem \/ no_post_piece url /\ stem = now).
Proof.
  unfold process_url. intros H.
  destruct (negb (contains "alignmentforum.org" url)).
  { destruct H as [H|[]]. discriminate. }
  destruct H as [H|[H|H]]; try discriminate.
  destruct (http_get url) as [soup|e].
  2:{ destruct H as [H|[]]. discriminate. }
  destruct H as [H|H]; [discriminate|].
  destruct (truthy (strip (clean_content soup))) eqn:Ht.
  2:{ destruct H as [H|[]]. discriminate. }
  unfold save_content in H.
  destruct (group1 (search post_id_re url)) as [id|] eqn:Eid;
    (destruct (writable _);
     [destruct H as [H|[H|[]]]; [|discriminate]; inversion H; subst
     |destruct H as [H|[]]; discriminate]).
  - exists soup, id. repeat split; try assumption.
    + left. now apply (post_id_shape url).
    + left. now apply post_id_found.
  - exists soup, now. repeat split; try assumption.
    + now right.
    + right. split; [now apply post_id_missing|reflexivity].
Qed.

End Files.

Lemma written_files_witness :
  exists soup stem,
    Ok one_page = Ok soup /\
    "Text." = clean_content soup /\ truthy (strip "Text.") = true /\
    "extract/alignment_forum/post_abc123.txt"
      = "extract/alignment_forum/post_" ++ stem ++ ".txt" /\
    (run_of not_slash stem = true \/ stem = "20240122_101500") /\
    (first_post_piece a_post_url stem
     \/ no_post_piece a_post_url /\ stem = "20240122_101500").
Proof.
  apply (written_files (fun _ => Ok one_page) (fun _ => true) "20240122_101500"
           a_post_url).
  vm_compute. right. right. right. left. reflexivity.
Defined.

(** *** alignment_forum_meta.py: the key and the fields of a record *)

Section Records.
Variable http_get : string -> result Dom.node.

(** A record that was extracted has a key that is not empty and holds no
    slash (so the test [if post_id and metadata] lets it through), names
    the URL it came from, and has a title and author names without white
    space around them and without a comma in a name. *)
Theorem extracted_record (url post_id : string)
    (md : alignment_forum_meta.metadata) :
  alignment_forum_meta.extract_metadata_try http_get url = Ok (post_id, md) ->
  run_of not_slash post_id = true /\
  alignment_forum_meta.url md = url /\
  strip (alignment_forum_meta.title md) = alignment_forum_meta.title md /\
  Forall (fun a => strip a = a /\ mentions ","%char a = false)
         (alignment_forum_meta.authors md).
Proof.
  unfold alignment_forum_meta.extract_metadata_try. intros H.
  destruct (http_get url) as [soup|e]; [|discriminate].
  destruct (group1 (search post_id_re url)) as [id|] eqn:Eid; [|discriminate].
  destruct (alignment_forum_meta.date_of soup) as [published|e]; [|discriminate].
  inversion H; subst. cbn [alignment_forum_meta.url alignment_forum_meta.title
                             alignment_forum_meta.authors].
  split; [now apply (post_id_shape url)|]. split; [reflexivity|]. split.
  - unfold alignment_forum_meta.title_of.
    destruct (Dom.find_class _ soup); [apply strip_idem|reflexivity].
  - unfold alignment_forum_meta.authors_of.
    destruct (Dom.find_class _ soup) as [e|]; [|constructor].
    destruct (group1 (search author_re _)) as [names|]; [|constructor].
    pose proof (split_fields ","%char names) as Hf.
    induction Hf as [|a l Ha Hl IH]; [constructor|].
    cbn [map]. constructor; [|exact IH].
    split; [apply strip_idem|now apply mentions_strip].
Qed.

End Records.

Lemma extracted_record_witness :
  run_of not_slash "abc123" = true /\
  a_post_url = a_post_url /\
  strip "" = "" /\
  Forall (fun a => strip a = a /\ mentions ","%char a = false) [].
Proof.
  apply (extracted_record (fun _ => Ok one_page) a_post_url "abc123"
           (alignment_forum_meta.Metadata "" [] None a_post_url)).
  vm_compute. reflexivity.
Defined.

End PostIds.


(** ** The identifier in an arXiv URL *)

Module PaperIds.
Import Py Re ReFacts PyFacts Matching.
Import Spec.
Import arxiv_extract.
Local Open Scope nat_scope.

Lemma search_from_past (a : ascii) (r1 r2 : regex) (pre s : string) :
  mentions a pre = false ->
  forall pos,
    search_from (Cat (Cat (Chr a) r1) r2) (pre ++ s) pos
    = search_from (Cat (Cat (Chr a) r1) r2) s (pos + String.length pre).
Proof.
  induction pre as [|c pre IH]; intros H pos.
  - simpl. now rewrite Nat.add_0_r.
  - simpl in H. apply orb_false_iff in H. destruct H as [Hc H].
    change (String c pre ++ s)%string with (String c (pre ++ s)).
    rewrite search_from_later.
    + rewrite (IH H). simpl. now rewrite <- plus_n_Sm.
    + apply no_match_other_chr. now rewrite Ascii.eqb_sym.
Qed.

Lemma run_not_empty (p : ascii -> bool) (s : string) :
  run_of p s = true -> 1 <= String.length s /\ every p s = true.
Proof.
  unfold run_of. intros H. apply andb_true_iff in H. destruct H as [H1 H2].
  split; [|exact H2]. destruct s; [discriminate|simpl; lia].
Qed.

(** [(\d+\.\d+)] in front of text that does not go on with a digit *)
Lemma number_match (d1 d2 rest : string) (n : nat) :
  run_of isdigit d1 = true -> run_of isdigit d2 = true ->
  stops isdigit rest = true ->
  run (Grp 1 arxiv_number) (d1 ++ "." ++ d2 ++ rest) n []
      (fun _ e g => Some (e, g))
  = Some (n + String.length (d1 ++ "." ++ d2), [(1, (d1 ++ "." ++ d2)%string)]).
Proof.
  intros H1 H2 Hr.
  destruct (run_not_empty _ _ H1) as [L1 E1].
  destruct (run_not_empty _ _ H2) as [L2 E2].
  change arxiv_number
    with (Cat (Rep isdigit 1 None) (Cat (Chr ".") (Cat (Rep isdigit 1 None) Eps))).
  cbn [run].
  assert (S1 : span isdigit (d1 ++ "." ++ d2 ++ rest) = String.length d1)
    by (apply span_app; [exact E1|reflexivity]).
  apply rep_keeps_the_run; rewrite S1; [exact L1|].
  rewrite drop_app.
  change ("." ++ d2 ++ rest)%string with (String "." (d2 ++ rest)).
  cbn [run]. rewrite Ascii.eqb_refl.
  assert (S2 : span isdigit (d2 ++ rest) = String.length d2)
    by (apply span_app; assumption).
  apply rep_keeps_the_run; rewrite S2; [exact L2|].
  f_equal. f_equal.
  - rewrite !length_app. change (String.length ".") with 1. lia.
  - f_equal. f_equal.
    replace (S (n + String.length d1) + String.length d2 - n)
      with (String.length (d1 ++ "." ++ d2)) by (rewrite !length_app; change (String.length ".") with 1; lia).
    replace (d1 ++ String "." (d2 ++ rest))%string
      with ((d1 ++ "." ++ d2) ++ rest)%string
      by (now rewrite !app_assoc).
    apply take_app.
Qed.

Lemma abs_match (s : string) (pos : nat) :
  match_at (seq [lit "arxiv"; Cls dot; lit "org/abs/"; Grp 1 arxiv_number])
           ("arxiv.org/abs/" ++ s) pos false
  = run (Grp 1 arxiv_number) s (14 + pos) [] (fun _ e g => Some (e, g)).
Proof. reflexivity. Qed.

Lemma abs_url_id (pre d1 d2 rest : string) :
  mentions "a"%char pre = false ->
  run_of isdigit d1 = true -> run_of isdigit d2 = true ->
  stops isdigit rest = true ->
  extract_id (pre ++ "arxiv.org/abs/" ++ d1 ++ "." ++ d2 ++ rest)
  = Some (d1 ++ "." ++ d2)%string.
Proof.
  intros Hp H1 H2 Hr. unfold extract_id, id_patterns.
  cbn [first_group1]. unfold search.
  change (seq [lit "arxiv"; Cls dot; lit "org/abs/"; Grp 1 arxiv_number])
    with (Cat (Cat (Chr "a") (lit "rxiv"))
              (seq [Cls dot; lit "org/abs/"; Grp 1 arxiv_number])).
  rewrite (search_from_past _ _ _ _ _ Hp).
  erewrite search_from_here.
  2:{ change (Cat (Cat (Chr "a") (lit "rxiv"))
                  (seq [Cls dot; lit "org/abs/"; Grp 1 arxiv_number]))
        with (seq [lit "arxiv"; Cls dot; lit "org/abs/"; Grp 1 arxiv_number]).
      rewrite abs_match. now apply number_match. }
  reflexivity.
Qed.

(** An address whose first letter [a] starts [arxiv.org/abs/<digits>.<digits>]
    gives these digits as the identifier, whatever follows them (a version
    suffix, a query) as long as it does not go on with a digit. *)
Theorem id_of_abs_url (pre d1 d2 rest : string) :
  mentions "a"%char pre = false ->
  run_of isdigit d1 = true -> run_of isdigit d2 = true ->
  stops isdigit rest = true ->
  extract_id (pre ++ "arxiv.org/abs/" ++ d1 ++ "." ++ d2 ++ rest)
  = Some (d1 ++ "." ++ d2)%string.
Proof. apply abs_url_id. Qed.

Lemma id_of_abs_url_witness :
  mentions "a"%char "https://" = false /\
  extract_id "https://arxiv.org/abs/2301.07041v2" = Some "2301.07041".
Proof.
  split; [reflexivity|].
  apply (id_of_abs_url "https://" "2301" "07041" "v2"); reflexivity.
Defined.

(** The address that [arxiv_meta.py] stores with a paper leads back to
    the identifier the paper is stored under. *)
Theorem stored_url_gives_id (paper : Arxiv.Result) (d1 d2 : string) :
  run_of isdigit d1 = true -> run_of isdigit d2 = true ->
  arxiv_meta.extract_id
    (arxiv_meta.arxiv_url
       (arxiv_meta.create_paper_object paper (d1 ++ "." ++ d2)))
  = Some (arxiv_meta.arxiv_id
            (arxiv_meta.create_paper_object paper (d1 ++ "." ++ d2))).
Proof.
  intros H1 H2. cbn [arxiv_meta.create_paper_object arxiv_meta.arxiv_url
                       arxiv_meta.arxiv_id].
  pose proof (abs_url_id "https://" d1 d2 "" eq_refl H1 H2 eq_refl) as H.
  rewrite app_empty in H. exact H.
Qed.

Lemma stored_url_gives_id_witness :
  arxiv_meta.extract_id
    (arxiv_meta.arxiv_url
       (arxiv_meta.create_paper_object Spec.some_paper ("2301" ++ "." ++ "07041")))
  = Some (arxiv_meta.arxiv_id
            (arxiv_meta.create_paper_object Spec.some_paper
               ("2301" ++ "." ++ "07041"))).
Proof.
  apply (stored_url_gives_id Spec.some_paper "2301" "07041"); reflexivity.
Defined.

End PaperIds.


(** ** Titles and abstracts of papers *)

Module PaperText.
Import Py Re ReFacts PyFacts Matching.
Import Spec.
Import arxiv_extract.
Local Open Scope nat_scope.
#[local] Arguments Ascii.eqb : simpl never.

Lemma spaces_match (s : string) (pos : nat) :
  match_at spaces s pos false
  = if 1 <=? span isspace s then Some (pos + span isspace s, []) else None.
Proof.
  unfold match_at, spaces, plus. cbn [run].
  exact (rep_takes_the_run isspace (fun _ n' => (n', [])) s 1 pos).
Qed.

Lemma squeeze_shape (n : nat) :
  forall s pos,
    String.length s <= n ->
    single_spaced (sub_from spaces [Text " "] s pos 0) = true /\
    (stops isspace s = true ->
     stops isspace (sub_from spaces [Text " "] s pos 0) = true).
Proof.
  induction n as [|n IH]; intros s pos L.
  - destruct s; [|simpl in L; lia].
    rewrite sub_from_nil, spaces_match. simpl. now split.
  - destruct s as [|c s].
    { rewrite sub_from_nil, spaces_match. simpl. now split. }
    simpl in L. rewrite sub_from_cons, spaces_match.
    cbn [span]. destruct (isspace c) eqn:Hc.
    + cbn [Nat.leb].
      replace (pos + S (span isspace s) =? pos) with false
        by (symmetry; apply Nat.eqb_neq; lia).
      replace (pos + S (span isspace s) - pos - 1) with (span isspace s) by lia.
      rewrite sub_from_skip by apply span_le_length.
      pose proof (length_drop (span isspace s) s) as Ld.
      destruct (IH (drop (span isspace s) s) (S pos + span isspace s))
        as [T St]; [lia|].
      change (expand [Text " "] []) with " ".
      change (" " ++ ?x)%string with (String " " x). split.
      * cbn [single_spaced]. change (isspace " ") with true.
        rewrite Ascii.eqb_refl, T, St; [reflexivity|apply stops_drop_span].
      * cbn [stops]. rewrite Hc. discriminate.
    + cbn [Nat.leb]. destruct (IH s (S pos)) as [T St]; [lia|].
      split.
      * cbn [single_spaced]. now rewrite Hc, T.
      * intros _. cbn [stops]. now rewrite Hc.
Qed.

Lemma squeeze_single_spaced (s : string) :
  single_spaced (sub spaces [Text " "] s) = true.
Proof. exact (proj1 (squeeze_shape (String.length s) s 0 (le_n _))). Qed.

Lemma squeeze_fixed (s : string) :
  forall pos,
    single_spaced s = true -> sub_from spaces [Text " "] s pos 0 = s.
Proof.
  induction s as [|c s IH]; intros pos H.
  - now rewrite sub_from_nil, spaces_match.
  - cbn [single_spaced] in H. apply andb_true_iff in H. destruct H as [Hc H].
    rewrite sub_from_cons, spaces_match. cbn [span].
    destruct (isspace c) eqn:Ec.
    + apply andb_true_iff in Hc. destruct Hc as [Hb Hs].
      apply Ascii.eqb_eq in Hb. subst c.
      assert (Z : span isspace s = 0).
      { destruct s as [|d s]; [reflexivity|]. simpl in *.
        now destruct (isspace d). }
      rewrite Z. cbn [Nat.leb].
      replace (pos + 1 =? pos) with false by (symmetry; apply Nat.eqb_neq; lia).
      replace (pos + 1 - pos - 1) with 0 by lia.
      change (expand [Text " "] []) with " ".
      change (" " ++ ?x)%string with (String " " x). now rewrite IH.
    + cbn [Nat.leb]. now rewrite IH.
Qed.

Lemma single_spaced_tail (c : ascii) (s : string) :
  single_spaced (String c s) = true -> single_spaced s = true.
Proof. cbn [single_spaced]. intros H. now apply andb_true_iff in H. Qed.

Lemma single_spaced_lstrip (s : string) :
  single_spaced s = true -> single_spaced (lstrip s) = true.
Proof.
  induction s as [|c s IH]; intros H; [reflexivity|].
  simpl. destruct (isspace c); [|exact H].
  apply IH. now apply single_spaced_tail in H.
Qed.

Lemma stops_rstrip (s : string) :
  stops isspace s = true -> stops isspace (rstrip s) = true.
Proof.
  destruct s as [|c s]; [reflexivity|]. cbn [stops]. intros H.
  apply negb_true_iff in H.
  destruct (rstrip_keeps_head c s H) as [r ->]. cbn [stops]. now rewrite H.
Qed.

Lemma single_spaced_rstrip (s : string) :
  single_spaced s = true -> single_spaced (rstrip s) = true.
Proof.
  induction s as [|c s IH]; intros H; [reflexivity|].
  cbn [single_spaced] in H. apply andb_true_iff in H. destruct H as [Hc H].
  specialize (IH H). simpl.
  destruct (rstrip s) as [|d r] eqn:Er.
  - destruct (isspace c) eqn:Ec; [reflexivity|].
    cbn [single_spaced]. now rewrite Ec.
  - cbn [single_spaced] in *. rewrite IH, andb_true_r.
    destruct (isspace c) eqn:Ec; [|reflexivity].
    apply andb_true_iff in Hc. destruct Hc as [Hb Hs]. rewrite Hb.
    pose proof (stops_rstrip s Hs) as Hr. rewrite Er in Hr. exact Hr.
Qed.

Lemma single_spaced_strip (s : string) :
  single_spaced s = true -> single_spaced (strip s) = true.
Proof.
  intros H. unfold strip. now apply single_spaced_rstrip, single_spaced_lstrip.
Qed.

Lemma clean_shape (text : string) :
  single_spaced (clean_title text) = true /\
  strip (clean_title text) = clean_title text /\
  clean_title (clean_title text) = clean_title text.
Proof.
  assert (T : single_spaced (clean_title text) = true)
    by apply single_spaced_strip, squeeze_single_spaced.
  split; [exact T|]. split; [apply strip_idem|].
  unfold clean_title at 1. fold spaces. unfold sub.
  rewrite (squeeze_fixed _ 0 T). apply strip_idem.
Qed.

(** A cleaned title, and a cleaned abstract, has white space only as
    single blanks between other characters and none at its ends, and
    cleaning it again changes nothing. *)
Theorem cleaned_text_normal_form (text : string) :
  (single_spaced (clean_title text) = true /\
   strip (clean_title text) = clean_title text /\
   clean_title (clean_title text) = clean_title text) /\
  (single_spaced (clean_abstract text) = true /\
   strip (clean_abstract text) = clean_abstract text /\
   clean_abstract (clean_abstract text) = clean_abstract text).
Proof. split; apply clean_shape. Qed.

End PaperText.


(** ** Words broken across lines *)

Module Hyphens.
Import Py Re ReFacts PyFacts Newlines Matching PaperIds.
Import Spec.
Import arxiv_extract.
Local Open Scope nat_scope.
#[local] Arguments Ascii.eqb : simpl never.

(** A repetition that succeeds took some characters of the run, as many
    as its bounds allow, and handed what follows to the rest of the
    pattern. *)
Lemma rep_some {R : Type} (p : ascii -> bool) (k : string -> nat -> option R)
    (s : string) :
  forall lo hi n x,
    rep p lo hi s n k = Some x ->
    exists j,
      lo <= j /\ j <= span p s /\
      match hi with Some h => j <= h | None => True end /\
      k (drop j s) (n + j) = Some x.
Proof.
  induction s as [|c s IH]; intros lo hi n x H.
  - exists 0. rewrite drop_0, Nat.add_0_r.
    assert (E : lo = 0 /\ k EmptyString n = Some x)
      by (destruct hi as [[|h]|]; destruct lo; simpl in H;
          (discriminate || now split)).
    destruct E as [-> E]. repeat split; try assumption; try lia.
    destruct hi; [lia|exact I].
  - assert (Stop : match lo with 0 => k (String c s) n | S _ => None end = Some x ->
                   exists j,
                     lo <= j /\ j <= span p (String c s) /\
                     match hi with Some h => j <= h | None => True end /\
                     k (drop j (String c s)) (n + j) = Some x).
    { intros E. exists 0. rewrite drop_0, Nat.add_0_r.
      destruct lo; [|discriminate]. repeat split; try assumption; try lia.
      destruct hi; [lia|exact I]. }
    assert (Go : p c = true ->
                 hi <> Some 0 ->
                 rep p (pred lo) (option_map pred hi) s (S n) k = Some x ->
                 exists j,
                   lo <= j /\ j <= span p (String c s) /\
                   match hi with Some h => j <= h | None => True end /\
                   k (drop j (String c s)) (n + j) = Some x).
    { intros Hc Hh E. destruct (IH _ _ _ _ E) as (j & Hlo & Hj & Hhi & Hk).
      exists (S j). cbn [span drop]. rewrite Hc, <- plus_n_Sm.
      repeat split; try assumption; try lia.
      destruct hi as [[|h]|]; [congruence|simpl in Hhi; lia|exact I]. }
    destruct hi as [[|h]|]; cbn [rep] in H.
    + now apply Stop.
    + destruct (p c) eqn:Hc; [|now apply Stop].
      destruct (rep p (pred lo) (option_map pred (Some (S h))) s (S n) k) eqn:E.
      * inversion H; subst. now apply Go.
      * now apply Stop.
    + destruct (p c) eqn:Hc; [|now apply Stop].
      destruct (rep p (pred lo) (option_map pred None) s (S n) k) eqn:E.
      * inversion H; subst. now apply Go.
      * now apply Stop.
Qed.

Lemma contains_drop (x : string) (j : nat) :
  forall s, contains x (drop j s) = true -> contains x s = true.
Proof.
  induction j as [|j IH]; intros s H; [now rewrite drop_0 in H|].
  destruct s as [|c s]; [exact H|].
  rewrite contains_cons. apply orb_true_iff. right. apply IH. exact H.
Qed.

Lemma contains_here (x s : string) : startswith x s = true -> contains x s = true.
Proof. intros H. destruct s; simpl in *; now rewrite H. Qed.

Lemma hyphenated_needs_hyphen (s : string) (pos : nat) :
  contains line_end_hyphen s = false -> match_at hyphenated s pos false = None.
Proof.
  intros H. destruct (match_at hyphenated s pos false) as [x|] eqn:E;
    [|reflexivity].
  exfalso. unfold match_at in E.
  change hyphenated
    with (Cat (Grp 1 (Rep isword 1 None))
              (Cat (Chr "-") (Cat (Chr nl) (Cat (Grp 2 (Rep isword 1 None)) Eps))))
    in E.
  cbn [run] in E. apply rep_some in E. destruct E as (j & _ & _ & _ & E).
  assert (C : contains line_end_hyphen (drop j s) = true).
  { apply contains_here. destruct (drop j s) as [|a [|b r]]; cbn [run] in E.
    - discriminate.
    - destruct (Ascii.eqb "-" a); discriminate.
    - unfold line_end_hyphen. cbn [startswith].
      destruct (Ascii.eqb "-" a); [|discriminate].
      destruct (Ascii.eqb nl b); [reflexivity|discriminate]. }
  apply contains_drop in C. congruence.
Qed.

Lemma hyphenated_not_found (s : string) :
  contains line_end_hyphen s = false ->
  forall pos, search_from hyphenated s pos = None.
Proof.
  induction s as [|c s IH]; intros H pos; cbn [search_from];
    rewrite (hyphenated_needs_hyphen _ _ H); [reflexivity|].
  apply IH. rewrite contains_cons in H. now apply orb_false_iff in H.
Qed.

Lemma hyphenated_match (w1 w2 rest : string) (pos : nat) :
  run_of isword w1 = true -> run_of isword w2 = true ->
  stops isword rest = true ->
  match_at hyphenated (w1 ++ line_end_hyphen ++ w2 ++ rest) pos false
  = Some (pos + String.length (w1 ++ line_end_hyphen ++ w2), [(2, w2); (1, w1)]).
Proof.
  intros H1 H2 Hr.
  destruct (run_not_empty _ _ H1) as [L1 E1].
  destruct (run_not_empty _ _ H2) as [L2 E2].
  unfold match_at.
  change hyphenated
    with (Cat (Grp 1 (Rep isword 1 None))
              (Cat (Chr "-") (Cat (Chr nl) (Cat (Grp 2 (Rep isword 1 None)) Eps)))).
  cbn [run].
  assert (S1 : span isword (w1 ++ line_end_hyphen ++ w2 ++ rest) = String.length w1)
    by (apply span_app; [exact E1|reflexivity]).
  apply rep_keeps_the_run; rewrite S1; [exact L1|].
  rewrite drop_app.
  change (line_end_hyphen ++ w2 ++ rest)%string
    with (String "-" (String nl (w2 ++ rest))).
  cbn [run]. rewrite !Ascii.eqb_refl.
  assert (S2 : span isword (w2 ++ rest) = String.length w2)
    by (apply span_app; assumption).
  apply rep_keeps_the_run; rewrite S2; [exact L2|].
  cbn [andb].
  f_equal. f_equal.
  - rewrite !length_app. change (String.length line_end_hyphen) with 2. lia.
  - f_equal; f_equal.
    + replace (S (S (pos + String.length w1)) + String.length w2
               - S (S (pos + String.length w1)))
        with (String.length w2) by lia.
      apply take_app.
    + f_equal. f_equal.
      replace (pos + String.length w1 - pos) with (String.length w1) by lia.
      apply take_app.
Qed.

(** [re.sub] at a match that is not empty: the replacement, then the rest
    of the subject after the match. *)
Lemma sub_from_match (r : regex) (t : list piece) (s : string)
    (pos e : nat) (g : caps) :
  match_at r s pos false = Some (e, g) ->
  pos < e -> e - pos <= String.length s ->
  sub_from r t s pos 0
  = (expand t g ++ sub_from r t (drop (e - pos) s) e 0)%string.
Proof.
  intros Hm Hlt Hle. destruct s as [|c s]; [simpl in Hle; lia|].
  rewrite sub_from_cons, Hm.
  replace (e =? pos) with false by (symmetry; apply Nat.eqb_neq; lia).
  simpl in Hle. rewrite sub_from_skip by lia.
  remember (e - pos - 1) as k eqn:Hk.
  replace (e - pos) with (S k) by lia.
  replace (S pos + k) with e by lia. reflexivity.
Qed.

(** A word broken by a hyphen at the end of a line is put together again,
    and the text after it is kept, when it holds no such break. *)
Theorem broken_word_is_joined (w1 w2 rest : string) :
  run_of isword w1 = true -> run_of isword w2 = true ->
  stops isword rest = true ->
  contains line_end_hyphen rest = false ->
  dehyphenate (w1 ++ line_end_hyphen ++ w2 ++ rest) = (w1 ++ w2 ++ rest)%string.
Proof.
  intros H1 H2 Hr Hc. unfold dehyphenate. fold hyphenated. unfold sub.
  destruct (run_not_empty _ _ H1) as [L1 _].
  rewrite (sub_from_match _ _ _ _ _ _ (hyphenated_match w1 w2 rest 0 H1 H2 Hr)).
  - cbn [Nat.add]. rewrite Nat.sub_0_r.
    replace (w1 ++ line_end_hyphen ++ w2 ++ rest)%string
      with ((w1 ++ line_end_hyphen ++ w2) ++ rest)%string
      by (now rewrite !app_assoc).
    rewrite drop_app.
    rewrite sub_from_not_found by now apply hyphenated_not_found.
    cbn [expand group Nat.eqb]. now rewrite app_empty, app_assoc.
  - rewrite length_app. cbn [Nat.add]. lia.
  - cbn [Nat.add]. rewrite Nat.sub_0_r, !length_app. lia.
Qed.

Lemma broken_word_is_joined_witness :
  dehyphenate ("inter" ++ line_end_hyphen ++ "national" ++ " law")
  = "international law".
Proof.
  apply (broken_word_is_joined "inter" "national" " law"); reflexivity.
Defined.

(** Text without a hyphen at the end of a line is left as it is. *)
Theorem no_line_end_hyphen_no_change (text : string) :
  contains line_end_hyphen text = false -> dehyphenate text = text.
Proof.
  intros H. unfold dehyphenate. fold hyphenated.
  apply sub_not_found. now apply hyphenated_not_found.
Qed.

Lemma no_line_end_hyphen_no_change_witness :
  dehyphenate "well-known facts" = "well-known facts".
Proof. apply (no_line_end_hyphen_no_change "well-known facts"). reflexivity. Defined.

End Hyphens.


(** ** arxiv_extract.py: what a run saves *)

Module PaperRuns.
Import Py Re PyFacts BatchClaims.
Import Spec.
Import arxiv_extract.
Local Open Scope nat_scope.
#[local] Arguments Ascii.eqb : simpl never.
#[local] Arguments clean_title : simpl never.
#[local] Arguments clean_abstract : simpl never.
#[local] Arguments clean_text : simpl never.
#[local] Arguments strip : simpl never.

Lemma content_head (paper : Arxiv.Result) (full_text : option string)
    (content : string) :
  get_paper_content paper full_text = Ok content ->
  exists r, content = String "#" r.
Proof.
  unfold get_paper_content. destruct (Arxiv.published paper); [|discriminate].
  intros H. inversion H. cbn [app join String.concat].
  eexists. reflexivity.
Qed.

Lemma content_strip (paper : Arxiv.Result) (full_text : option string)
    (content : string) :
  get_paper_content paper full_text = Ok content ->
  truthy (strip content) = true.
Proof.
  intros H. destruct (content_head _ _ _ H) as [r ->].
  unfold strip. cbn [lstrip]. change (isspace "#") with false. cbv iota.
  destruct (rstrip_keeps_head "#" r eq_refl) as [r' ->]. reflexivity.
Qed.

(** The text made for a paper opens with the heading mark and is never
    blank, so the test [if not content.strip()] of [process_url] never
    turns a paper away. *)
Theorem paper_content_not_blank (paper : Arxiv.Result)
    (full_text : option string) (content : string) :
  get_paper_content paper full_text = Ok content ->
  startswith "#" content = true /\ truthy (strip content) = true.
Proof.
  intros H. split; [|now apply (content_strip paper full_text)].
  destruct (content_head _ _ _ H) as [r ->]. reflexivity.
Qed.

Lemma paper_content_not_blank_witness :
  startswith "#" ("# A paper" ++ NL ++ NLNL ++ "Authors: Jane Doe" ++ NL
                  ++ "Published: 22 January 2024" ++ NLNL
                  ++ "Categories: cs.AI" ++ NLNL ++ NL ++ "## Abstract" ++ NL
                  ++ NLNL ++ "Abstract.") = true /\
  truthy (strip ("# A paper" ++ NL ++ NLNL ++ "Authors: Jane Doe" ++ NL
                 ++ "Published: 22 January 2024" ++ NLNL
                 ++ "Categories: cs.AI" ++ NLNL ++ NL ++ "## Abstract" ++ NL
                 ++ NLNL ++ "Abstract.")) = true.
Proof.
  apply (paper_content_not_blank dated_paper None). vm_compute. reflexivity.
Defined.

Section Runs.
Variable results : string -> result Arxiv.Result.
Variable get_pdf : string -> result pdf.
Variable writable : string -> bool.

(** When the PDF cannot be downloaded the paper is saved all the same,
    with its metadata and abstract only, and is reported without full
    text. *)
Theorem failed_download_still_saves (arxiv_id : string) (paper : Arxiv.Result)
    (pub : Arxiv.datetime) (e : exn) :
  results arxiv_id = Ok paper ->
  Arxiv.published paper = Some pub ->
  get_pdf (Arxiv.pdf_url paper) = Raise e ->
  writable (paper_file arxiv_id) = true ->
  exists content,
    get_paper_content paper None = Ok content /\
    process_paper results get_pdf writable arxiv_id true
    = ([Queried arxiv_id;
        Printed ("Found paper: " ++ Arxiv.title paper);
        Printed "Downloading PDF...";
        Fetched (Arxiv.pdf_url paper);
        Printed "Error downloading PDF";
        Wrote (paper_file arxiv_id) content;
        Printed ("Saved content to " ++ paper_file arxiv_id)],
       Ok (Some (Summary arxiv_id (Arxiv.title paper) (Arxiv.authors paper)
                   (Arxiv.isoformat pub) (Arxiv.summary paper)
                   (Arxiv.categories paper) (Arxiv.pdf_url paper)
                   (paper_file arxiv_id) false))).
Proof.
  intros Hr Hp Hg Hw.
  destruct (get_paper_content paper None) as [content|x] eqn:Hc.
  2:{ unfold get_paper_content in Hc. rewrite Hp in Hc. discriminate. }
  exists content. split; [reflexivity|].
  unfold process_paper. rewrite Hr.
  unfold fetch_full_text, download_pdf. rewrite Hg. cbv zeta. rewrite Hc.
  rewrite (content_strip _ _ _ Hc).
  unfold save_content. fold (paper_file arxiv_id). rewrite Hw, Hp.
  reflexivity.
Qed.

Lemma full_text_no_download (paper : Arxiv.Result) :
  fetch_full_text get_pdf paper false = ([], Ok None).
Proof. reflexivity. Qed.

Lemma paper_without_download (arxiv_id : string) :
  fetched (fst (process_paper results get_pdf writable arxiv_id false)) = [].
Proof.
  unfold process_paper.
  destruct (results arxiv_id) as [paper|e]; [|reflexivity].
  rewrite full_text_no_download. cbv zeta.
  destruct (get_paper_content paper None) as [content|e]; [|reflexivity].
  destruct (truthy (strip content)); [|reflexivity].
  unfold save_content. destruct (writable _); [|reflexivity].
  destruct (Arxiv.published paper); reflexivity.
Qed.

Lemma url_without_download (url : string) :
  fetched (fst (process_url results get_pdf writable url false)) = [].
Proof.
  unfold process_url.
  destruct (negb (contains "arxiv.org" url) && negb (contains "arxiv:" url));
    [reflexivity|].
  destruct (extract_id url) as [id|]; [|reflexivity].
  pose proof (paper_without_download id) as H.
  destruct (process_paper results get_pdf writable id false) as [ev [r|e]];
    cbn [fst] in *.
  - exact H.
  - change (fetched (Printed ("Processing URL: " ++ url) :: ev ++
                     [Printed ("Error processing " ++ url)]))
      with (fetched (ev ++ [Printed ("Error processing " ++ url)])).
    now rewrite fetched_app, H.
Qed.

(** A run with [--no-full-text] downloads no PDF. *)
Theorem no_full_text_no_download (lines : list string) :
  fetched (fst (main_file results get_pdf writable lines false)) = [].
Proof.
  unfold main_file.
  induction (alignment_forum_extract.urls_of lines) as [|u us IH];
    [reflexivity|].
  cbn [process_urls].
  pose proof (url_without_download u) as Hu.
  destruct (process_url results get_pdf writable u false) as [ev r].
  destruct (process_urls results get_pdf writable us false) as [ev' rs].
  cbn [fst] in *. now rewrite fetched_app, Hu, IH.
Qed.

Lemma paper_summary (arxiv_id : string) (b : bool) (ev : list event)
    (s : summary) :
  process_paper results get_pdf writable arxiv_id b = (ev, Ok (Some s)) ->
  s_arxiv_id s = arxiv_id /\
  s_filepath s = paper_file arxiv_id /\
  (exists content, In (Wrote (paper_file arxiv_id) content) ev) /\
  (s_has_full_text s = true -> b = true).
Proof.
  unfold process_paper.
  destruct (results arxiv_id) as [paper|e]; [|discriminate].
  destruct (fetch_full_text get_pdf paper b) as [ev1 [full_text|e]] eqn:Hf;
    cbv zeta; [|discriminate].
  destruct (get_paper_content paper full_text) as [content|e]; [|discriminate].
  destruct (truthy (strip content)); [|discriminate].
  unfold save_content. fold (paper_file arxiv_id).
  destruct (writable (paper_file arxiv_id)); [|discriminate].
  destruct (Arxiv.published paper) as [pub|]; [|discriminate].
  intros H. inversion H; subst. cbn [s_arxiv_id s_filepath s_has_full_text].
  repeat split.
  - exists content. right. right. apply in_or_app. right. now left.
  - intros Ht. destruct b; [reflexivity|].
    rewrite full_text_no_download in Hf. inversion Hf; subst. discriminate.
Qed.

Lemma url_summary (url : string) (b : bool) (ev : list event) (s : summary) :
  process_url results get_pdf writable url b = (ev, Some s) ->
  extract_id url = Some (s_arxiv_id s) /\
  s_filepath s = paper_file (s_arxiv_id s) /\
  (exists content, In (Wrote (s_filepath s) content) ev) /\
  (s_has_full_text s = true -> b = true).
Proof.
  unfold process_url.
  destruct (negb (contains "arxiv.org" url) && negb (contains "arxiv:" url));
    [discriminate|].
  destruct (extract_id url) as [id|]; [|discriminate].
  destruct (process_paper results get_pdf writable id b) as [ev0 [r|e]] eqn:Hp;
    [|discriminate].
  intros H. inversion H; subst.
  destruct (paper_summary _ _ _ _ Hp) as (Hi & Hf & (content & Hw) & Hb).
  rewrite Hi, Hf. repeat split; try assumption.
  exists content. now right.
Qed.

(** Every paper in the results of a run was found under the identifier of
    one of the URLs, and its file [extracted_papers/arxiv_<id>.txt], the
    dot of the identifier turned into an underscore, was written in that
    run; it has full text only in a run that asks for it. *)
Theorem results_have_files (lines : list string) (b : bool) (s : summary) :
  In s (snd (main_file results get_pdf writable lines b)) ->
  (exists url, In url (alignment_forum_extract.urls_of lines) /\
               extract_id url = Some (s_arxiv_id s)) /\
  s_filepath s = paper_file (s_arxiv_id s) /\
  (exists content,
     In (Wrote (s_filepath s) content)
        (fst (main_file results get_pdf writable lines b))) /\
  (s_has_full_text s = true -> b = true).
Proof.
  unfold main_file.
  induction (alignment_forum_extract.urls_of lines) as [|u us IH];
    [intros []|].
  cbn [process_urls].
  destruct (process_url results get_pdf writable u b) as [ev r] eqn:Hu.
  destruct (process_urls results get_pdf writable us b) as [ev' rs].
  cbn [fst snd] in *. intros H.
  assert (Later : In s rs ->
    (exists url, In url (u :: us) /\ extract_id url = Some (s_arxiv_id s)) /\
    s_filepath s = paper_file (s_arxiv_id s) /\
    (exists content, In (Wrote (s_filepath s) content) (ev ++ ev')) /\
    (s_has_full_text s = true -> b = true)).
  { intros Hs. destruct (IH Hs) as ((url & Hin & Hid) & Hf & (c & Hw) & Hb).
    repeat split; try assumption.
    - exists url. split; [now right|assumption].
    - exists c. apply in_or_app. now right. }
  destruct r as [s0|]; [|now apply Later].
  destruct H as [->|H]; [|now apply Later].
  destruct (url_summary _ _ _ _ Hu) as (Hid & Hf & (c & Hw) & Hb).
  repeat split; try assumption.
  - exists u. split; [now left|assumption].
  - exists c. apply in_or_app. now left.
Qed.

End Runs.

Lemma failed_download_still_saves_witness :
  exists content,
    get_paper_content dated_paper None = Ok content /\
    process_paper (fun _ => Ok dated_paper) (fun _ => Raise RequestException)
                  (fun _ => true) "2401.00002" true
    = ([Queried "2401.00002";
        Printed ("Found paper: " ++ Arxiv.title dated_paper);
        Printed "Downloading PDF...";
        Fetched (Arxiv.pdf_url dated_paper);
        Printed "Error downloading PDF";
        Wrote (paper_file "2401.00002") content;
        Printed ("Saved content to " ++ paper_file "2401.00002")],
       Ok (Some (Summary "2401.00002" (Arxiv.title dated_paper)
                   (Arxiv.authors dated_paper)
                   "2024-01-22T00:00:00" (Arxiv.summary dated_paper)
                   (Arxiv.categories dated_paper) (Arxiv.pdf_url dated_paper)
                   (paper_file "2401.00002") false))).
Proof.
  apply (failed_download_still_saves (fun _ => Ok dated_paper)
           (fun _ => Raise RequestException) (fun _ => true) "2401.00002"
           dated_paper
           (Arxiv.Datetime "2024-01-22" "22 January 2024" "2024-01-22T00:00:00")
           RequestException); reflexivity.
Defined.

Lemma results_have_files_witness :
  exists s,
    (exists url, In url ["https://arxiv.org/abs/2401.00002"] /\
                 extract_id url = Some (s_arxiv_id s)) /\
    s_filepath s = paper_file (s_arxiv_id s) /\
    (exists content,
       In (Wrote (s_filepath s) content)
          (fst (main_file (fun _ => Ok dated_paper)
                  (fun _ => Raise RequestException) (fun _ => true)
                  ["https://arxiv.org/abs/2401.00002"] false))) /\
    (s_has_full_text s = true -> false = true).
Proof.
  eexists.
  apply (results_have_files (fun _ => Ok dated_paper)
           (fun _ => Raise RequestException) (fun _ => true)
           ["https://arxiv.org/abs/2401.00002"] false).
  vm_compute. left. reflexivity.
Defined.

End PaperRuns.


(** ** Dates of posts *)

Module Dates.
Import Py Re ReFacts PyFacts Matching PaperIds Hyphens.
Import Spec.
Import alignment_forum_meta.
Local Open Scope nat_scope.
#[local] Arguments Ascii.eqb : simpl never.

Lemma take_within (p : ascii -> bool) (j : nat) :
  forall s,
    j <= span p s ->
    every p (take j s) = true /\ String.length (take j s) = j.
Proof.
  induction j as [|j IH]; intros s H.
  - destruct s; now split.
  - destruct s as [|c s]; [simpl in H; lia|].
    cbn [span] in H. destruct (p c) eqn:Hc; [|lia].
    destruct (IH s) as [E L]; [lia|].
    change (take (S j) (String c s)) with (String c (take j s)).
    cbn [every String.length]. now rewrite Hc, E, L.
Qed.

(** A pattern without groups leaves the groups as they are. *)
Lemma run_plain {R : Type} (r : regex) :
  plain r = true ->
  forall s n g (k : string -> nat -> caps -> option R) x,
    run r s n g k = Some x -> exists s' n', k s' n' g = Some x.
Proof.
  induction r as [|c|p|r1 IH1 r2 IH2|r1 IH1 r2 IH2|p lo hi|r1 IH1|i r1 IH1
                 |r1 IH1| |]; intros Hp s n g k x H; cbn [plain] in Hp;
    try discriminate; cbn [run] in H.
  - now exists s, n.
  - destruct s as [|c' s]; [discriminate|].
    destruct (Ascii.eqb c c'); [|discriminate]. now exists s, (S n).
  - destruct s as [|c' s]; [discriminate|].
    destruct (p c'); [|discriminate]. now exists s, (S n).
  - apply andb_true_iff in Hp. destruct Hp as [P1 P2].
    destruct (IH1 P1 _ _ _ _ _ H) as (s1 & n1 & H1).
    exact (IH2 P2 _ _ _ _ _ H1).
  - apply andb_true_iff in Hp. destruct Hp as [P1 P2].
    destruct (run r1 s n g k) eqn:E.
    + inversion H; subst. exact (IH1 P1 _ _ _ _ _ E).
    + exact (IH2 P2 _ _ _ _ _ H).
  - apply rep_some in H. destruct H as (j & _ & _ & _ & H). eauto.
  - destruct (run r1 s n g k) eqn:E.
    + inversion H; subst. exact (IH1 Hp _ _ _ _ _ E).
    + now exists s, n.
  - destruct (n =? 0); [|discriminate]. now exists s, n.
  - destruct s as [|c [|d s]]; [now exists EmptyString, n| |discriminate].
    destruct (Ascii.eqb c nl); [|discriminate]. now exists (String c ""), n.
Qed.

(** What the date pattern captures: one or two digits, letters, four
    digits. *)
Lemma date_match (s : string) (pos e : nat) (g : caps) :
  match_at date_pattern s pos false = Some (e, g) ->
  exists day month year,
    g = [(3, year); (2, month); (1, day)] /\
    every isdigit day = true /\ String.length day <= 2 /\
    every isdigit year = true /\ String.length year = 4.
Proof.
  unfold match_at.
  change date_pattern
    with (Cat (Grp 1 (Rep isdigit 1 (Some 2)))
           (Cat alignment_forum_extract.ordinal
             (Cat (Rep isspace 1 None)
               (Cat (Grp 2 (Rep letter 1 None))
                 (Cat (Rep isspace 1 None)
                   (Cat (Grp 3 (Rep isdigit 4 (Some 4))) Eps)))))).
  cbn [run andb]. intros H.
  apply rep_some in H. destruct H as (j1 & _ & J1 & B1 & H).
  apply run_plain in H; [|reflexivity]. destruct H as (s2 & n2 & H).
  apply rep_some in H. destruct H as (j2 & _ & _ & _ & H).
  apply rep_some in H. destruct H as (j3 & _ & _ & _ & H).
  apply rep_some in H. destruct H as (j4 & _ & _ & _ & H).
  apply rep_some in H. destruct H as (j5 & L5 & J5 & B5 & H).
  inversion H; subst e g. clear H.
  do 3 eexists. split; [reflexivity|].
  replace (pos + j1 - pos) with j1 by lia.
  match goal with
  | |- context [take (?a + j5 - ?a) _] => replace (a + j5 - a) with j5 by lia
  end.
  destruct (take_within isdigit j1 s J1) as [E1 L1].
  destruct (take_within isdigit j5 _ J5) as [E5 L5'].
  rewrite E1, E5, L1, L5'. repeat split; lia.
Qed.

Lemma index_of_lt (x : string) (l : list string) :
  forall i, index_of x l = Some i -> i < List.length l.
Proof.
  induction l as [|y l IH]; intros i H; [discriminate|].
  simpl in *. destruct (String.eqb x y).
  - inversion H. lia.
  - destruct (index_of x l) as [j|]; [|discriminate].
    inversion H. specialize (IH j eq_refl). lia.
Qed.

Lemma format_02d_two (n : nat) :
  n < 100 ->
  String.length (format_02d n) = 2 /\ every isdigit (format_02d n) = true.
Proof.
  intros H.
  assert (A : forallb (fun n => (String.length (format_02d n) =? 2)
                                && every isdigit (format_02d n))
                      (List.seq 0 100) = true) by (vm_compute; reflexivity).
  rewrite forallb_forall in A.
  specialize (A n (proj2 (in_seq 100 0 n) (conj (Nat.le_0_l n) H))).
  apply andb_true_iff in A. destruct A as [A1 A2].
  apply Nat.eqb_eq in A1. now split.
Qed.

Lemma digit_value (c : ascii) : isdigit c = true -> code c - 48 < 10.
Proof.
  unfold isdigit, between. intros H. apply andb_true_iff in H.
  destruct H as [_ H]. apply Nat.leb_le in H. lia.
Qed.

Lemma two_digits_value (day : string) :
  every isdigit day = true -> String.length day <= 2 -> int_of_digits day < 100.
Proof.
  intros E L. destruct day as [|a [|b [|c r]]]; cbn [every] in E;
    cbn [String.length] in L; unfold int_of_digits.
  - lia.
  - rewrite andb_true_r in E. pose proof (digit_value a E). lia.
  - rewrite andb_true_r in E. apply andb_true_iff in E. destruct E as [Ea Eb].
    pose proof (digit_value a Ea). pose proof (digit_value b Eb). lia.
  - lia.
Qed.

(** The ways [parse_date] ends. *)
Lemma parse_date_cases (s : string) :
  parse_date s = Ok None \/
  exists day mname year,
    every isdigit year = true /\ String.length year = 4 /\
    int_of_digits day < 100 /\
    parse_date s
    = match index_of (lower (take 3 mname)) month_abbr with
      | Some i =>
          Ok (Some (year ++ "-" ++ format_02d (S i) ++ "-"
                         ++ format_02d (int_of_digits day))%string)
      | None => Raise ValueError
      end.
Proof.
  unfold parse_date, search.
  destruct (search_from date_pattern s 0) as [m|] eqn:E; [|now left].
  right. destruct (search_from_found _ _ _ _ E) as (s' & pos' & Hm).
  destruct (date_match _ _ _ _ Hm) as (day & mname & year & Hg & E1 & L1 & E3 & L3).
  exists day, mname, year. unfold m_group. rewrite Hg.
  cbn [group Nat.eqb]. unfold strptime_b_month.
  repeat split; try assumption; [now apply two_digits_value|].
  now destruct (index_of (lower (take 3 mname)) month_abbr).
Qed.

(** A date that [parse_date] returns is made of a year of four digits, a
    month from 01 to 12 and a day of two digits, with hyphens between
    them: ten characters. *)
Theorem parse_date_gives_iso_date (s d : string) :
  parse_date s = Ok (Some d) ->
  exists year month day,
    d = (year ++ "-" ++ format_02d month ++ "-" ++ format_02d day)%string /\
    String.length year = 4 /\ every isdigit year = true /\
    1 <= month <= 12 /\ day < 100 /\
    String.length d = 10.
Proof.
  intros H.
  destruct (parse_date_cases s) as [E|(day & mname & year & Ey & Ly & Hd & E)];
    [congruence|].
  rewrite E in H.
  destruct (index_of (lower (take 3 mname)) month_abbr) as [i|] eqn:Ei;
    [|discriminate].
  apply index_of_lt in Ei. change (List.length month_abbr) with 12 in Ei.
  inversion H; subst d. exists year, (S i), (int_of_digits day).
  repeat split; try assumption; try lia.
  destruct (format_02d_two (S i)) as [Lm _]; [lia|].
  destruct (format_02d_two (int_of_digits day) Hd) as [Ld _].
  rewrite length_app. cbn [String.length]. rewrite length_app.
  cbn [String.length]. rewrite Ly, Lm, Ld. reflexivity.
Qed.

Lemma parse_date_gives_iso_date_witness :
  exists year month day,
    "2024-01-22"
    = (year ++ "-" ++ format_02d month ++ "-" ++ format_02d day)%string /\
    String.length year = 4 /\ every isdigit year = true /\
    1 <= month <= 12 /\ day < 100 /\
    String.length "2024-01-22" = 10.
Proof.
  apply (parse_date_gives_iso_date "Posted on 22nd Jan 2024" "2024-01-22").
  vm_compute. reflexivity.
Defined.

(** The only error [parse_date] raises is the [ValueError] of the month
    lookup: the three groups of the pattern are always there. *)
Theorem parse_date_raises_value_error_only (s : string) (e : exn) :
  parse_date s = Raise e -> e = ValueError.
Proof.
  intros H.
  destruct (parse_date_cases s) as [E|(day & mname & year & _ & _ & _ & E)];
    [congruence|].
  rewrite E in H.
  destruct (index_of (lower (take 3 mname)) month_abbr); congruence.
Qed.

Lemma parse_date_raises_value_error_only_witness : ValueError = ValueError.
Proof.
  apply (parse_date_raises_value_error_only "22nd Foo 2024" ValueError).
  vm_compute. reflexivity.
Defined.

End Dates.


(** ** Files of URLs, and the list of videos *)

Module UrlFiles.
Import Py PyFacts.
Import Spec.
Local Open Scope nat_scope.
#[local] Arguments strip : simpl never.

Section ArxivMeta.
Variable results : string -> result Arxiv.Result.
Variable w : bool.

(** [arxiv_meta.py] reads its file line by line; blank lines and white
    space around a URL make no difference to what it does. *)
Theorem blank_lines_make_no_difference (lines : list string)
    (output_file : arxiv_meta.store) :
  arxiv_meta.process_lines results w lines output_file
  = arxiv_meta.process_lines results w
      (alignment_forum_extract.urls_of lines) output_file.
Proof.
  unfold alignment_forum_extract.urls_of. revert output_file.
  induction lines as [|l ls IH]; intros f; [reflexivity|].
  cbn [map filter arxiv_meta.process_lines].
  destruct (truthy (strip l)) eqn:Ht; [|apply IH].
  cbn [arxiv_meta.process_lines]. rewrite strip_idem, Ht.
  destruct (arxiv_meta.process_url results w (strip l) f) as [[ev f'] [r|e]];
    [|reflexivity].
  now rewrite IH.
Qed.

End ArxivMeta.

Section Youtube.
Variable yt_dlp : string -> youtube_meta.outcome.

Lemma collected (urls : list string) :
  snd (youtube_meta.collect yt_dlp urls) = extracted yt_dlp urls.
Proof.
  induction urls as [|u us IH]; [reflexivity|].
  cbn [youtube_meta.collect extracted flat_map].
  unfold youtube_meta.extract_metadata.
  destruct (youtube_meta.collect yt_dlp us) as [ev' vs]. cbn [snd] in *.
  fold (extracted yt_dlp us). rewrite <- IH.
  destruct (yt_dlp u); reflexivity.
Qed.

(** [youtube_meta.py] ends with the records of the URLs that [yt-dlp]
    answered, in the order of the URLs, in place of what the output file
    held before; when there is none the file is left alone, and a file
    that cannot be written gives exit status 1. *)
Theorem videos_replace_the_file (lines : list string) (writable : bool)
    (output_file : option (list youtube_meta.video)) :
  youtube_meta.main_output yt_dlp lines writable output_file
  = match extracted yt_dlp (alignment_forum_extract.urls_of lines) with
    | [] => (output_file, 0)
    | vs => if writable then (Some vs, 0) else (output_file, 1)
    end.
Proof.
  unfold youtube_meta.main_output, youtube_meta.main_file.
  rewrite collected. unfold youtube_meta.save_metadata.
  now destruct (extracted yt_dlp (alignment_forum_extract.urls_of lines)).
Qed.

End Youtube.

End UrlFiles.
